(** * image_preprocessor.py: OCR image preprocessing

    A shallow embedding of [image_preprocessor.py] and the properties its
    specification states about it.

    Definitions:
    - [OsPath]: the two [os.path] functions the module uses, on POSIX paths.
    - [Cv2]: single-channel 8-bit rasters and the OpenCV operations whose
      pixel-level behaviour the specification talks about; what the module
      only passes through (decoding, filters, Otsu's level, contour tracing,
      polygon rasters) is a [backend] the development is parametric in.
    - [Py]: exceptions, [try]/[except], [print] and the file system, as a
      state-and-error monad; which library calls raise is a parameter.
      Files are found by what a path names, not by how it is spelled.
    - [Preprocessor]: the five functions of the module, statement by
      statement, with the source line of every library call.
    - [Outcomes]: what each stage computes when its calls return.
    - [Demo]: a small concrete backend, file system and images.
    - [Artifacts]: the image and the names each pipeline writes.

    Theorems: [OsPathFacts], [FsFacts], [Cv2Facts], [Runs], [Properties]
    and [Extras]. *)

From Stdlib Require Import ZArith QArith Floats String Ascii List Bool Lia.
From stdpp Require Import gmap strings.

Open Scope string_scope.
Open Scope Z_scope.

(* ===================================================================== *)
(** ** os.path (posixpath) *)
(* ===================================================================== *)

Module OsPath.

Definition sep : ascii := "/"%char.
Definition extsep : ascii := "."%char.

(** [s.rfind(c)]: index of the last occurrence of [c], or -1. *)
Fixpoint rfind (s : string) (c : ascii) : Z :=
  match s with
  | EmptyString => -1
  | String a s' =>
      let r := rfind s' c in
      if 0 <=? r then r + 1 else if Ascii.eqb a c then 0 else -1
  end.

(** [s[i:]] and [s[:i]] for a non-negative index. *)
Fixpoint slice_from (i : nat) (s : string) : string :=
  match i, s with
  | O, _ => s
  | S _, EmptyString => EmptyString
  | S i', String _ s' => slice_from i' s'
  end.

Fixpoint slice_to (i : nat) (s : string) : string :=
  match i, s with
  | O, _ => EmptyString
  | S _, EmptyString => EmptyString
  | S i', String a s' => String a (slice_to i' s')
  end.

(** posixpath.basename: [i = p.rfind('/') + 1; return p[i:]]. *)
Definition basename (p : string) : string :=
  let i := rfind p sep + 1 in
  slice_from (Z.to_nat i) p.

(** The [while filenameIndex < dotIndex] loop of genericpath._splitext,
    run over [p[filenameIndex:dotIndex]]: it returns the split at the first
    character that is not a dot, and falls through when there is none. *)
Fixpoint has_non_dot (s : string) : bool :=
  match s with
  | EmptyString => false
  | String a s' => if Ascii.eqb a extsep then has_non_dot s' else true
  end.

(** posixpath.splitext (sep = '/', no altsep, extsep = '.'). *)
Definition splitext (p : string) : string * string :=
  let sepIndex := rfind p sep in
  let dotIndex := rfind p extsep in
  if (sepIndex <? dotIndex)
     && has_non_dot (slice_to (Z.to_nat (dotIndex - (sepIndex + 1)))
                              (slice_from (Z.to_nat (sepIndex + 1)) p))
  then (slice_to (Z.to_nat dotIndex) p, slice_from (Z.to_nat dotIndex) p)
  else (p, EmptyString).

(** [os.path.splitext(os.path.basename(path))[0]], the "stem". *)
Definition stem (path : string) : string := fst (splitext (basename path)).

(** A string holds no path separator. *)
Definition no_sep (s : string) : Prop := rfind s sep = -1.

End OsPath.

(* ===================================================================== *)
(** ** OpenCV rasters and the operations on them *)
(* ===================================================================== *)

Module Cv2.

(** A numpy [uint8] array of shape [(height, width)]; [px m y x] is
    [m[y, x]].  Samples are kept in [Z]; the operations below never leave
    the range 0..255 on inputs that are in it. *)
Record image := Image { height : Z; width : Z; px : Z -> Z -> Z }.

(** A three-channel array as [cv2.imread] returns it. *)
Record color_image :=
  ColorImage { cheight : Z; cwidth : Z; bgr : Z -> Z -> Z * Z * Z }.

(** A contour or point set: a sequence of integer points. *)
Definition points := list (Z * Z).

(** A 2x3 affine matrix, row by row. *)
Definition matrix := list float.

Definition inside (m : image) (y x : Z) : bool :=
  (0 <=? y) && (y <? height m) && (0 <=? x) && (x <? width m).

Definition uint8 (m : image) : Prop := forall y x, 0 <= px m y x <= 255.

(** A two-level image: every sample is 0 or 255. *)
Definition binary (m : image) : Prop :=
  forall y x, px m y x = 0 \/ px m y x = 255.

(** *** What the module needs from the imaging libraries and does not
    compute itself.  None of the properties below depends on how these are
    chosen. *)
Record backend := Backend {
  (** [cv2.cvtColor(img, cv2.COLOR_BGR2GRAY)] *)
  cvtColor_BGR2GRAY : color_image -> image;
  (** [cv2.minAreaRect(coords)[-1]] *)
  minAreaRect_angle : points -> float;
  (** [cv2.getRotationMatrix2D(center, angle, scale)] *)
  getRotationMatrix2D : Z * Z -> float -> float -> matrix;
  (** [cv2.warpAffine(src, M, (w, h), flags=INTER_CUBIC,
      borderMode=BORDER_REPLICATE)] *)
  warpAffine : image -> matrix -> Z * Z -> image;
  (** the threshold Otsu's method picks for an image *)
  otsu_level : image -> Z;
  (** the neighbourhood mean of [cv2.adaptiveThreshold], for an adaptive
      method and a block size *)
  neighbourhood_mean : Z -> image -> Z -> image;
  (** [cv2.fastNlMeansDenoising(src, None, h, templateWindowSize,
      searchWindowSize)] *)
  fastNlMeansDenoising : image -> Z -> Z -> Z -> image;
  (** [cv2.createCLAHE(clipLimit=3.0, tileGridSize=(8,8)).apply(src)] *)
  clahe_apply : image -> image;
  (** [cv2.convertScaleAbs(src, alpha=2.5, beta=50)] *)
  convertScaleAbs : image -> image;
  (** [cv2.bilateralFilter(src, d, sigmaColor, sigmaSpace)] *)
  bilateralFilter : image -> Z -> Z -> Z -> image;
  (** [cv2.findContours(img, cv2.RETR_EXTERNAL, cv2.CHAIN_APPROX_SIMPLE)[0]] *)
  findContours_external : image -> list points;
  (** the raster of a filled polygon: is pixel [(y, x)] inside or on it? *)
  polygon_covers : points -> Z -> Z -> bool;
  (** PIL: [img.convert('L')] and [ImageEnhance.Contrast(img).enhance(f)] *)
  pil_convert_L : color_image -> image;
  pil_contrast : image -> float -> image;
  (** what [cv2.imwrite(path, img)] returns: [False] when the file could
      not be written, in which case nothing is written and nothing raised *)
  imwrite_ok : string -> image -> bool
}.

(** *** Thresholding *)

Definition THRESH_BINARY : Z := 0.
Definition THRESH_BINARY_INV : Z := 1.
Definition THRESH_TRUNC : Z := 2.
Definition THRESH_TOZERO : Z := 3.
Definition THRESH_TOZERO_INV : Z := 4.
Definition THRESH_OTSU : Z := 8.

Definition threshold_px (kind t maxval v : Z) : Z :=
  if kind =? THRESH_BINARY then (if t <? v then maxval else 0)
  else if kind =? THRESH_BINARY_INV then (if t <? v then 0 else maxval)
  else if kind =? THRESH_TRUNC then (if t <? v then t else v)
  else if kind =? THRESH_TOZERO then (if t <? v then v else 0)
  else (if t <? v then 0 else v).

(** [cv2.threshold(src, thresh, maxval, type)]: the level used and the
    result.  With the [THRESH_OTSU] bit set the level is Otsu's and
    [thresh] is ignored. *)
Definition threshold (B : backend) (src : image) (thresh maxval type : Z)
  : Z * image :=
  let t := if Z.testbit type 3 then otsu_level B src else thresh in
  let kind := Z.land type 7 in
  (t, Image (height src) (width src)
            (fun y x => threshold_px kind t maxval (px src y x))).

Definition ADAPTIVE_THRESH_MEAN_C : Z := 0.
Definition ADAPTIVE_THRESH_GAUSSIAN_C : Z := 1.

(** [cv2.adaptiveThreshold(src, maxValue, adaptiveMethod, type, blockSize,
    C)]: a sample is compared with its neighbourhood mean minus [C]. *)
Definition adaptiveThreshold (B : backend) (src : image)
    (maxValue adaptiveMethod type blockSize C : Z) : image :=
  let mean := neighbourhood_mean B adaptiveMethod src blockSize in
  Image (height src) (width src)
        (fun y x =>
           let T := px mean y x - C in
           if type =? THRESH_BINARY_INV
           then (if T <? px src y x then 0 else maxValue)
           else (if T <? px src y x then maxValue else 0)).

(** *** Pixel-wise arithmetic *)

Definition bitwise_or (a b : image) : image :=
  Image (height a) (width a) (fun y x => Z.lor (px a y x) (px b y x)).

(** [cv2.subtract] on [uint8]: the difference saturates at 0. *)
Definition subtract (a b : image) : image :=
  Image (height a) (width a) (fun y x => Z.max 0 (px a y x - px b y x)).

(** *** Morphology with all-ones rectangular structuring elements *)

Record kernel := Kernel { krows : nat; kcols : nat }.

(** [np.ones((rows, cols), np.uint8)] *)
Definition np_ones (shape : nat * nat) : kernel :=
  Kernel (fst shape) (snd shape).

Definition MORPH_RECT : Z := 0.

(** [cv2.getStructuringElement(cv2.MORPH_RECT, (width, height))] *)
Definition getStructuringElement_RECT (ksize : nat * nat) : kernel :=
  Kernel (snd ksize) (fst ksize).

(** Offsets [(dy, dx)] of the element's cells from its anchor, the
    default anchor being the centre cell [(cols / 2, rows / 2)]. *)
Definition offsets (k : kernel) : list (Z * Z) :=
  let ay := Z.of_nat (krows k) / 2 in
  let ax := Z.of_nat (kcols k) / 2 in
  flat_map (fun i => map (fun j => (Z.of_nat i - ay, Z.of_nat j - ax))
                         (seq 0 (kcols k)))
           (seq 0 (krows k)).

(** [cv2.erode]: the minimum over the element.  With the default border
    (BORDER_CONSTANT, [morphologyDefaultBorderValue]) a cell that falls
    outside the image counts as 255 and so never lowers the minimum. *)
Definition erode (src : image) (k : kernel) : image :=
  Image (height src) (width src)
        (fun y x =>
           fold_right Z.min 255
             (map (fun d => if inside src (y + fst d) (x + snd d)
                            then px src (y + fst d) (x + snd d) else 255)
                  (offsets k))).

(** [cv2.dilate]: the maximum over the element; outside cells count as 0. *)
Definition dilate (src : image) (k : kernel) : image :=
  Image (height src) (width src)
        (fun y x =>
           fold_right Z.max 0
             (map (fun d => if inside src (y + fst d) (x + snd d)
                            then px src (y + fst d) (x + snd d) else 0)
                  (offsets k))).

Definition MORPH_ERODE : Z := 0.
Definition MORPH_DILATE : Z := 1.
Definition MORPH_OPEN : Z := 2.
Definition MORPH_CLOSE : Z := 3.

(** [cv2.morphologyEx(src, op, kernel)] for the four basic operations. *)
Definition morphologyEx (src : image) (op : Z) (k : kernel) : image :=
  if op =? MORPH_ERODE then erode src k
  else if op =? MORPH_DILATE then dilate src k
  else if op =? MORPH_OPEN then dilate (erode src k) k
  else erode (dilate src k) k.

(** *** Contours *)

Fixpoint shoelace (prev : Z * Z) (pts : points) : Z :=
  match pts with
  | [] => 0
  | p :: rest =>
      (fst prev * snd p - snd prev * fst p) + shoelace p rest
  end.

(** [cv2.contourArea(contour)]: half the absolute cross-product sum over
    consecutive vertices, starting from the last one. *)
Definition contourArea (c : points) : Q :=
  match c with
  | [] => 0%Q
  | p :: _ => (Z.abs (shoelace (List.last c p) c) # 2)%Q
  end.

(** [cv2.fillPoly(img, pts, color)]: every pixel covered by one of the
    polygons takes the colour, the others keep their value. *)
Definition fillPoly (B : backend) (img : image) (pts : list points)
    (color : Z) : image :=
  Image (height img) (width img)
        (fun y x =>
           if existsb (fun c => polygon_covers B c y x) pts
           then color else px img y x).

(** [np.column_stack(np.where(gray > 0))]: the coordinates of the samples
    above zero, in row-major order. *)
Definition nonzero_coords (gray : image) : points :=
  flat_map (fun y =>
              flat_map (fun x =>
                          if 0 <? px gray (Z.of_nat y) (Z.of_nat x)
                          then [(Z.of_nat y, Z.of_nat x)] else [])
                       (seq 0 (Z.to_nat (width gray))))
           (seq 0 (Z.to_nat (height gray))).

(** The two line elements of the UI-line removal step. *)
Definition hline : kernel := getStructuringElement_RECT (25, 1)%nat.
Definition vline : kernel := getStructuringElement_RECT (1, 25)%nat.

End Cv2.

(* ===================================================================== *)
(** ** Python effects: exceptions, print, files *)
(* ===================================================================== *)

Module Py.
Import OsPath Cv2.

(** *** Which file a path names *)

(** The components of a path: [path.split('/')]. *)
Fixpoint components (path : string) : list string :=
  match path with
  | EmptyString => [EmptyString]
  | String a rest =>
      if Ascii.eqb a sep then EmptyString :: components rest
      else match components rest with
           | c :: cs => String a c :: cs
           | [] => [String a EmptyString]
           end
  end.

(** Path resolution steps over empty components and over [.]. *)
Definition skipped (c : string) : bool :=
  String.eqb c "" || String.eqb c ".".

Fixpoint join_path (cs : list string) : string :=
  match cs with
  | [] => EmptyString
  | [c] => c
  | c :: rest => c +:+ String sep (join_path rest)
  end.

(** The file a path names, as the spelling without the components that
    resolution skips: [./scan.png], [.//scan.png] and [scan.png] are one
    file.  A leading [/] is kept (the working directory is not modelled),
    and so is a final [/] or [/.], which only a directory can carry.
    Links and [..] are not resolved. *)
Definition locate (path : string) : string :=
  let cs := components path in
  (if String.prefix "/" path then "/" else "")
  +:+ (join_path (List.filter (fun c => negb (skipped c)) cs)
       +:+ (if skipped (List.last cs EmptyString) then "/" else "")).

(** Two paths that name the same file. *)
Definition same_file (p q : string) : Prop := locate p = locate q.

#[global] Instance same_file_decision p q : Decision (same_file p q) :=
  decide (locate p = locate q).

(** A relative path without [..] components: what such a path names does
    not depend on the working directory or on which directories exist, so
    that, links apart, two such paths name one file exactly when [locate]
    gives them one spelling. *)
Definition plain (path : string) : bool :=
  negb (String.prefix "/" path)
  && forallb (fun c => negb (String.eqb c "..")) (components path).

(** What a path of the file system holds: an image the codecs can read in
    colour, a single-channel PNG as [cv2.imwrite] and PIL's [save] write
    it, or something that is not an image. *)
Inductive file :=
| ImageFile (c : color_image)
| GrayPng (g : image)
| OtherFile.

(** The file system: the files, each under the one spelling [locate]
    gives it.  Looking up, writing and deleting go through [locate], so
    every spelling of a path reaches the same file. *)
Record disk := Disk { entries : gmap string file }.

#[global] Instance disk_empty : Empty disk := Disk ∅.

#[global] Instance disk_lookup : Lookup string file disk :=
  fun path d => entries d !! locate path.

#[global] Instance disk_insert : Insert string file disk :=
  fun path f d => Disk (<[locate path := f]> (entries d)).

#[global] Instance disk_delete : Delete string disk :=
  fun path d => Disk (delete (locate path) (entries d)).

Record world := World {
  files : disk;               (* the file system *)
  stdout : list string        (* the lines printed so far, oldest first *)
}.

(** A statement ends normally with a value or raises an [Exception] whose
    text is [msg]. *)
Inductive result (A : Type) :=
| Ok (a : A)
| Raise (msg : string).
Arguments Ok {A} a.
Arguments Raise {A} msg.

Definition M (A : Type) : Type := world -> result A * world.

#[global] Instance M_ret : MRet M := fun A a w => (Ok a, w).

#[global] Instance M_bind : MBind M := fun A B k m w =>
  match m w with
  | (Ok a, w') => k a w'
  | (Raise msg, w') => (Raise msg, w')
  end.

(** [try: body except Exception as e: handler(e)] *)
Definition try_except {A} (body : M A) (handler : string -> M A) : M A :=
  fun w =>
    match body w with
    | (Ok a, w') => (Ok a, w')
    | (Raise msg, w') => handler msg w'
    end.

Definition print (line : string) : M unit :=
  fun w => (Ok tt, World (files w) (stdout w ++ [line])%list).

(** [os.path.exists(path)] *)
Definition os_path_exists (path : string) : M bool :=
  fun w => (Ok (bool_decide (is_Some (files w !! path))), w).

(** A gray PNG read back in colour has its level in all three channels. *)
Definition gray_as_bgr (g : image) : color_image :=
  ColorImage (height g) (width g) (fun y x => (px g y x, px g y x, px g y x)).

(** The colour image the codec reads at a path, if any. *)
Definition decoded (w : world) (path : string) : option color_image :=
  match files w !! path with
  | Some (ImageFile c) => Some c
  | Some (GrayPng g) => Some (gray_as_bgr g)
  | Some OtherFile | None => None
  end.

(** A PIL image: its mode ('RGB' or 'L') with its samples. *)
Inductive pil_image :=
| PilRGB (c : color_image)
| PilL (g : image).

Section Calls.

Variable B : backend.

(** Which library calls raise: [faults line i] is the text of the exception
    raised by the call at source line [line], in iteration [i] of the loop
    around it (0 outside loops), or [None] when that call returns. *)
Variable faults : nat -> nat -> option string.

(** A library call that returns [v] unless it raises. *)
Definition call {A} (line i : nat) (v : A) : M A :=
  fun w =>
    match faults line i with
    | Some msg => (Raise msg, w)
    | None => (Ok v, w)
    end.

(** [cv2.imread(path)]: [None] for a path that holds no readable image. *)
Definition cv2_imread (line : nat) (path : string) : M (option color_image) :=
  fun w =>
    match faults line 0 with
    | Some msg => (Raise msg, w)
    | None => (Ok (decoded w path), w)
    end.

(** [cv2.imwrite(path, img)] with a [.png] path: it raises, or writes the
    file and returns [True], or cannot write it and returns [False]. *)
Definition cv2_imwrite (line : nat) (path : string) (img : image) : M bool :=
  fun w =>
    match faults line 0 with
    | Some msg => (Raise msg, w)
    | None =>
        if imwrite_ok B path img
        then (Ok true, World (<[path := GrayPng img]> (files w)) (stdout w))
        else (Ok false, w)
    end.

(** [os.remove(path)]: raises when the path does not exist. *)
Definition os_remove (line i : nat) (path : string) : M unit :=
  fun w =>
    match faults line i with
    | Some msg => (Raise msg, w)
    | None =>
        match files w !! path with
        | Some _ => (Ok tt, World (delete path (files w)) (stdout w))
        | None => (Raise "[Errno 2] No such file or directory", w)
        end
    end.

(** [Image.open(path)]: raises when the path holds no readable image. *)
Definition Image_open (line : nat) (path : string) : M pil_image :=
  fun w =>
    match faults line 0 with
    | Some msg => (Raise msg, w)
    | None =>
        match files w !! path with
        | Some (ImageFile c) => (Ok (PilRGB c), w)
        | Some (GrayPng g) => (Ok (PilL g), w)
        | Some OtherFile => (Raise "cannot identify image file", w)
        | None => (Raise "[Errno 2] No such file or directory", w)
        end
    end.

(** [img.save(path)] for a mode 'L' image and a [.png] path: PIL raises
    when it cannot write. *)
Definition pil_save (line : nat) (path : string) (img : image) : M unit :=
  fun w =>
    match faults line 0 with
    | Some msg => (Raise msg, w)
    | None => (Ok tt, World (<[path := GrayPng img]> (files w)) (stdout w))
    end.

End Calls.

(** A computation that leaves the world alone: it returns a value that
    satisfies [Q], or raises. *)
Definition pure_post {A} (m : M A) (Q : A -> Prop) : Prop :=
  forall w, (exists a, m w = (Ok a, w) /\ Q a) \/ (exists msg, m w = (Raise msg, w)).

End Py.

(* ===================================================================== *)
(** ** image_preprocessor.py *)
(* ===================================================================== *)

Module Preprocessor.
Import OsPath Cv2 Py.

Section Program.

Variable B : backend.
Variable faults : nat -> nat -> option string.

#[local] Abbreviation call := (call faults).
#[local] Abbreviation cv2_imread := (cv2_imread faults).
#[local] Abbreviation cv2_imwrite := (cv2_imwrite B faults).

(** *** preprocess_image_for_ocr (lines 9-76) *)

(** Lines 30-33: from the rectangle's angle to the rotation to apply. *)
Definition skew_angle (angle : float) : float :=
  if (angle <? -45)%float then (- (90 + angle))%float else (- angle)%float.

(** Step 2 after the emptiness check, lines 29-42. *)
Definition deskew (img : color_image) (gray : image) (coords : points)
  : M image :=
  angle ← call 29 0 (minAreaRect_angle B coords);
  let angle := skew_angle angle in
  if (1 <? abs angle)%float then
    let h := cheight img in
    let w := cwidth img in
    let center := (w / 2, h / 2) in
    M ← call 39 0 (getRotationMatrix2D B center angle 1%float);
    call 40 0 (warpAffine B gray M (w, h))
  else
    mret gray.

(** The loop of lines 62-65; [i] counts the iterations. *)
Fixpoint remove_small_blobs (i : nat) (contours : list points)
    (processed : image) : M image :=
  match contours with
  | [] => mret processed
  | contour :: rest =>
      area ← call 63 i (contourArea contour);
      processed ← (if negb (Qle_bool 10 area)   (* area < 10 *)
                   then call 65 i (fillPoly B processed [contour] 0)
                   else mret processed);
      remove_small_blobs (S i) rest processed
  end.

(** Steps 3 to 5, lines 47-65. *)
Definition binarize_and_clean (rotated : image) : M image :=
  '(_, thresh) ← call 47 0 (threshold B rotated 0 255
                              (THRESH_BINARY_INV + THRESH_OTSU));
  let kernel := np_ones (3, 3)%nat in
  processed ← call 57 0 (morphologyEx thresh MORPH_CLOSE kernel);
  contours ← call 61 0 (findContours_external B processed);
  remove_small_blobs 0 contours processed.

Definition military_temp_path (image_path : string) : string :=
  "temp_military_processed_" +:+ (stem image_path +:+ "_ocr.png").

Definition preprocess_image_for_ocr (image_path : string) : M string :=
  try_except
    (img ← cv2_imread 16 image_path;
     match img with
     | None =>
         print ("Warning: Could not load image " +:+ image_path);;
         mret image_path
     | Some img =>
         gray ← call 21 0 (cvtColor_BGR2GRAY B img);
         let coords := nonzero_coords gray in
         if (length coords =? 0)%nat then
           print ("Warning: No content found in image " +:+ image_path);;
           mret image_path
         else
           rotated ← deskew img gray coords;
           processed ← binarize_and_clean rotated;
           let temp_path := military_temp_path image_path in
           cv2_imwrite 70 temp_path processed;;
           mret temp_path
     end)
    (fun e =>
       print ("Military-grade preprocessing failed for " +:+ (image_path
              +:+ (": " +:+ e)));;
       mret image_path).

(** *** preprocess_messaging_app_screenshot (lines 79-138) *)

(** Step 3, lines 100-106. *)
Definition multi_stage_binarization (enhanced : image) : M image :=
  '(_, binary1) ← call 100 0 (threshold B enhanced 0 255
                                (THRESH_BINARY + THRESH_OTSU));
  binary2 ← call 103 0 (adaptiveThreshold B enhanced 255
                          ADAPTIVE_THRESH_GAUSSIAN_C THRESH_BINARY 11 2);
  call 106 0 (bitwise_or binary1 binary2).

(** Step 4, lines 110-115. *)
Definition aggressive_morphology (combined : image) : M image :=
  let kernel_large := np_ones (5, 5)%nat in
  let kernel_small := np_ones (2, 2)%nat in
  opened ← call 114 0 (morphologyEx combined MORPH_OPEN kernel_small);
  call 115 0 (morphologyEx opened MORPH_CLOSE kernel_large).

(** Step 5, lines 119-127. *)
Definition remove_ui_lines (processed : image) : M image :=
  horizontal_kernel ← call 119 0 (getStructuringElement_RECT (25, 1)%nat);
  vertical_kernel ← call 120 0 (getStructuringElement_RECT (1, 25)%nat);
  horizontal_lines ← call 122 0 (morphologyEx processed MORPH_OPEN
                                   horizontal_kernel);
  vertical_lines ← call 123 0 (morphologyEx processed MORPH_OPEN
                                 vertical_kernel);
  processed ← call 126 0 (subtract processed horizontal_lines);
  call 127 0 (subtract processed vertical_lines).

Definition messaging_temp_path (image_path : string) : string :=
  "temp_messaging_processed_" +:+ (stem image_path +:+ "_ocr.png").

Definition preprocess_messaging_app_screenshot (image_path : string)
  : M string :=
  try_except
    (img ← cv2_imread 85 image_path;
     match img with
     | None => mret image_path
     | Some img =>
         gray ← call 89 0 (cvtColor_BGR2GRAY B img);
         denoised ← call 92 0 (fastNlMeansDenoising B gray 10 7 21);
         enhanced ← call 96 0 (clahe_apply B denoised);
         combined ← multi_stage_binarization enhanced;
         processed ← aggressive_morphology combined;
         processed ← remove_ui_lines processed;
         let temp_path := messaging_temp_path image_path in
         cv2_imwrite 132 temp_path processed;;
         mret temp_path
     end)
    (fun e =>
       print ("Messaging app preprocessing failed for " +:+ (image_path
              +:+ (": " +:+ e)));;
       mret image_path).

(** *** preprocess_with_multiple_methods (lines 141-191) *)

Definition conservative_temp_path (image_path : string) : string :=
  "temp_" +:+ (stem image_path +:+ "_conservative.png").

Definition extreme_temp_path (image_path : string) : string :=
  "temp_" +:+ (stem image_path +:+ "_extreme.png").

(** Method 3, lines 161-166. *)
Definition conservative_method (img : option color_image)
    (image_path : string) (methods : list (string * string))
  : M (list (string * string)) :=
  match img with
  | Some img =>
      gray ← call 162 0 (cvtColor_BGR2GRAY B img);
      '(_, conservative) ← call 163 0 (threshold B gray 127 255 THRESH_BINARY);
      let temp3 := conservative_temp_path image_path in
      cv2_imwrite 165 temp3 conservative;;
      mret (methods ++ [("conservative", temp3)])%list
  | None => mret methods
  end.

(** Method 4, lines 169-185. *)
Definition extreme_method (img : option color_image)
    (image_path : string) (methods : list (string * string))
  : M (list (string * string)) :=
  match img with
  | Some img =>
      gray ← call 170 0 (cvtColor_BGR2GRAY B img);
      enhanced ← call 173 0 (convertScaleAbs B gray);
      denoised ← call 176 0 (bilateralFilter B enhanced 15 80 80);
      '(_, binary) ← call 179 0 (threshold B denoised 0 255
                                   (THRESH_BINARY + THRESH_OTSU));
      let kernel := np_ones (7, 7)%nat in
      extreme ← call 181 0 (morphologyEx binary MORPH_CLOSE kernel);
      let temp4 := extreme_temp_path image_path in
      cv2_imwrite 184 temp4 extreme;;
      mret (methods ++ [("extreme_enhancement", temp4)])%list
  | None => mret methods
  end.

(** The [try] block, lines 149-187. *)
Definition collect_methods (image_path : string)
    (methods : list (string * string)) : M (list (string * string)) :=
  temp1 ← preprocess_image_for_ocr image_path;
  let methods := (methods ++ [("military_grade", temp1)])%list in
  temp2 ← preprocess_messaging_app_screenshot image_path;
  let methods := (methods ++ [("messaging_specialized", temp2)])%list in
  img ← cv2_imread 160 image_path;
  methods ← conservative_method img image_path methods;
  methods ← extreme_method img image_path methods;
  mret methods.

Definition preprocess_with_multiple_methods (image_path : string)
  : M (list (string * string)) :=
  let methods : list (string * string) := [] in
  try_except
    (collect_methods image_path methods)
    (fun e =>
       print ("Multi-method preprocessing failed for " +:+ (image_path
              +:+ (": " +:+ e)));;
       mret [("original", image_path)]).

(** *** cleanup_temp_files (lines 194-207) *)

Definition method_files (original_path : string) : list string :=
  let base_name := stem original_path in
  ["temp_" +:+ (base_name +:+ "_method1.png");
   "temp_" +:+ (base_name +:+ "_method2.png");
   "temp_" +:+ (base_name +:+ "_method3.png")].

(** The loop of lines 203-205. *)
Fixpoint remove_method_files (i : nat) (names : list string) : M unit :=
  match names with
  | [] => mret tt
  | method_file :: rest =>
      present ← os_path_exists method_file;
      (if (present : bool) then os_remove faults 205 i method_file
       else mret tt : M unit);;
      remove_method_files (S i) rest
  end.

Definition cleanup_temp_files (temp_path original_path : string) : M unit :=
  try_except
    (present ← (if bool_decide (temp_path ≠ original_path)
                then os_path_exists temp_path else mret false);
     if (present : bool) then
       os_remove faults 200 0 temp_path;;
       remove_method_files 0 (method_files original_path)
     else (mret tt : M unit))
    (fun e =>
       print ("Warning: Could not clean up temp file " +:+ (temp_path
              +:+ (": " +:+ e)))).

(** *** enhance_image_contrast (lines 210-232) *)

Definition enhanced_temp_path (image_path : string) : string :=
  "temp_enhanced_" +:+ (stem image_path +:+ ".png").

Definition enhance_image_contrast (image_path : string) : M string :=
  try_except
    (img ← Image_open faults 215 image_path;
     img ← match img with
           | PilL g => mret g
           | PilRGB c => call 218 0 (pil_convert_L B c)
           end;
     enhanced ← call 222 0 (pil_contrast B img 2%float);
     let temp_path := enhanced_temp_path image_path in
     pil_save faults 227 temp_path enhanced;;
     mret temp_path)
    (fun e =>
       print ("Contrast enhancement failed for " +:+ (image_path
              +:+ (": " +:+ e)));;
       mret image_path).

End Program.

End Preprocessor.

(* ===================================================================== *)
(** ** What the stages compute when their calls return *)
(* ===================================================================== *)

Module Outcomes.
Import OsPath Cv2 Py Preprocessor.

Section Outcomes.

Variable B : backend.
Variable faults : nat -> nat -> option string.

(** The rotation the deskew step applies, lines 30-42. *)
Definition deskewed (img : color_image) (gray : image) (coords : points) : image :=
  let angle := skew_angle (minAreaRect_angle B coords) in
  if (1 <? abs angle)%float
  then warpAffine B gray
         (getRotationMatrix2D B (cwidth img / 2, cheight img / 2) angle 1%float)
         (cwidth img, cheight img)
  else gray.

(** What the loop of lines 62-65 leaves when no call raises. *)
Definition blobs_removed (contours : list points) (processed : image) : image :=
  fold_left (fun acc contour =>
               if negb (Qle_bool 10 (contourArea contour))
               then fillPoly B acc [contour] 0 else acc)
            contours processed.

(** The image steps 3 to 5 of the military-grade pipeline produce. *)
Definition cleaned (rotated : image) : image :=
  let thresh := snd (threshold B rotated 0 255 (THRESH_BINARY_INV + THRESH_OTSU)) in
  let processed := morphologyEx thresh MORPH_CLOSE (np_ones (3, 3)%nat) in
  blobs_removed (findContours_external B processed) processed.

Definition combined_binarization (enhanced : image) : image :=
  bitwise_or (snd (threshold B enhanced 0 255 (THRESH_BINARY + THRESH_OTSU)))
             (adaptiveThreshold B enhanced 255 ADAPTIVE_THRESH_GAUSSIAN_C
                                THRESH_BINARY 11 2).

Definition opened_then_closed (combined : image) : image :=
  morphologyEx (morphologyEx combined MORPH_OPEN (np_ones (2, 2)%nat))
               MORPH_CLOSE (np_ones (5, 5)%nat).

Definition ui_lines_removed (processed : image) : image :=
  subtract (subtract processed (morphologyEx processed MORPH_OPEN hline))
           (morphologyEx processed MORPH_OPEN vline).

Definition conservative_lines : list nat := [162; 163; 165]%nat.
Definition extreme_lines : list nat := [170; 173; 176; 179; 181; 184]%nat.

Definition conservative_image (img : color_image) : image :=
  snd (threshold B (cvtColor_BGR2GRAY B img) 127 255 THRESH_BINARY).

Definition extreme_image (img : color_image) : image :=
  morphologyEx
    (snd (threshold B
            (bilateralFilter B (convertScaleAbs B (cvtColor_BGR2GRAY B img)) 15 80 80)
            0 255 (THRESH_BINARY + THRESH_OTSU)))
    MORPH_CLOSE (np_ones (7, 7)%nat).

(** The first of the calls at [lines] to raise, if any does. *)
Fixpoint first_fault (lines : list nat) : option string :=
  match lines with
  | [] => None
  | line :: rest =>
      match faults line 0 with
      | Some msg => Some msg
      | None => first_fault rest
      end
  end.

Definition write (path : string) (g : image) (w : world) : world :=
  World (<[path := GrayPng g]> (files w)) (stdout w).

(** What a [cv2.imwrite(path, g)] that does not raise leaves: the file
    written, or the world as it was when the call returns [False]. *)
Definition written (path : string) (g : image) (w : world) : world :=
  if imwrite_ok B path g then write path g w else w.

(** The outcome of the [try] block after methods 1 and 2 returned [temp1]
    and [temp2] and left the world [w2]. *)
Definition inline_outcome (p temp1 temp2 : string) (w2 : world)
  : result (list (string * string)) * world :=
  let methods := [("military_grade", temp1); ("messaging_specialized", temp2)] in
  match faults 160 0 with
  | Some msg => (Raise msg, w2)
  | None =>
      match decoded w2 p with
      | None => (Ok methods, w2)
      | Some img =>
          match first_fault conservative_lines with
          | Some msg => (Raise msg, w2)
          | None =>
              let w3 := written (conservative_temp_path p) (conservative_image img) w2 in
              match first_fault extreme_lines with
              | Some msg => (Raise msg, w3)
              | None =>
                  (Ok (methods ++ [("conservative", conservative_temp_path p);
                                   ("extreme_enhancement", extreme_temp_path p)])%list,
                   written (extreme_temp_path p) (extreme_image img) w3)
              end
          end
      end
  end.

End Outcomes.

(** What a call did to the file system: nothing, or exactly one two-level
    gray PNG at [path]. *)
Definition left_alone (w w' : world) : Prop := files w' = files w.

Definition wrote_binary (path : string) (w w' : world) : Prop :=
  exists g, binary g /\ w' = World (<[path := GrayPng g]> (files w)) (stdout w).

(** [enhance_image_contrast]: the same shape, for a gray PNG of any levels. *)
Definition wrote_png (path : string) (w w' : world) : Prop :=
  exists g, w' = World (<[path := GrayPng g]> (files w)) (stdout w).

(** What the [except] clause of line 189 makes of the [try] block. *)
Definition caught (p : string)
    (outcome : result (list (string * string)) * world)
  : result (list (string * string)) * world :=
  match outcome with
  | (Ok methods, w') => (Ok methods, w')
  | (Raise msg, w') =>
      (Ok [("original", p)],
       World (files w')
             (stdout w' ++ ["Multi-method preprocessing failed for "
                            +:+ (p +:+ (": " +:+ msg))])%list)
  end.

(** [area < 10], as line 64 tests it. *)
Definition small (contour : points) : bool :=
  negb (Qle_bool 10 (contourArea contour)).

(** A path that names the file one of [names] names. *)
Definition names_one_of (names : list string) (q : string) : Prop :=
  exists n, In n names /\ same_file q n.

(** From [w] to [w'] nothing was created or changed, and only files that
    one of [names] names were deleted. *)
Definition deleted_within (names : list string) (w w' : world) : Prop :=
  forall q, files w' !! q = files w !! q \/
            (files w' !! q = None /\ is_Some (files w !! q) /\
             names_one_of names q).

(** From [w] to [w'] every path holds what it held or a two-level gray PNG. *)
Definition only_binary_written (w w' : world) : Prop :=
  forall q, files w' !! q = files w !! q \/
            exists g, files w' !! q = Some (GrayPng g) /\ binary g.

End Outcomes.

(* ===================================================================== *)
(** ** A concrete setting to run the functions in *)
(* ===================================================================== *)

Module Demo.
Import Cv2 Py.

(** No library call raises. *)
Definition no_faults : nat -> nat -> option string := fun _ _ => None.

(** Only the call at [line] raises. *)
Definition fault_at (line : nat) (msg : string) : nat -> nat -> option string :=
  fun l _ => if (l =? line)%nat then Some msg else None.

(** The calls at the source lines [lines] raise. *)
Definition faults_at (lines : list nat) (msg : string)
  : nat -> nat -> option string :=
  fun l _ => if existsb (Nat.eqb l) lines then Some msg else None.

Definition box_covers (c : points) (y x : Z) : bool :=
  match c with
  | [] => false
  | p :: _ =>
      let xs := map fst c in
      let ys := map snd c in
      (fold_right Z.min (fst p) xs <=? x) && (x <=? fold_right Z.max (fst p) xs)
      && (fold_right Z.min (snd p) ys <=? y) && (y <=? fold_right Z.max (snd p) ys)
  end.

(** A stand-in for the imaging libraries: the green channel as gray level,
    identity filters, fixed levels and means, and polygons filled as their
    bounding boxes. *)
Definition backend : Cv2.backend := {|
  cvtColor_BGR2GRAY c :=
    Image (cheight c) (cwidth c) (fun y x => snd (fst (bgr c y x)));
  minAreaRect_angle pts :=
    if (length pts <=? 1)%nat then (-0.5)%float else (-60)%float;
  getRotationMatrix2D center angle scale := [scale; angle];
  warpAffine src M dsize := Image (snd dsize) (fst dsize) (fun y x => px src x y);
  otsu_level src := 127;
  neighbourhood_mean method src blockSize :=
    Image (height src) (width src) (fun _ _ => 100);
  fastNlMeansDenoising src h t s := src;
  clahe_apply src := src;
  convertScaleAbs src := src;
  bilateralFilter src d sc ss := src;
  findContours_external src := [];
  polygon_covers := box_covers;
  pil_convert_L c :=
    Image (cheight c) (cwidth c) (fun y x => snd (fst (bgr c y x)));
  pil_contrast src f := src;
  imwrite_ok path img := true
|}.

(** A 2x3 colour image with one bright pixel, and an all-black one. *)
Definition dot : color_image :=
  ColorImage 2 3 (fun y x => if (y =? 1) && (x =? 2)
                             then (200, 200, 200) else (0, 0, 0)).

Definition black : color_image := ColorImage 2 3 (fun _ _ => (0, 0, 0)).

Definition disk : world :=
  World (<["scan.png" := ImageFile dot]> (<["blank.png" := ImageFile black]> ∅)) [].

(** A 2x2 square (area 4) and a 5x2 bar (area exactly 10) on a white
    10x3 image. *)
Definition speck : points := [(0, 0); (2, 0); (2, 2); (0, 2)].
Definition bar : points := [(4, 0); (9, 0); (9, 2); (4, 2)].
Definition white : image := Image 3 10 (fun _ _ => 255).

(** A 40x40 image holding a full-width rule in row 5 and a 10-pixel stroke
    in row 20, columns 10 to 19. *)
Definition ruled : image :=
  Image 40 40 (fun y x =>
                 if y =? 5 then 255
                 else if (y =? 20) && (10 <=? x) && (x <=? 19) then 255
                 else 0).

(** A 30-pixel row whose columns 0 to 14 are foreground: a stroke 15 wide
    that touches the left border. *)
Definition border_stroke : image :=
  Image 1 30 (fun y x => if (0 <=? x) && (x <=? 14) then 255 else 0).

End Demo.

(* ===================================================================== *)
(** ** The artifact each pipeline writes *)
(* ===================================================================== *)

Module Artifacts.
Import OsPath Cv2 Py Preprocessor Outcomes.

Section Artifacts.

Variable B : backend.

(** The image [preprocess_image_for_ocr] writes, lines 21-65. *)
Definition military_image (img : color_image) : image :=
  let gray := cvtColor_BGR2GRAY B img in
  cleaned B (deskewed B img gray (nonzero_coords gray)).

(** The image [preprocess_messaging_app_screenshot] writes, lines 89-127. *)
Definition messaging_image (img : color_image) : image :=
  let gray := cvtColor_BGR2GRAY B img in
  let denoised := fastNlMeansDenoising B gray 10 7 21 in
  let enhanced := clahe_apply B denoised in
  ui_lines_removed (opened_then_closed (combined_binarization B enhanced)).

(** The image [enhance_image_contrast] writes for a file, lines 215-222:
    a mode 'L' image is enhanced as it is, any other is converted first. *)
Definition contrast_image (f : file) : option image :=
  match f with
  | ImageFile c => Some (pil_contrast B (pil_convert_L B c) 2%float)
  | GrayPng g => Some (pil_contrast B g 2%float)
  | OtherFile => None
  end.

End Artifacts.

(** The calls of [preprocess_messaging_app_screenshot], in program order. *)
Definition messaging_lines : list nat :=
  [85; 89; 92; 96; 100; 103; 106; 114; 115; 119; 120; 122; 123; 126; 127;
   132]%nat.

(** The calls [enhance_image_contrast] makes for a file: line 218 (the
    conversion) only for an image that is not of mode 'L'. *)
Definition contrast_lines (f : file) : list nat :=
  match f with
  | GrayPng _ => [215; 222; 227]%nat
  | _ => [215; 218; 222; 227]%nat
  end.

(** The four names [preprocess_with_multiple_methods] writes to. *)
Definition generator_paths (image_path : string) : list string :=
  [military_temp_path image_path; messaging_temp_path image_path;
   conservative_temp_path image_path; extreme_temp_path image_path].

(** From [w] to [w'] no file was deleted, and a file that changed is one
    that one of [names] names and holds a gray PNG. *)
Definition written_within (names : list string) (w w' : world) : Prop :=
  forall q, files w' !! q = files w !! q \/
            (names_one_of names q /\ exists g, files w' !! q = Some (GrayPng g)).

(** A light 7x7 gray image with a dark 5x5 block in rows and columns 1 to
    5, the outline [findContours] traces around the block once it is
    foreground (four corners, area 16), and the stand-in backend that
    returns this outline. *)
Definition block_image : image :=
  Image 7 7 (fun y x => if (1 <=? y) && (y <=? 5) && (1 <=? x) && (x <=? 5)
                        then 0 else 200).

Definition block_outline : points := [(1, 1); (1, 5); (5, 5); (5, 1)].

Definition tracing_backend : backend := {|
  cvtColor_BGR2GRAY := cvtColor_BGR2GRAY Demo.backend;
  minAreaRect_angle := minAreaRect_angle Demo.backend;
  getRotationMatrix2D := getRotationMatrix2D Demo.backend;
  warpAffine := warpAffine Demo.backend;
  otsu_level := otsu_level Demo.backend;
  neighbourhood_mean := neighbourhood_mean Demo.backend;
  fastNlMeansDenoising := fastNlMeansDenoising Demo.backend;
  clahe_apply := clahe_apply Demo.backend;
  convertScaleAbs := convertScaleAbs Demo.backend;
  bilateralFilter := bilateralFilter Demo.backend;
  findContours_external src := [block_outline];
  polygon_covers := polygon_covers Demo.backend;
  pil_convert_L := pil_convert_L Demo.backend;
  pil_contrast := pil_contrast Demo.backend;
  imwrite_ok := imwrite_ok Demo.backend
|}.

(** The names of the five temp artifacts of a source path. *)
Definition artifact_paths (image_path : string) : list string :=
  [military_temp_path image_path; messaging_temp_path image_path;
   conservative_temp_path image_path; extreme_temp_path image_path;
   enhanced_temp_path image_path].

(** A working directory after a run: the two sources of [Demo.disk], the
    military-grade and the conservative artifact of [scan.png], and a stray
    file under one of the sibling names. *)
Definition workdir : world :=
  World (<["temp_scan_method2.png" := OtherFile]>
           (<["temp_scan_conservative.png" := GrayPng Demo.white]>
              (<["temp_military_processed_scan_ocr.png" := GrayPng Demo.white]>
                 (files Demo.disk))))
        [].

(** [cleanup_temp_files] swept everything it could: the files that
    [temp_path] and the three sibling names name are gone, under every
    spelling, and what a plain path names that names none of them is as it
    was. *)
Definition swept (temp_path original_path : string) (w w' : world) : Prop :=
  forall q,
    (names_one_of (temp_path :: method_files original_path) q ->
     files w' !! q = None) /\
    (plain q = true ->
     ~ names_one_of (temp_path :: method_files original_path) q ->
     files w' !! q = files w !! q).

End Artifacts.

(* ===================================================================== *)
(** ** Facts about os.path *)
(* ===================================================================== *)

Module OsPathFacts.
Import OsPath.

Lemma rfind_lower s c : -1 <= rfind s c.
Proof.
  induction s as [|a s IH]; simpl; [lia|].
  destruct (0 <=? rfind s c) eqn:E; [apply Z.leb_le in E; lia|].
  destruct (Ascii.eqb a c); lia.
Qed.

Lemma rfind_upper s c : rfind s c < Z.of_nat (String.length s).
Proof.
  induction s as [|a s IH]; simpl String.length; simpl rfind; [lia|].
  destruct (0 <=? rfind s c); [lia|].
  destruct (Ascii.eqb a c); lia.
Qed.

Lemma app_nil_l (t : string) : EmptyString +:+ t = t.
Proof. reflexivity. Qed.

Lemma app_cons a (s t : string) : String a s +:+ t = String a (s +:+ t).
Proof. reflexivity. Qed.

Lemma length_app (s t : string) :
  String.length (s +:+ t) = (String.length s + String.length t)%nat.
Proof.
  induction s as [|a s IH]; [reflexivity|].
  rewrite app_cons. simpl. now rewrite IH.
Qed.

Lemma rfind_app s t c :
  rfind (s +:+ t) c =
    if 0 <=? rfind t c then Z.of_nat (String.length s) + rfind t c
    else rfind s c.
Proof.
  induction s as [|a s IH].
  - rewrite app_nil_l. simpl. destruct (0 <=? rfind t c) eqn:E; [reflexivity|].
    apply Z.leb_gt in E. pose proof (rfind_lower t c). lia.
  - rewrite app_cons. cbn [rfind String.length]. rewrite IH.
    destruct (0 <=? rfind t c) eqn:E.
    + apply Z.leb_le in E.
      replace (0 <=? Z.of_nat (String.length s) + rfind t c) with true
        by (symmetry; apply Z.leb_le; lia).
      lia.
    + reflexivity.
Qed.

Lemma slice_from_0 s : slice_from 0 s = s.
Proof. destruct s; reflexivity. Qed.

Lemma slice_to_app s t : slice_to (String.length s) (s +:+ t) = s.
Proof.
  induction s as [|a s IH]; [reflexivity|].
  rewrite app_cons. simpl. now rewrite IH.
Qed.

Lemma slice_from_app s t : slice_from (String.length s) (s +:+ t) = t.
Proof.
  induction s as [|a s IH]; [apply slice_from_0|].
  rewrite app_cons. simpl. exact IH.
Qed.

Lemma slice_to_from i s : slice_to i s +:+ slice_from i s = s.
Proof.
  revert s; induction i as [|i IH]; intros [|a s]; simpl; try reflexivity.
  rewrite app_cons. now rewrite IH.
Qed.

Lemma app_nil_r (s : string) : s +:+ EmptyString = s.
Proof.
  induction s as [|a s IH]; [reflexivity|]. rewrite app_cons. now rewrite IH.
Qed.

Lemma no_sep_app s t : no_sep s -> no_sep t -> no_sep (s +:+ t).
Proof.
  unfold no_sep; intros Hs Ht. rewrite rfind_app, Ht. simpl. exact Hs.
Qed.

Lemma no_sep_app_inv s t : no_sep (s +:+ t) -> no_sep s /\ no_sep t.
Proof.
  unfold no_sep. rewrite rfind_app.
  destruct (0 <=? rfind t sep) eqn:E.
  - apply Z.leb_le in E. lia.
  - apply Z.leb_gt in E. pose proof (rfind_lower t sep). intros; split; lia.
Qed.

Lemma rfind_slice_from s c :
  0 <= rfind s c -> rfind (slice_from (Z.to_nat (rfind s c + 1)) s) c = -1.
Proof.
  induction s as [|a s IH]; simpl rfind; [lia|].
  destruct (0 <=? rfind s c) eqn:E.
  - apply Z.leb_le in E. intros _.
    replace (Z.to_nat (rfind s c + 1 + 1)) with (S (Z.to_nat (rfind s c + 1))) by lia.
    simpl. apply IH, E.
  - apply Z.leb_gt in E. destruct (Ascii.eqb a c); [|lia]. intros _.
    simpl. pose proof (rfind_lower s c). lia.
Qed.

Lemma basename_no_sep p : no_sep (basename p).
Proof.
  unfold no_sep, basename.
  destruct (Z.le_gt_cases 0 (rfind p sep)) as [H|H].
  - now apply rfind_slice_from.
  - pose proof (rfind_lower p sep).
    replace (rfind p sep + 1) with 0 by lia. simpl Z.to_nat.
    rewrite slice_from_0. lia.
Qed.

Lemma basename_id p : no_sep p -> basename p = p.
Proof. unfold no_sep, basename. intros ->. apply slice_from_0. Qed.

Lemma splitext_join p : fst (splitext p) +:+ snd (splitext p) = p.
Proof.
  unfold splitext.
  destruct (_ && _); simpl; [apply slice_to_from|apply app_nil_r].
Qed.

Lemma stem_no_sep p : no_sep (stem p).
Proof.
  unfold stem. pose proof (basename_no_sep p) as H.
  rewrite <- (splitext_join (basename p)) in H.
  now apply no_sep_app_inv in H.
Qed.

(** The stem of a separator-free name that ends in [.png] and does not
    start with a dot is the name without that extension. *)
Lemma splitext_png a X :
  Ascii.eqb a extsep = false -> no_sep (String a X) ->
  splitext (String a X +:+ ".png") = (String a X, ".png").
Proof.
  intros Ha HX. unfold splitext.
  assert (Hs : rfind (String a X +:+ ".png") sep = -1).
  { rewrite rfind_app. change (rfind ".png" sep) with (-1). exact HX. }
  assert (Hd : rfind (String a X +:+ ".png") extsep
               = Z.of_nat (String.length (String a X))).
  { rewrite rfind_app. change (rfind ".png" extsep) with 0.
    change (0 <=? 0) with true. cbv iota. lia. }
  rewrite Hs, Hd.
  replace (-1 <? Z.of_nat (String.length (String a X))) with true
    by (symmetry; apply Z.ltb_lt; lia).
  replace (Z.to_nat (Z.of_nat (String.length (String a X)) - (-1 + 1)))
    with (String.length (String a X)) by lia.
  change (Z.to_nat (-1 + 1)) with 0%nat.
  rewrite slice_from_0, Nat2Z.id, slice_to_app, slice_from_app.
  simpl. now rewrite Ha.
Qed.

Lemma stem_png a X :
  Ascii.eqb a extsep = false -> no_sep (String a X) ->
  stem (String a X +:+ ".png") = String a X.
Proof.
  intros Ha HX. unfold stem.
  rewrite basename_id by (apply no_sep_app; [exact HX|reflexivity]).
  now rewrite splitext_png.
Qed.

Lemma app_assoc (s t u : string) : (s +:+ t) +:+ u = s +:+ (t +:+ u).
Proof.
  induction s as [|a s IH]; [reflexivity|].
  rewrite !app_cons. now rewrite IH.
Qed.

(** No name built as [<prefix><stem of p><suffix>.png], with a non-empty
    prefix that starts with neither a dot nor a separator, is [p] itself. *)
Lemma template_ne_source a pre suf p :
  Ascii.eqb a extsep = false ->
  no_sep (String a pre) -> no_sep suf ->
  String a pre +:+ (stem p +:+ (suf +:+ ".png")) <> p.
Proof.
  intros Ha Hpre Hsuf Heq.
  assert (HX : no_sep (String a (pre +:+ (stem p +:+ suf)))).
  { rewrite <- app_cons.
    apply no_sep_app; [exact Hpre|].
    apply no_sep_app; [apply stem_no_sep|exact Hsuf]. }
  assert (Hp : p = String a (pre +:+ (stem p +:+ suf)) +:+ ".png").
  { rewrite <- Heq at 1. rewrite !app_cons. f_equal.
    now rewrite !app_assoc. }
  assert (Hs : stem p = String a (pre +:+ (stem p +:+ suf))).
  { rewrite Hp at 1. now apply stem_png. }
  apply (f_equal String.length) in Hs.
  simpl in Hs. rewrite !length_app in Hs. lia.
Qed.

End OsPathFacts.

(* ===================================================================== *)
(** ** Facts about path resolution and the file system *)
(* ===================================================================== *)

Module FsFacts.
Import OsPath Py OsPathFacts.

Lemma components_nonempty s : components s <> [].
Proof.
  destruct s as [|a s]; cbn [components]; [discriminate|].
  destruct (Ascii.eqb a sep); [discriminate|].
  destruct (components s); discriminate.
Qed.

Lemma components_no_sep s : no_sep s -> components s = [s].
Proof.
  unfold no_sep. induction s as [|a s IH]; [reflexivity|].
  cbn [rfind components].
  destruct (0 <=? rfind s sep) eqn:E.
  - apply Z.leb_le in E. lia.
  - destruct (Ascii.eqb a sep); [discriminate|]. intros _.
    rewrite IH; [reflexivity|].
    apply Z.leb_gt in E. pose proof (rfind_lower s sep). lia.
Qed.

Lemma components_sep s :
  0 <= rfind s sep -> exists c1 c2 rest, components s = c1 :: c2 :: rest.
Proof.
  induction s as [|a s IH]; cbn [rfind components]; [lia|].
  destruct (0 <=? rfind s sep) eqn:E.
  - apply Z.leb_le in E. destruct (IH E) as (c1 & c2 & rest & ->). intros _.
    destruct (Ascii.eqb a sep); eauto.
  - destruct (Ascii.eqb a sep); [|lia]. intros _.
    pose proof (components_nonempty s).
    destruct (components s) as [|c cs]; [contradiction|]. eauto.
Qed.

Lemma basename_last s : basename s = List.last (components s) EmptyString.
Proof.
  unfold basename. induction s as [|a s IH]; [reflexivity|].
  cbn [rfind components].
  destruct (0 <=? rfind s sep) eqn:E.
  - apply Z.leb_le in E.
    replace (Z.to_nat (rfind s sep + 1 + 1)) with (S (Z.to_nat (rfind s sep + 1)))
      by lia.
    cbn [slice_from]. rewrite IH.
    destruct (components_sep s E) as (c1 & c2 & rest & ->).
    destruct (Ascii.eqb a sep); reflexivity.
  - apply Z.leb_gt in E.
    assert (Hn : no_sep s) by (pose proof (rfind_lower s sep); unfold no_sep; lia).
    rewrite (components_no_sep s Hn).
    destruct (Ascii.eqb a sep); reflexivity.
Qed.

Lemma join_path_sep c1 c2 rest : 0 <= rfind (join_path (c1 :: c2 :: rest)) sep.
Proof.
  change (join_path (c1 :: c2 :: rest))
    with (c1 +:+ String sep (join_path (c2 :: rest))).
  generalize (join_path (c2 :: rest)). intros t. rewrite rfind_app.
  assert (H : 0 <= rfind (String sep t) sep).
  { cbn [rfind]. destruct (0 <=? rfind t sep) eqn:E.
    - apply Z.leb_le in E. lia.
    - rewrite Ascii.eqb_refl. lia. }
  apply Z.leb_le in H as H'. rewrite H'. lia.
Qed.

Lemma locate_plain s : no_sep s -> skipped s = false -> locate s = s.
Proof.
  intros Hn Hs. unfold locate. rewrite (components_no_sep s Hn).
  cbn [List.filter List.last]. rewrite Hs. cbn [negb].
  assert (Hp : String.prefix "/" s = false).
  { destruct s as [|a s]; [reflexivity|]. cbn [String.prefix].
    unfold no_sep in Hn. cbn [rfind] in Hn.
    destruct (0 <=? rfind s sep); [pose proof (rfind_lower s sep); lia|].
    destruct (ascii_dec "/" a) as [<- | Hne]; [|reflexivity].
    change (Ascii.eqb "/" sep) with true in Hn. discriminate. }
  rewrite Hp. cbn [join_path]. now rewrite app_nil_l, app_nil_r.
Qed.

Lemma locate_no_sep_basename p :
  no_sep (locate p) -> locate p <> EmptyString -> basename p = locate p.
Proof.
  unfold locate. intros Hn Hne.
  apply no_sep_app_inv in Hn as [Hpre Hn].
  apply no_sep_app_inv in Hn as [Hj Hsuf].
  destruct (String.prefix "/" p); [discriminate Hpre|].
  destruct (skipped (List.last (components p) EmptyString)) eqn:Hl;
    [discriminate Hsuf|].
  rewrite app_nil_l, app_nil_r in *.
  rewrite basename_last.
  pose proof (components_nonempty p) as Hc.
  assert (Hin : In (List.last (components p) EmptyString)
                   (List.filter (fun c => negb (skipped c)) (components p))).
  { apply filter_In. split; [|now rewrite Hl].
    destruct (exists_last Hc) as (l & x & ->). rewrite last_last.
    apply in_or_app. right. now left. }
  assert (Hlast : forall l : list string,
             List.last (List.filter (fun c => negb (skipped c)) l) EmptyString
             = if skipped (List.last l EmptyString) then
                 List.last (List.filter (fun c => negb (skipped c)) l) EmptyString
               else List.last l EmptyString).
  { intros l. destruct (skipped (List.last l EmptyString)) eqn:E; [reflexivity|].
    destruct l as [|x l] using rev_ind; [reflexivity|].
    rewrite last_last in E |- *. rewrite List.filter_app. cbn [List.filter].
    rewrite E. cbn [negb]. now rewrite last_last. }
  specialize (Hlast (components p)). rewrite Hl in Hlast.
  destruct (List.filter (fun c => negb (skipped c)) (components p))
    as [|c1 [|c2 rest]] eqn:Ef.
  - destruct Hin.
  - cbn [List.last] in Hlast. cbn [join_path]. now symmetry.
  - pose proof (join_path_sep c1 c2 rest). unfold no_sep in Hj. lia.
Qed.

Lemma skipped_plain a x : Ascii.eqb a extsep = false -> skipped (String a x) = false.
Proof.
  intros Ha. unfold skipped. cbn [String.eqb].
  change "."%char with extsep. now rewrite Ha.
Qed.

Lemma template_plain a pre suf p :
  Ascii.eqb a extsep = false -> no_sep (String a pre) -> no_sep suf ->
  locate (String a pre +:+ (stem p +:+ suf)) = String a pre +:+ (stem p +:+ suf).
Proof.
  intros Ha Hpre Hsuf. apply locate_plain.
  - apply no_sep_app; [exact Hpre|]. apply no_sep_app; [apply stem_no_sep|exact Hsuf].
  - rewrite app_cons. now apply skipped_plain.
Qed.

(** The file a temp name names is never the source itself, under any
    spelling of the source path. *)
Lemma template_not_source_file a pre suf p :
  Ascii.eqb a extsep = false ->
  no_sep (String a pre) -> no_sep suf ->
  ~ same_file (String a pre +:+ (stem p +:+ (suf +:+ ".png"))) p.
Proof.
  intros Ha Hpre Hsuf. unfold same_file.
  assert (Hs : no_sep (suf +:+ ".png")) by (apply no_sep_app; [exact Hsuf|reflexivity]).
  rewrite (template_plain a pre (suf +:+ ".png") p Ha Hpre Hs).
  set (T := String a pre +:+ (stem p +:+ (suf +:+ ".png"))).
  intros H.
  assert (HT : no_sep T).
  { apply no_sep_app; [exact Hpre|]. apply no_sep_app; [apply stem_no_sep|exact Hs]. }
  assert (Hb : basename p = T).
  { rewrite H. apply locate_no_sep_basename; rewrite <- H; [exact HT|].
    unfold T. rewrite app_cons. discriminate. }
  assert (Hst : stem p = stem T).
  { unfold stem. now rewrite Hb, (basename_id T HT). }
  apply (template_ne_source a pre suf T Ha Hpre Hsuf).
  fold T. rewrite <- Hst. reflexivity.
Qed.

(** *** Lookup, write and delete on the file system *)

Lemma disk_lookup_alias (d : disk) p q : same_file p q -> d !! p = d !! q.
Proof. unfold same_file, lookup, disk_lookup. now intros ->. Qed.

Lemma disk_lookup_insert (d : disk) p q f :
  same_file p q -> <[p := f]> d !! q = Some f.
Proof.
  unfold same_file, lookup, insert, disk_lookup, disk_insert. intros ->.
  cbn [entries]. apply lookup_insert_eq.
Qed.

Lemma disk_lookup_insert_ne (d : disk) p q f :
  ~ same_file p q -> <[p := f]> d !! q = d !! q.
Proof.
  unfold same_file, lookup, insert, disk_lookup, disk_insert. intros H.
  cbn [entries]. now apply lookup_insert_ne.
Qed.

Lemma disk_lookup_delete (d : disk) p q :
  same_file p q -> delete p d !! q = None.
Proof.
  unfold same_file, lookup, delete, disk_lookup, disk_delete. intros ->.
  cbn [entries]. apply lookup_delete_eq.
Qed.

Lemma disk_lookup_delete_ne (d : disk) p q :
  ~ same_file p q -> delete p d !! q = d !! q.
Proof.
  unfold same_file, lookup, delete, disk_lookup, disk_delete. intros H.
  cbn [entries]. now apply lookup_delete_ne.
Qed.

Lemma disk_delete_absent (d : disk) p : d !! p = None -> delete p d = d.
Proof.
  unfold lookup, delete, disk_lookup, disk_delete. intros H.
  destruct d as [m]. cbn [entries] in *. f_equal. now apply delete_id.
Qed.

Lemma disk_delete_insert (d : disk) p f :
  d !! p = None -> delete p (<[p := f]> d) = d.
Proof.
  unfold lookup, delete, insert, disk_lookup, disk_delete, disk_insert. intros H.
  destruct d as [m]. cbn [entries] in *. f_equal.
  rewrite delete_insert_eq. now apply delete_id.
Qed.

Lemma same_file_refl p : same_file p p.
Proof. reflexivity. Qed.

Lemma same_file_dec p q : {same_file p q} + {~ same_file p q}.
Proof. unfold same_file. apply string_dec. Qed.

End FsFacts.

(* ===================================================================== *)
(** ** Facts about the raster operations *)
(* ===================================================================== *)

Module Cv2Facts.
Import Cv2.

(** *** Two-level images stay two-level *)

Lemma threshold_binary B src thresh type :
  Z.land type 7 = THRESH_BINARY \/ Z.land type 7 = THRESH_BINARY_INV ->
  binary (snd (threshold B src thresh 255 type)).
Proof.
  intros Hk y x. unfold threshold, threshold_px. cbn [snd px].
  destruct Hk as [-> | ->]; cbn;
    match goal with |- context [?a <? ?b] => destruct (a <? b) end; auto.
Qed.

Lemma adaptiveThreshold_binary B src method type blockSize C :
  binary (adaptiveThreshold B src 255 method type blockSize C).
Proof.
  intros y x. unfold adaptiveThreshold. cbn [px].
  destruct (type =? THRESH_BINARY_INV);
    match goal with |- context [?a <? ?b] => destruct (a <? b) end; auto.
Qed.

Lemma bitwise_or_binary a b : binary a -> binary b -> binary (bitwise_or a b).
Proof.
  intros Ha Hb y x. unfold bitwise_or. cbn [px].
  destruct (Ha y x) as [-> | ->], (Hb y x) as [-> | ->]; auto.
Qed.

Lemma subtract_binary a b : binary a -> binary b -> binary (subtract a b).
Proof.
  intros Ha Hb y x. unfold subtract. cbn [px].
  destruct (Ha y x) as [-> | ->], (Hb y x) as [-> | ->]; auto.
Qed.

Lemma fold_min_levels (l : list Z) :
  Forall (fun v => v = 0 \/ v = 255) l ->
  fold_right Z.min 255 l = 0 \/ fold_right Z.min 255 l = 255.
Proof.
  induction 1 as [|v l Hv _ IH]; cbn [fold_right]; [auto|].
  destruct Hv as [-> | ->], IH as [-> | ->]; auto.
Qed.

Lemma fold_max_levels (l : list Z) :
  Forall (fun v => v = 0 \/ v = 255) l ->
  fold_right Z.max 0 l = 0 \/ fold_right Z.max 0 l = 255.
Proof.
  induction 1 as [|v l Hv _ IH]; cbn [fold_right]; [auto|].
  destruct Hv as [-> | ->], IH as [-> | ->]; auto.
Qed.

Lemma erode_binary src k : binary src -> binary (erode src k).
Proof.
  intros H y x. unfold erode. cbn [px].
  apply fold_min_levels, List.Forall_forall. intros v Hv.
  apply in_map_iff in Hv as [d [<- _]].
  destruct (inside src _ _); auto.
Qed.

Lemma dilate_binary src k : binary src -> binary (dilate src k).
Proof.
  intros H y x. unfold dilate. cbn [px].
  apply fold_max_levels, List.Forall_forall. intros v Hv.
  apply in_map_iff in Hv as [d [<- _]].
  destruct (inside src _ _); auto.
Qed.

Lemma morphologyEx_binary src op k : binary src -> binary (morphologyEx src op k).
Proof.
  intros H. unfold morphologyEx.
  repeat match goal with |- context [if ?c then _ else _] => destruct c end;
    auto using erode_binary, dilate_binary.
Qed.

Lemma fillPoly_binary B img pts : binary img -> binary (fillPoly B img pts 0).
Proof.
  intros H y x. unfold fillPoly. cbn [px].
  destruct (existsb _ pts); auto.
Qed.

(** *** Minimum and maximum over a structuring element *)

Lemma in_offsets k dy dx :
  In (dy, dx) (offsets k) <->
  - (Z.of_nat (krows k) / 2) <= dy < Z.of_nat (krows k) - Z.of_nat (krows k) / 2 /\
  - (Z.of_nat (kcols k) / 2) <= dx < Z.of_nat (kcols k) - Z.of_nat (kcols k) / 2.
Proof.
  unfold offsets. rewrite in_flat_map. split.
  - intros [i [Hi Hm]]. apply in_map_iff in Hm as [j [Heq Hj]].
    apply in_seq in Hi. apply in_seq in Hj. inversion Heq; subst. lia.
  - intros [Hy Hx].
    exists (Z.to_nat (dy + Z.of_nat (krows k) / 2)). split; [apply in_seq; lia|].
    apply in_map_iff. exists (Z.to_nat (dx + Z.of_nat (kcols k) / 2)).
    split; [f_equal; lia | apply in_seq; lia].
Qed.

Lemma fold_min_upper (l : list Z) : fold_right Z.min 255 l <= 255.
Proof. induction l as [|v l IH]; cbn [fold_right]; lia. Qed.

Lemma fold_min_lower c (l : list Z) :
  c <= 255 -> (forall v, In v l -> c <= v) -> c <= fold_right Z.min 255 l.
Proof.
  intros Hc. induction l as [|v l IH]; cbn [fold_right]; intros H; [lia|].
  pose proof (H v (or_introl eq_refl)).
  assert (c <= fold_right Z.min 255 l) by (apply IH; intros; apply H; now right).
  lia.
Qed.

Lemma fold_min_le_elem v (l : list Z) : In v l -> fold_right Z.min 255 l <= v.
Proof.
  induction l as [|u l IH]; cbn [fold_right]; intros H; [destruct H|].
  destruct H as [-> | H]; [lia|]. specialize (IH H). lia.
Qed.

Lemma fold_max_lower (l : list Z) : 0 <= fold_right Z.max 0 l.
Proof. induction l as [|v l IH]; cbn [fold_right]; lia. Qed.

Lemma fold_max_upper c (l : list Z) :
  0 <= c -> (forall v, In v l -> v <= c) -> fold_right Z.max 0 l <= c.
Proof.
  intros Hc. induction l as [|v l IH]; cbn [fold_right]; intros H; [lia|].
  pose proof (H v (or_introl eq_refl)).
  assert (fold_right Z.max 0 l <= c) by (apply IH; intros; apply H; now right).
  lia.
Qed.

Lemma fold_max_ge_elem v (l : list Z) : In v l -> v <= fold_right Z.max 0 l.
Proof.
  induction l as [|u l IH]; cbn [fold_right]; intros H; [destruct H|].
  destruct H as [-> | H]; [lia|]. specialize (IH H). lia.
Qed.

Lemma erode_upper src k y x : px (erode src k) y x <= 255.
Proof. apply fold_min_upper. Qed.

Lemma erode_lower c src k y x :
  c <= 255 ->
  (forall dy dx, In (dy, dx) (offsets k) -> inside src (y + dy) (x + dx) = true ->
                 c <= px src (y + dy) (x + dx)) ->
  c <= px (erode src k) y x.
Proof.
  intros Hc H. apply fold_min_lower; [exact Hc|].
  intros v Hv. apply in_map_iff in Hv as [[dy dx] [<- Hd]]. cbn [fst snd].
  destruct (inside src (y + dy) (x + dx)) eqn:E; [now apply H | exact Hc].
Qed.

Lemma erode_le_sample src k y x dy dx :
  In (dy, dx) (offsets k) -> inside src (y + dy) (x + dx) = true ->
  px (erode src k) y x <= px src (y + dy) (x + dx).
Proof.
  intros Hd Hin. apply fold_min_le_elem, in_map_iff.
  exists (dy, dx). cbn [fst snd]. now rewrite Hin.
Qed.

Lemma dilate_lower src k y x : 0 <= px (dilate src k) y x.
Proof. apply fold_max_lower. Qed.

Lemma dilate_upper c src k y x :
  0 <= c ->
  (forall dy dx, In (dy, dx) (offsets k) -> inside src (y + dy) (x + dx) = true ->
                 px src (y + dy) (x + dx) <= c) ->
  px (dilate src k) y x <= c.
Proof.
  intros Hc H. apply fold_max_upper; [exact Hc|].
  intros v Hv. apply in_map_iff in Hv as [[dy dx] [<- Hd]]. cbn [fst snd].
  destruct (inside src (y + dy) (x + dx)) eqn:E; [now apply H | exact Hc].
Qed.

Lemma dilate_ge_sample src k y x dy dx :
  In (dy, dx) (offsets k) -> inside src (y + dy) (x + dx) = true ->
  px src (y + dy) (x + dx) <= px (dilate src k) y x.
Proof.
  intros Hd Hin. apply fold_max_ge_elem, in_map_iff.
  exists (dy, dx). cbn [fst snd]. now rewrite Hin.
Qed.

Lemma inside_true m y x :
  inside m y x = true <-> 0 <= y < height m /\ 0 <= x < width m.
Proof. unfold inside. rewrite !andb_true_iff. lia. Qed.

(** *** Opening by a 25-pixel line element *)

Lemma in_offsets_hline dy dx :
  In (dy, dx) (offsets hline) <-> dy = 0 /\ -12 <= dx <= 12.
Proof.
  rewrite in_offsets. change (Z.of_nat (krows hline)) with 1.
  change (Z.of_nat (kcols hline)) with 25.
  change (1 / 2) with 0. change (25 / 2) with 12. lia.
Qed.

Lemma in_offsets_vline dy dx :
  In (dy, dx) (offsets vline) <-> -12 <= dy <= 12 /\ dx = 0.
Proof.
  rewrite in_offsets. change (Z.of_nat (krows vline)) with 25.
  change (Z.of_nat (kcols vline)) with 1.
  change (1 / 2) with 0. change (25 / 2) with 12. lia.
Qed.

Lemma morphologyEx_open src k :
  morphologyEx src MORPH_OPEN k = dilate (erode src k) k.
Proof. reflexivity. Qed.

(** A row segment of 255s at least 25 wide survives the horizontal opening. *)
Lemma open_hline_run P y a b x :
  0 <= y < height P -> 0 <= a -> b < width P -> a + 24 <= b ->
  (forall c, a <= c <= b -> px P y c = 255) ->
  a <= x <= b ->
  px (morphologyEx P MORPH_OPEN hline) y x = 255.
Proof.
  intros Hy Ha Hb Hlen Hrun Hx. rewrite morphologyEx_open.
  assert (HE : forall c, a + 12 <= c <= b - 12 -> px (erode P hline) y c = 255).
  { intros c Hc. apply Z.le_antisymm; [apply erode_upper|].
    apply erode_lower; [lia|]. intros dy dx Hd _.
    apply in_offsets_hline in Hd as [-> Hd].
    rewrite Z.add_0_r, Hrun; lia. }
  apply Z.le_antisymm.
  - apply dilate_upper; [lia|]. intros; apply erode_upper.
  - set (c := Z.max (a + 12) (Z.min x (b - 12))).
    rewrite <- (HE c) by lia.
    replace c with (x + (c - x)) at 1 by lia.
    replace y with (y + 0) at 1 by lia.
    apply dilate_ge_sample.
    + apply in_offsets_hline. lia.
    + apply inside_true. cbn [erode height width]. lia.
Qed.

(** A column segment of 255s at least 25 tall survives the vertical opening. *)
Lemma open_vline_run P x a b y :
  0 <= x < width P -> 0 <= a -> b < height P -> a + 24 <= b ->
  (forall c, a <= c <= b -> px P c x = 255) ->
  a <= y <= b ->
  px (morphologyEx P MORPH_OPEN vline) y x = 255.
Proof.
  intros Hx Ha Hb Hlen Hrun Hy. rewrite morphologyEx_open.
  assert (HE : forall c, a + 12 <= c <= b - 12 -> px (erode P vline) c x = 255).
  { intros c Hc. apply Z.le_antisymm; [apply erode_upper|].
    apply erode_lower; [lia|]. intros dy dx Hd _.
    apply in_offsets_vline in Hd as [Hd ->].
    rewrite Z.add_0_r, Hrun; lia. }
  apply Z.le_antisymm.
  - apply dilate_upper; [lia|]. intros; apply erode_upper.
  - set (c := Z.max (a + 12) (Z.min y (b - 12))).
    rewrite <- (HE c) by lia.
    replace c with (y + (c - y)) at 1 by lia.
    replace x with (x + 0) at 1 by lia.
    apply dilate_ge_sample.
    + apply in_offsets_vline. lia.
    + apply inside_true. cbn [erode height width]. lia.
Qed.

(** Between two background pixels of a row that are at most 25 apart, the
    horizontal opening is empty. *)
Lemma open_hline_gap P y l r x :
  0 <= y < height P -> 0 <= l -> r < width P ->
  l < x < r -> r - l <= 25 ->
  px P y l = 0 -> px P y r = 0 ->
  px (morphologyEx P MORPH_OPEN hline) y x = 0.
Proof.
  intros Hy Hl Hr Hx Hlen Pl Pr. rewrite morphologyEx_open.
  apply Z.le_antisymm; [|apply dilate_lower].
  apply dilate_upper; [lia|]. intros dy dx Hd Hin.
  apply in_offsets_hline in Hd as [-> Hd].
  apply inside_true in Hin. cbn [erode height width] in Hin.
  destruct (Z_le_gt_dec (x + dx - 12) l) as [Hc|Hc].
  - pose proof (erode_le_sample P hline (y + 0) (x + dx) 0 (l - (x + dx))) as Hs.
    replace (x + dx + (l - (x + dx))) with l in Hs by lia.
    replace (y + 0 + 0) with y in Hs by lia.
    rewrite Pl in Hs. apply Hs; [apply in_offsets_hline; lia|].
    apply inside_true; lia.
  - pose proof (erode_le_sample P hline (y + 0) (x + dx) 0 (r - (x + dx))) as Hs.
    replace (x + dx + (r - (x + dx))) with r in Hs by lia.
    replace (y + 0 + 0) with y in Hs by lia.
    rewrite Pr in Hs. apply Hs; [apply in_offsets_hline; lia|].
    apply inside_true; lia.
Qed.

Lemma open_vline_gap P x l r y :
  0 <= x < width P -> 0 <= l -> r < height P ->
  l < y < r -> r - l <= 25 ->
  px P l x = 0 -> px P r x = 0 ->
  px (morphologyEx P MORPH_OPEN vline) y x = 0.
Proof.
  intros Hx Hl Hr Hy Hlen Pl Pr. rewrite morphologyEx_open.
  apply Z.le_antisymm; [|apply dilate_lower].
  apply dilate_upper; [lia|]. intros dy dx Hd Hin.
  apply in_offsets_vline in Hd as [Hd ->].
  apply inside_true in Hin. cbn [erode height width] in Hin.
  destruct (Z_le_gt_dec (y + dy - 12) l) as [Hc|Hc].
  - pose proof (erode_le_sample P vline (y + dy) (x + 0) (l - (y + dy)) 0) as Hs.
    replace (y + dy + (l - (y + dy))) with l in Hs by lia.
    replace (x + 0 + 0) with x in Hs by lia.
    rewrite Pl in Hs. apply Hs; [apply in_offsets_vline; lia|].
    apply inside_true; lia.
  - pose proof (erode_le_sample P vline (y + dy) (x + 0) (r - (y + dy)) 0) as Hs.
    replace (y + dy + (r - (y + dy))) with r in Hs by lia.
    replace (x + 0 + 0) with x in Hs by lia.
    rewrite Pr in Hs. apply Hs; [apply in_offsets_vline; lia|].
    apply inside_true; lia.
Qed.

Lemma open_lower P k y x : 0 <= px (morphologyEx P MORPH_OPEN k) y x.
Proof. rewrite morphologyEx_open. apply dilate_lower. Qed.

End Cv2Facts.

(* ===================================================================== *)
(** ** Reasoning about runs *)
(* ===================================================================== *)

Module Runs.
Import Cv2 Py.

Section Runs.

Variable faults : nat -> nat -> option string.

Lemma bind_ok {A C} (m : M A) (k : A -> M C) w a w' :
  m w = (Ok a, w') -> (m ≫= k) w = k a w'.
Proof. intros H. unfold mbind, M_bind. now rewrite H. Qed.

Lemma bind_raise {A C} (m : M A) (k : A -> M C) w msg w' :
  m w = (Raise msg, w') -> (m ≫= k) w = (Raise msg, w').
Proof. intros H. unfold mbind, M_bind. now rewrite H. Qed.

Lemma bind_inv {A C} (m : M A) (k : A -> M C) w c w'' :
  (m ≫= k) w = (Ok c, w'') ->
  exists a w', m w = (Ok a, w') /\ k a w' = (Ok c, w'').
Proof.
  unfold mbind, M_bind. destruct (m w) as [[a|msg] w']; [eauto|discriminate].
Qed.

Lemma call_ok {A} line i (v : A) w :
  faults line i = None -> call faults line i v w = (Ok v, w).
Proof. intros H. unfold call. now rewrite H. Qed.

Lemma call_inv {A} line i (v a : A) w w' :
  call faults line i v w = (Ok a, w') -> faults line i = None /\ a = v /\ w' = w.
Proof.
  unfold call. destruct (faults line i); [discriminate|].
  intros [= <- <-]. auto.
Qed.

Lemma pure_post_ret {A} (v : A) (Q : A -> Prop) : Q v -> pure_post (mret v) Q.
Proof. intros H w. left. now exists v. Qed.

Lemma pure_post_call {A} line i (v : A) (Q : A -> Prop) :
  Q v -> pure_post (call faults line i v) Q.
Proof.
  intros H w. unfold call. destruct (faults line i); [right|left]; eauto.
Qed.

Lemma pure_post_bind {A C} (m : M A) (k : A -> M C) (P : A -> Prop) (Q : C -> Prop) :
  pure_post m P -> (forall a, P a -> pure_post (k a) Q) -> pure_post (m ≫= k) Q.
Proof.
  intros Hm Hk w. destruct (Hm w) as [[a [E Pa]] | [msg E]].
  - rewrite (bind_ok _ _ _ _ _ E). apply Hk, Pa.
  - right. exists msg. apply bind_raise, E.
Qed.

Lemma pure_post_inv {A} (m : M A) (Q : A -> Prop) w a w' :
  pure_post m Q -> m w = (Ok a, w') -> Q a /\ w' = w.
Proof.
  intros H E. destruct (H w) as [[b [Eb Qb]] | [msg Em]]; rewrite E in *.
  - now inversion Eb; subst.
  - discriminate.
Qed.

End Runs.

End Runs.

(* ===================================================================== *)
(** ** Properties of the preprocessing functions *)
(* ===================================================================== *)

Module Properties.
Import OsPath Cv2 Py Preprocessor Outcomes Artifacts.
Import OsPathFacts FsFacts Cv2Facts Runs.

Section Stages.

Variable B : backend.
Variable faults : nat -> nat -> option string.

#[local] Abbreviation deskewed := (Outcomes.deskewed B).
#[local] Abbreviation blobs_removed := (Outcomes.blobs_removed B).
#[local] Abbreviation cleaned := (Outcomes.cleaned B).
#[local] Abbreviation combined_binarization := (Outcomes.combined_binarization B).
#[local] Abbreviation conservative_image := (Outcomes.conservative_image B).
#[local] Abbreviation extreme_image := (Outcomes.extreme_image B).
#[local] Abbreviation first_fault := (Outcomes.first_fault faults).
#[local] Abbreviation inline_outcome := (Outcomes.inline_outcome B faults).

(** Decides, call by call, whether a straight-line stage raises. *)
Ltac run_calls :=
  intros w; unfold mbind, M_bind, mret, M_ret, call;
  repeat match goal with
         | |- context [faults ?l ?i] => destruct (faults l i); cbv beta iota
         end;
  eauto.

Lemma deskew_run img gray coords :
  pure_post (deskew B faults img gray coords)
            (fun rotated => rotated = deskewed img gray coords).
Proof.
  unfold pure_post, deskew, Outcomes.deskewed.
  intros w; unfold mbind, M_bind, mret, M_ret, call.
  destruct (faults 29 0); cbv beta iota zeta; [eauto|].
  destruct (1 <? abs _)%float; [|eauto].
  destruct (faults 39 0); cbv beta iota; [eauto|].
  destruct (faults 40 0); eauto.
Qed.

Lemma remove_small_blobs_run contours : forall i processed,
  pure_post (remove_small_blobs B faults i contours processed)
            (fun out => out = blobs_removed contours processed).
Proof.
  induction contours as [|c rest IH]; intros i processed w.
  - left. eexists; split; reflexivity.
  - cbn [remove_small_blobs Outcomes.blobs_removed fold_left].
    unfold mbind, M_bind, mret, M_ret, call.
    destruct (faults 63 i); cbv beta iota; [eauto|].
    destruct (negb _).
    + destruct (faults 65 i); cbv beta iota; [eauto|]. apply IH.
    + apply IH.
Qed.

Lemma blobs_removed_binary contours : forall processed,
  binary processed -> binary (blobs_removed contours processed).
Proof.
  induction contours as [|c rest IH]; intros processed Hb; [exact Hb|].
  cbn [Outcomes.blobs_removed fold_left]. apply IH.
  destruct (negb _); [now apply fillPoly_binary | exact Hb].
Qed.

Lemma binarize_and_clean_run rotated :
  pure_post (binarize_and_clean B faults rotated)
            (fun out => out = cleaned rotated).
Proof.
  unfold binarize_and_clean, Outcomes.cleaned. intros w.
  unfold mbind, M_bind, mret, M_ret, call.
  repeat (match goal with
          | |- context [faults ?l 0] => destruct (faults l 0); cbv beta iota zeta
          end; [eauto|]).
  apply remove_small_blobs_run.
Qed.

Lemma cleaned_binary rotated : binary (cleaned rotated).
Proof.
  unfold Outcomes.cleaned. cbv zeta.
  apply blobs_removed_binary, morphologyEx_binary, threshold_binary.
  now right.
Qed.

Lemma multi_stage_binarization_run enhanced :
  pure_post (multi_stage_binarization B faults enhanced)
            (fun combined => combined = combined_binarization enhanced).
Proof. unfold multi_stage_binarization, Outcomes.combined_binarization. run_calls. Qed.

Lemma combined_binarization_binary enhanced :
  binary (combined_binarization enhanced).
Proof.
  apply bitwise_or_binary;
    [apply threshold_binary; now left | apply adaptiveThreshold_binary].
Qed.

Lemma aggressive_morphology_run combined :
  pure_post (aggressive_morphology faults combined)
            (fun out => out = opened_then_closed combined).
Proof. unfold aggressive_morphology, opened_then_closed. run_calls. Qed.

Lemma remove_ui_lines_run processed :
  pure_post (remove_ui_lines faults processed)
            (fun out => out = ui_lines_removed processed).
Proof. unfold remove_ui_lines, ui_lines_removed. run_calls. Qed.

Lemma ui_lines_removed_binary processed :
  binary processed -> binary (ui_lines_removed processed).
Proof.
  intros H. unfold ui_lines_removed.
  repeat apply subtract_binary; auto using morphologyEx_binary.
Qed.

(** *** The single-image functions never raise, and write at most their
    own artifact *)

Lemma preprocess_image_for_ocr_spec image_path w :
  exists r w',
    preprocess_image_for_ocr B faults image_path w = (Ok r, w') /\
    (r = image_path \/ r = military_temp_path image_path) /\
    (left_alone w w' \/
     (r = military_temp_path image_path /\ wrote_binary r w w')).
Proof.
  unfold preprocess_image_for_ocr, try_except, left_alone, wrote_binary.
  unfold mbind at 1. unfold M_bind at 1. unfold cv2_imread.
  destruct (faults 16 0); [eexists _, _; split; [reflexivity|auto]|].
  destruct (decoded w image_path) as [img|];
    [|eexists _, _; split; [reflexivity|auto]].
  unfold mbind at 1. unfold M_bind at 1. unfold call at 1.
  destruct (faults 21 0); [eexists _, _; split; [reflexivity|auto]|].
  destruct (length _ =? 0)%nat;
    [eexists _, _; split; [reflexivity|auto]|].
  unfold mbind at 1. unfold M_bind at 1.
  destruct (deskew_run img (cvtColor_BGR2GRAY B img)
              (nonzero_coords (cvtColor_BGR2GRAY B img)) w)
    as [[rotated [-> _]] | [msg ->]];
    [|eexists _, _; split; [reflexivity|auto]].
  unfold mbind at 1. unfold M_bind at 1.
  destruct (binarize_and_clean_run rotated w) as [[out [-> ->]] | [msg ->]];
    [|eexists _, _; split; [reflexivity|auto]].
  unfold mbind at 1. unfold M_bind at 1. unfold Py.cv2_imwrite.
  destruct (faults 70 0); [eexists _, _; split; [reflexivity|auto]|].
  destruct (imwrite_ok B _ _);
    (eexists _, _; split; [reflexivity|]); (split; [now right|]);
    [right|now left].
  split; [reflexivity|].
  eexists; split; [apply cleaned_binary|reflexivity].
Qed.

Lemma preprocess_messaging_app_screenshot_spec image_path w :
  exists r w',
    preprocess_messaging_app_screenshot B faults image_path w = (Ok r, w') /\
    (r = image_path \/ r = messaging_temp_path image_path) /\
    (left_alone w w' \/
     (r = messaging_temp_path image_path /\ wrote_binary r w w')).
Proof.
  unfold preprocess_messaging_app_screenshot, try_except, left_alone, wrote_binary.
  unfold mbind at 1. unfold M_bind at 1. unfold cv2_imread.
  destruct (faults 85 0); [eexists _, _; split; [reflexivity|auto]|].
  destruct (decoded w image_path) as [img|];
    [|eexists _, _; split; [reflexivity|auto]].
  do 3 (unfold mbind at 1; unfold M_bind at 1; unfold call at 1;
        match goal with
        | |- context [faults ?l 0] => destruct (faults l 0)
        end; [eexists _, _; split; [reflexivity|auto]|]).
  unfold mbind at 1. unfold M_bind at 1.
  set (gray := cvtColor_BGR2GRAY B img).
  set (enhanced := clahe_apply B (fastNlMeansDenoising B gray 10 7 21)).
  destruct (multi_stage_binarization_run enhanced w)
    as [[combined [-> ->]] | [msg ->]];
    [|eexists _, _; split; [reflexivity|auto]].
  unfold mbind at 1. unfold M_bind at 1.
  destruct (aggressive_morphology_run (combined_binarization enhanced) w)
    as [[processed [-> ->]] | [msg ->]];
    [|eexists _, _; split; [reflexivity|auto]].
  unfold mbind at 1. unfold M_bind at 1.
  destruct (remove_ui_lines_run
              (opened_then_closed (combined_binarization enhanced)) w)
    as [[out [-> ->]] | [msg ->]];
    [|eexists _, _; split; [reflexivity|auto]].
  unfold mbind at 1. unfold M_bind at 1. unfold Py.cv2_imwrite.
  destruct (faults 132 0); [eexists _, _; split; [reflexivity|auto]|].
  destruct (imwrite_ok B _ _);
    (eexists _, _; split; [reflexivity|]); (split; [now right|]);
    [right|now left].
  split; [reflexivity|].
  eexists; split; [|reflexivity].
  apply ui_lines_removed_binary. unfold opened_then_closed.
  do 2 apply morphologyEx_binary. apply combined_binarization_binary.
Qed.

Lemma enhance_image_contrast_spec image_path w :
  exists r w',
    enhance_image_contrast B faults image_path w = (Ok r, w') /\
    ((r = image_path /\ left_alone w w') \/
     (r = enhanced_temp_path image_path /\ wrote_png r w w')).
Proof.
  unfold enhance_image_contrast, try_except, left_alone, wrote_png.
  unfold mbind at 1. unfold M_bind at 1. unfold Image_open.
  destruct (faults 215 0); [eexists _, _; split; [reflexivity|left; auto]|].
  destruct (files w !! image_path) as [[c|g|]|];
    try (eexists _, _; split; [reflexivity|left; auto]).
  - unfold mbind at 1. unfold M_bind at 1. unfold call at 1.
    destruct (faults 218 0); [eexists _, _; split; [reflexivity|left; auto]|].
    unfold mbind at 1. unfold M_bind at 1. unfold call at 1.
    destruct (faults 222 0); [eexists _, _; split; [reflexivity|left; auto]|].
    unfold mbind at 1. unfold M_bind at 1. unfold pil_save.
    destruct (faults 227 0); [eexists _, _; split; [reflexivity|left; auto]|].
    eexists _, _; split; [reflexivity|right]. split; [reflexivity|].
    eexists; reflexivity.
  - unfold mbind at 1. unfold M_bind at 1. unfold mret at 1. unfold M_ret at 1.
    unfold mbind at 1. unfold M_bind at 1. unfold call at 1.
    destruct (faults 222 0); [eexists _, _; split; [reflexivity|left; auto]|].
    unfold mbind at 1. unfold M_bind at 1. unfold pil_save.
    destruct (faults 227 0); [eexists _, _; split; [reflexivity|left; auto]|].
    eexists _, _; split; [reflexivity|right]. split; [reflexivity|].
    eexists; reflexivity.
Qed.

(** *** Temp names differ from the source path *)

Lemma military_temp_path_ne p : military_temp_path p <> p.
Proof.
  exact (template_ne_source "t" "emp_military_processed_" "_ocr" p
                            eq_refl eq_refl eq_refl).
Qed.

Lemma messaging_temp_path_ne p : messaging_temp_path p <> p.
Proof.
  exact (template_ne_source "t" "emp_messaging_processed_" "_ocr" p
                            eq_refl eq_refl eq_refl).
Qed.



Lemma enhanced_temp_path_ne p : enhanced_temp_path p <> p.
Proof.
  exact (template_ne_source "t" "emp_enhanced_" "" p eq_refl eq_refl eq_refl).
Qed.

Lemma method_files_ne p : Forall (fun name => name <> p) (method_files p).
Proof.
  unfold method_files. repeat constructor.
  - exact (template_ne_source "t" "emp_" "_method1" p eq_refl eq_refl eq_refl).
  - exact (template_ne_source "t" "emp_" "_method2" p eq_refl eq_refl eq_refl).
  - exact (template_ne_source "t" "emp_" "_method3" p eq_refl eq_refl eq_refl).
Qed.

(** *** Temp names name other files than the source *)

Lemma military_temp_file_ne p : ~ same_file (military_temp_path p) p.
Proof.
  exact (template_not_source_file "t" "emp_military_processed_" "_ocr" p
                                  eq_refl eq_refl eq_refl).
Qed.

Lemma messaging_temp_file_ne p : ~ same_file (messaging_temp_path p) p.
Proof.
  exact (template_not_source_file "t" "emp_messaging_processed_" "_ocr" p
                                  eq_refl eq_refl eq_refl).
Qed.

Lemma conservative_temp_file_ne p : ~ same_file (conservative_temp_path p) p.
Proof.
  exact (template_not_source_file "t" "emp_" "_conservative" p
                                  eq_refl eq_refl eq_refl).
Qed.

Lemma extreme_temp_file_ne p : ~ same_file (extreme_temp_path p) p.
Proof.
  exact (template_not_source_file "t" "emp_" "_extreme" p eq_refl eq_refl eq_refl).
Qed.



(** *** The multi-method generator, call by call *)

Lemma conservative_method_run img p ms w :
  conservative_method B faults (Some img) p ms w =
    match first_fault conservative_lines with
    | Some msg => (Raise msg, w)
    | None => (Ok (ms ++ [("conservative", conservative_temp_path p)])%list,
               written B (conservative_temp_path p) (conservative_image img) w)
    end.
Proof.
  unfold conservative_method, conservative_lines, Outcomes.first_fault.
  unfold mbind, M_bind, mret, M_ret, call, Py.cv2_imwrite, written, write.
  repeat match goal with
         | |- context [faults ?l 0] =>
             destruct (faults l 0); cbv beta iota zeta; [reflexivity|]
         end.
  unfold Outcomes.conservative_image, Outcomes.extreme_image.
  match goal with
  | |- context [threshold ?B ?a ?b ?c ?d] => destruct (threshold B a b c d)
  end.
  cbn [snd]. now destruct (imwrite_ok B _ _).
Qed.

Lemma extreme_method_run img p ms w :
  extreme_method B faults (Some img) p ms w =
    match first_fault extreme_lines with
    | Some msg => (Raise msg, w)
    | None => (Ok (ms ++ [("extreme_enhancement", extreme_temp_path p)])%list,
               written B (extreme_temp_path p) (extreme_image img) w)
    end.
Proof.
  unfold extreme_method, extreme_lines, Outcomes.first_fault.
  unfold mbind, M_bind, mret, M_ret, call, Py.cv2_imwrite, written, write.
  repeat match goal with
         | |- context [faults ?l 0] =>
             destruct (faults l 0); cbv beta iota zeta; [reflexivity|]
         end.
  unfold Outcomes.conservative_image, Outcomes.extreme_image.
  match goal with
  | |- context [threshold ?B ?a ?b ?c ?d] => destruct (threshold B a b c d)
  end.
  cbn [snd]. now destruct (imwrite_ok B _ _).
Qed.

Lemma collect_methods_run p w temp1 w1 temp2 w2 :
  preprocess_image_for_ocr B faults p w = (Ok temp1, w1) ->
  preprocess_messaging_app_screenshot B faults p w1 = (Ok temp2, w2) ->
  collect_methods B faults p [] w = inline_outcome p temp1 temp2 w2.
Proof.
  intros E1 E2. unfold collect_methods, Outcomes.inline_outcome.
  rewrite (bind_ok _ _ _ _ _ E1). cbv zeta.
  rewrite (bind_ok _ _ _ _ _ E2).
  unfold mbind at 1. unfold M_bind at 1. unfold Py.cv2_imread.
  destruct (faults 160 0); [reflexivity|].
  destruct (decoded w2 p) as [img|]; [|reflexivity].
  unfold mbind at 1. unfold M_bind at 1. rewrite conservative_method_run.
  destruct (first_fault conservative_lines); [reflexivity|].
  unfold mbind at 1. unfold M_bind at 1. rewrite extreme_method_run.
  destruct (first_fault extreme_lines); reflexivity.
Qed.

End Stages.

(** *** Combined binarization (messaging-specialized pipeline) *)

Lemma lor_levels a b :
  (a = 0 \/ a = 255) -> (b = 0 \/ b = 255) ->
  (Z.lor a b = 255 <-> a = 255 \/ b = 255) /\ (Z.lor a b = 0 <-> a = 0 /\ b = 0).
Proof.
  intros [-> | ->] [-> | ->];
    change (Z.lor 0 0) with 0; change (Z.lor 0 255) with 255;
    change (Z.lor 255 0) with 255; change (Z.lor 255 255) with 255; lia.
Qed.

(** C2. When the three calls of step 3 (lines 100, 103, 106) return, the
    combined image is the pixel-wise OR of the Otsu binarization and the
    adaptive Gaussian one (window 11, constant 2): a pixel of the combined
    image is foreground (255) exactly when at least one of the two marks it
    foreground, and background (0) exactly when both do.  The Otsu pass marks
    the pixels above Otsu's level, the adaptive pass those above their
    neighbourhood mean minus 2. *)
Theorem binarizations_combined_by_or B faults enhanced w :
  faults 100%nat 0%nat = None -> faults 103%nat 0%nat = None ->
  faults 106%nat 0%nat = None ->
  exists combined,
    multi_stage_binarization B faults enhanced w = (Ok combined, w) /\
    forall y x,
      let binary1 :=
        snd (threshold B enhanced 0 255 (THRESH_BINARY + THRESH_OTSU)) in
      let binary2 :=
        adaptiveThreshold B enhanced 255 ADAPTIVE_THRESH_GAUSSIAN_C
                          THRESH_BINARY 11 2 in
      (px combined y x = 255 <-> px binary1 y x = 255 \/ px binary2 y x = 255) /\
      (px combined y x = 0 <-> px binary1 y x = 0 /\ px binary2 y x = 0) /\
      (px binary1 y x = 255 <-> otsu_level B enhanced < px enhanced y x) /\
      (px binary2 y x = 255 <->
         px (neighbourhood_mean B ADAPTIVE_THRESH_GAUSSIAN_C enhanced 11) y x - 2
         < px enhanced y x).
Proof.
  intros F100 F103 F106. eexists. split.
  - unfold multi_stage_binarization, mbind, M_bind, call.
    rewrite F100, F103, F106. reflexivity.
  - intros y x binary1 binary2.
    assert (H1 : px binary1 y x = 0 \/ px binary1 y x = 255)
      by (apply threshold_binary; now left).
    assert (H2 : px binary2 y x = 0 \/ px binary2 y x = 255)
      by apply adaptiveThreshold_binary.
    destruct (lor_levels _ _ H1 H2) as [Hor Hz].
    split; [exact Hor|]. split; [exact Hz|]. split.
    + subst binary1.
      change (px (snd (threshold B enhanced 0 255 (THRESH_BINARY + THRESH_OTSU))) y x)
        with (if otsu_level B enhanced <? px enhanced y x then 255 else 0).
      destruct (otsu_level B enhanced <? px enhanced y x) eqn:E.
      * apply Z.ltb_lt in E. split; auto.
      * apply Z.ltb_ge in E. split; [discriminate|lia].
    + subst binary2.
      change (px (adaptiveThreshold B enhanced 255 ADAPTIVE_THRESH_GAUSSIAN_C
                                    THRESH_BINARY 11 2) y x)
        with (if px (neighbourhood_mean B ADAPTIVE_THRESH_GAUSSIAN_C enhanced 11) y x - 2
                 <? px enhanced y x then 255 else 0).
      match goal with |- context [?a <? ?b] => destruct (a <? b) eqn:E end.
      * apply Z.ltb_lt in E. split; auto.
      * apply Z.ltb_ge in E. split; [discriminate|lia].
Qed.

Lemma binarizations_combined_by_or_witness :
  exists combined,
    multi_stage_binarization Demo.backend Demo.no_faults
      (cvtColor_BGR2GRAY Demo.backend Demo.dot) Demo.disk = (Ok combined, Demo.disk) /\
    px combined 1 2 = 255 /\ px combined 0 0 = 0.
Proof.
  destruct (binarizations_combined_by_or Demo.backend Demo.no_faults
              (cvtColor_BGR2GRAY Demo.backend Demo.dot) Demo.disk
              eq_refl eq_refl eq_refl) as [combined [Hrun Hpx]].
  exists combined. split; [exact Hrun|]. split.
  - apply (Hpx 1 2). left. reflexivity.
  - apply (Hpx 0 0). split; reflexivity.
Defined.

(** *** Deskew (military-grade pipeline) *)

(** C3. For a loaded image whose gray conversion has foreground points, when
    [cv2.minAreaRect] returns, the rotation angle is [-(90 + raw)] for a raw
    angle below -45 and [-raw] otherwise.  When its absolute value is not
    above 1 the step hands on the gray image itself, untouched; when it is
    above 1 (and the two OpenCV calls return) the step hands on the gray
    image rotated by that angle about [(w // 2, h // 2)]. *)
Theorem deskew_asymmetric_branch B faults img w :
  let gray := cvtColor_BGR2GRAY B img in
  let coords := nonzero_coords gray in
  coords <> [] ->
  faults 29%nat 0%nat = None ->
  let raw := minAreaRect_angle B coords in
  let angle :=
    if (raw <? -45)%float then (- (90 + raw))%float else (- raw)%float in
  ((1 <? abs angle)%float = false ->
   deskew B faults img gray coords w = (Ok gray, w)) /\
  ((1 <? abs angle)%float = true ->
   faults 39%nat 0%nat = None -> faults 40%nat 0%nat = None ->
   deskew B faults img gray coords w =
     (Ok (warpAffine B gray
            (getRotationMatrix2D B (cwidth img / 2, cheight img / 2) angle 1%float)
            (cwidth img, cheight img)), w)).
Proof.
  intros gray coords _ F29 raw angle.
  unfold deskew, mbind, M_bind, mret, M_ret, call. rewrite F29.
  cbv beta iota zeta. fold raw. unfold skew_angle. fold angle.
  split.
  - intros ->. reflexivity.
  - intros -> F39 F40. rewrite F39, F40. reflexivity.
Qed.

Lemma deskew_asymmetric_branch_witness :
  deskew Demo.backend Demo.no_faults Demo.dot
         (cvtColor_BGR2GRAY Demo.backend Demo.dot)
         (nonzero_coords (cvtColor_BGR2GRAY Demo.backend Demo.dot)) Demo.disk
  = (Ok (cvtColor_BGR2GRAY Demo.backend Demo.dot), Demo.disk).
Proof.
  refine (proj1 (deskew_asymmetric_branch Demo.backend Demo.no_faults Demo.dot
                   Demo.disk _ eq_refl) eq_refl).
  vm_compute. discriminate.
Defined.

(** *** Empty content *)

Lemma flat_map_all_nil {A C} (f : A -> list C) (l : list A) :
  (forall a, In a l -> f a = []) -> flat_map f l = [].
Proof.
  induction l as [|a l IH]; intros H; [reflexivity|].
  cbn [flat_map]. rewrite (H a (or_introl eq_refl)), IH; [reflexivity|].
  intros; apply H; now right.
Qed.

Lemma nonzero_coords_nil gray :
  (forall y x, 0 <= y < height gray -> 0 <= x < width gray -> px gray y x <= 0) ->
  nonzero_coords gray = [].
Proof.
  intros H. unfold nonzero_coords.
  apply flat_map_all_nil. intros y Hy. apply in_seq in Hy.
  apply flat_map_all_nil. intros x Hx. apply in_seq in Hx.
  destruct (0 <? px gray (Z.of_nat y) (Z.of_nat x)) eqn:E; [|reflexivity].
  apply Z.ltb_lt in E. specialize (H (Z.of_nat y) (Z.of_nat x)). lia.
Qed.

(** C5. For a path that loads and whose gray conversion has no sample above
    zero, [preprocess_image_for_ocr] returns the input path, prints the
    "No content found" warning and nothing else, and leaves the file system
    as it was.  Nothing is assumed about the calls after line 21 (they may
    all raise): none of them, the rotation included, is reached. *)
Theorem empty_content_returns_source B faults image_path w img :
  faults 16%nat 0%nat = None ->
  decoded w image_path = Some img ->
  faults 21%nat 0%nat = None ->
  (forall y x,
     0 <= y < height (cvtColor_BGR2GRAY B img) ->
     0 <= x < width (cvtColor_BGR2GRAY B img) ->
     px (cvtColor_BGR2GRAY B img) y x <= 0) ->
  preprocess_image_for_ocr B faults image_path w =
    (Ok image_path,
     World (files w)
           (stdout w ++ ["Warning: No content found in image " +:+ image_path])%list).
Proof.
  intros F16 Hload F21 Hblack.
  unfold preprocess_image_for_ocr, try_except, mbind, M_bind, Py.cv2_imread, call.
  rewrite F16, Hload, F21. cbv beta iota zeta.
  rewrite (nonzero_coords_nil _ Hblack). reflexivity.
Qed.

Lemma empty_content_returns_source_witness :
  preprocess_image_for_ocr Demo.backend (Demo.fault_at 40 "rotation failed")
                           "blank.png" Demo.disk =
    (Ok "blank.png",
     World (files Demo.disk)
           ["Warning: No content found in image blank.png"]).
Proof.
  refine (empty_content_returns_source Demo.backend
            (Demo.fault_at 40 "rotation failed") "blank.png" Demo.disk Demo.black
            eq_refl _ eq_refl _).
  - vm_compute. reflexivity.
  - intros y x _ _. cbn. lia.
Defined.

(** *** Small-blob removal (military-grade pipeline) *)

Lemma small_true contour : small contour = true <-> (contourArea contour < 10)%Q.
Proof.
  unfold small. rewrite negb_true_iff, <- not_true_iff_false, Qle_bool_iff.
  split; [apply Qnot_le_lt | apply Qlt_not_le].
Qed.

Lemma small_false contour : small contour = false <-> (10 <= contourArea contour)%Q.
Proof. unfold small. rewrite negb_false_iff. apply Qle_bool_iff. Qed.

Lemma blobs_removed_px B contours : forall processed y x,
  px (blobs_removed B contours processed) y x =
    if existsb (fun c => small c && polygon_covers B c y x) contours
    then 0 else px processed y x.
Proof.
  induction contours as [|c rest IH]; intros processed y x; [reflexivity|].
  cbn [blobs_removed fold_left existsb]. fold (small c).
  change (fold_left _ rest ?P) with (blobs_removed B rest P).
  rewrite IH. destruct (small c); cbn [andb orb]; [|reflexivity].
  unfold fillPoly. cbn [px existsb]. rewrite orb_false_r.
  destruct (polygon_covers B c y x); cbn [orb]; [|reflexivity].
  now destruct (existsb _ rest).
Qed.

(** C6. When the calls of the loop (lines 63 and 65) return, and the
    polygons of the contours do not overlap (as the outer borders that
    RETR_EXTERNAL retrieves do not), every pixel of a contour whose area is
    below 10 is 0 in the result, and every pixel of a contour whose area is
    10 or more has the value it had. *)
Theorem small_blobs_removed B faults contours processed w :
  (forall i, faults 63%nat i = None) ->
  (forall i, faults 65%nat i = None) ->
  (forall c1 c2 y x,
     In c1 contours -> In c2 contours ->
     polygon_covers B c1 y x = true -> polygon_covers B c2 y x = true ->
     c1 = c2) ->
  exists out,
    remove_small_blobs B faults 0 contours processed w = (Ok out, w) /\
    forall contour y x,
      In contour contours -> polygon_covers B contour y x = true ->
      ((contourArea contour < 10)%Q -> px out y x = 0) /\
      ((10 <= contourArea contour)%Q -> px out y x = px processed y x).
Proof.
  intros F63 F65 Hdisj. exists (blobs_removed B contours processed). split.
  - generalize 0%nat. revert processed.
    induction contours as [|c rest IH]; intros processed i; [reflexivity|].
    cbn [remove_small_blobs blobs_removed fold_left].
    unfold mbind, M_bind, mret, M_ret, call. rewrite F63. cbv beta iota.
    destruct (negb _).
    + rewrite F65. cbv beta iota. apply IH.
      intros; eapply Hdisj; eauto using in_cons.
    + apply IH. intros; eapply Hdisj; eauto using in_cons.
  - intros contour y x Hin Hcov. rewrite blobs_removed_px. split.
    + intros Hsmall. apply small_true in Hsmall.
      replace (existsb _ contours) with true; [reflexivity|].
      symmetry. apply existsb_exists. exists contour.
      now rewrite Hsmall, Hcov.
    + intros Hbig. apply small_false in Hbig.
      replace (existsb _ contours) with false; [reflexivity|].
      symmetry. apply not_true_iff_false. intros Hex.
      apply existsb_exists in Hex as [c' [Hin' Hc']].
      apply andb_true_iff in Hc' as [Hs' Hcov'].
      rewrite (Hdisj c' contour y x Hin' Hin Hcov' Hcov) in Hs'. congruence.
Qed.

Example speck_area : (contourArea Demo.speck == 4)%Q.
Proof. reflexivity. Qed.

Example bar_area : (contourArea Demo.bar == 10)%Q.
Proof. reflexivity. Qed.

Lemma small_blobs_removed_witness :
  exists out,
    remove_small_blobs Demo.backend Demo.no_faults 0 [Demo.speck; Demo.bar]
                       Demo.white Demo.disk
      = (Ok out, Demo.disk) /\
    px out 1 1 = 0 /\ px out 1 5 = 255.
Proof.
  destruct (small_blobs_removed Demo.backend Demo.no_faults
              [Demo.speck; Demo.bar] Demo.white Demo.disk
              (fun _ => eq_refl) (fun _ => eq_refl)) as [out [Hrun Hpx]].
  - intros c1 c2 y x H1 H2 Hc1 Hc2.
    destruct H1 as [<- | [<- | []]], H2 as [<- | [<- | []]];
      try reflexivity; exfalso;
      cbn in Hc1, Hc2; rewrite !andb_true_iff, !Z.leb_le in Hc1, Hc2; lia.
  - exists out. split; [exact Hrun|]. split.
    + apply (Hpx Demo.speck 1 1); [now left | reflexivity | reflexivity].
    + apply (Hpx Demo.bar 1 5); [right; now left | reflexivity |].
      vm_compute. discriminate.
Defined.

(** *** UI-line removal (messaging-specialized pipeline) *)

Lemma subtract_px a b y x : px (subtract a b) y x = Z.max 0 (px a y x - px b y x).
Proof. reflexivity. Qed.

(** C7, as the code has it.  When the calls of step 5 (lines 119-127)
    return: a row segment of foreground at least 25 wide and a column segment
    of foreground at least 25 tall are 0 in the result; and a pixel that lies,
    in its row (its column), between two background pixels of the image at
    most 25 apart, so on a stroke narrower than 25 that ends inside the image
    on both sides, is left as it was by the subtraction of the horizontal (the
    vertical) lines. *)
Theorem ui_lines_removed_strokes_kept faults processed w :
  faults 119%nat 0%nat = None -> faults 120%nat 0%nat = None ->
  faults 122%nat 0%nat = None -> faults 123%nat 0%nat = None ->
  faults 126%nat 0%nat = None -> faults 127%nat 0%nat = None ->
  let horizontal_lines :=
    morphologyEx processed MORPH_OPEN (getStructuringElement_RECT (25, 1)%nat) in
  let vertical_lines :=
    morphologyEx processed MORPH_OPEN (getStructuringElement_RECT (1, 25)%nat) in
  let without_horizontal := subtract processed horizontal_lines in
  exists out,
    remove_ui_lines faults processed w = (Ok out, w) /\
    out = subtract without_horizontal vertical_lines /\
    (forall y a b x,
       0 <= y < height processed -> 0 <= a -> b < width processed ->
       a + 24 <= b -> (forall c, a <= c <= b -> px processed y c = 255) ->
       a <= x <= b -> px out y x = 0) /\
    (forall x a b y,
       0 <= x < width processed -> 0 <= a -> b < height processed ->
       a + 24 <= b -> (forall c, a <= c <= b -> px processed c x = 255) ->
       a <= y <= b -> px out y x = 0) /\
    (forall y l r x,
       0 <= y < height processed -> 0 <= l -> r < width processed ->
       l < x < r -> r - l <= 25 ->
       px processed y l = 0 -> px processed y r = 0 ->
       0 <= px processed y x ->
       px without_horizontal y x = px processed y x) /\
    (forall x l r y,
       0 <= x < width processed -> 0 <= l -> r < height processed ->
       l < y < r -> r - l <= 25 ->
       px processed l x = 0 -> px processed r x = 0 ->
       px out y x = px without_horizontal y x).
Proof.
  intros F119 F120 F122 F123 F126 F127 H V P'.
  exists (subtract P' V). split; [|split; [reflexivity|]].
  { unfold remove_ui_lines, mbind, M_bind, call.
    rewrite F119, F120, F122, F123, F126, F127. reflexivity. }
  repeat split.
  - intros y a b x Hy Ha Hb Hlen Hrun Hx.
    rewrite subtract_px. subst P'. rewrite subtract_px.
    assert (px H y x = 255) by (apply (open_hline_run processed y a b x); auto).
    rewrite Hrun by lia. pose proof (open_lower processed vline y x).
    fold vline in V. subst V. lia.
  - intros x a b y Hx Ha Hb Hlen Hrun Hy.
    rewrite subtract_px. subst P'. rewrite subtract_px.
    assert (px V y x = 255) by (apply (open_vline_run processed x a b y); auto).
    rewrite Hrun by lia. pose proof (open_lower processed hline y x).
    fold hline in H. subst H. lia.
  - intros y l r x Hy Hl Hr Hx Hlen Pl Pr Hpos.
    subst P'. rewrite subtract_px.
    assert (px H y x = 0) by (apply (open_hline_gap processed y l r x); auto).
    lia.
  - intros x l r y Hx Hl Hr Hy Hlen Pl Pr.
    rewrite subtract_px.
    assert (px V y x = 0) by (apply (open_vline_gap processed x l r y); auto).
    assert (0 <= px P' y x) by (subst P'; rewrite subtract_px; lia).
    lia.
Qed.

Lemma ui_lines_removed_strokes_kept_witness :
  exists out,
    remove_ui_lines Demo.no_faults Demo.ruled Demo.disk = (Ok out, Demo.disk) /\
    px out 5 7 = 0 /\
    px (subtract Demo.ruled (morphologyEx Demo.ruled MORPH_OPEN
                          (getStructuringElement_RECT (25, 1)%nat))) 20 12 = 255.
Proof.
  destruct (ui_lines_removed_strokes_kept Demo.no_faults Demo.ruled Demo.disk
              eq_refl eq_refl eq_refl eq_refl eq_refl eq_refl)
    as [out [Hrun [_ [Hrow [_ [Hkeep _]]]]]].
  exists out. split; [exact Hrun|]. split.
  - apply (Hrow 5 0 39 7); cbn; lia.
  - apply (Hkeep 20 9 20 12); cbn; try lia; try reflexivity.
Defined.

(** C7 as stated fails at the image border: OpenCV's default border lets a
    stroke that touches the border survive the opening from 13 pixels on.
    Here a stroke 15 wide, columns 0 to 14 of a 30-pixel row, is erased. *)
Lemma short_stroke_at_border_removed :
  (forall x, 0 <= x <= 14 -> px Demo.border_stroke 0 x = 255) /\
  px Demo.border_stroke 0 15 = 0 /\
  px (subtract Demo.border_stroke
        (morphologyEx Demo.border_stroke MORPH_OPEN
                      (getStructuringElement_RECT (25, 1)%nat))) 0 5 = 0 /\
  exists out,
    remove_ui_lines Demo.no_faults Demo.border_stroke Demo.disk = (Ok out, Demo.disk) /\
    px out 0 5 = 0.
Proof.
  split; [|split; [reflexivity|split; [vm_compute; reflexivity|]]].
  - intros x Hx. cbn.
    destruct (0 <=? x) eqn:E1, (x <=? 14) eqn:E2; try reflexivity; lia.
  - eexists. split; [reflexivity|]. vm_compute. reflexivity.
Qed.

(** *** Cleanup *)

Lemma deleted_within_same names w w' :
  files w' = files w -> deleted_within names w w'.
Proof. intros E q. left. now rewrite E. Qed.

Lemma deleted_within_refl names w : deleted_within names w w.
Proof. now apply deleted_within_same. Qed.

Lemma deleted_within_files names w w1 w2 :
  files w2 = files w1 -> deleted_within names w w1 -> deleted_within names w w2.
Proof. intros E H q. rewrite E. apply H. Qed.

Lemma deleted_within_step a names w w' :
  is_Some (files w !! a) ->
  deleted_within names (World (delete a (files w)) (stdout w)) w' ->
  deleted_within (a :: names) w w'.
Proof.
  intros Ha H q. destruct (H q) as [E | [E [S I]]]; cbn [files] in *.
  - destruct (same_file_dec a q) as [Hs | Hne].
    + rewrite (disk_lookup_delete _ _ _ Hs) in E. right.
      split; [exact E|]. split.
      * now rewrite <- (disk_lookup_alias _ _ _ Hs).
      * exists a. split; [now left | now symmetry].
    + rewrite (disk_lookup_delete_ne _ _ _ Hne) in E. now left.
  - destruct (same_file_dec a q) as [Hs | Hne].
    + rewrite (disk_lookup_delete _ _ _ Hs) in S. now destruct S.
    + rewrite (disk_lookup_delete_ne _ _ _ Hne) in S.
      right. split; [exact E|]. split; [exact S|].
      destruct I as (n & Hn & Hq). exists n. split; [now right | exact Hq].
Qed.

Lemma deleted_within_skip a names w w' :
  deleted_within names w w' -> deleted_within (a :: names) w w'.
Proof.
  intros H q. destruct (H q) as [E | [E [S I]]]; [now left|].
  right. split; [exact E|]. split; [exact S|].
  destruct I as (n & Hn & Hq). exists n. split; [now right | exact Hq].
Qed.

Lemma remove_method_files_spec faults names : forall i w,
  exists r w',
    remove_method_files faults i names w = (r, w') /\ deleted_within names w w'.
Proof.
  induction names as [|a names IH]; intros i w.
  - exists (Ok tt), w. split; [reflexivity|apply deleted_within_refl].
  - cbn [remove_method_files].
    unfold mbind at 1. unfold M_bind at 1. unfold os_path_exists.
    unfold mbind at 1. unfold M_bind at 1.
    case_bool_decide as Hex.
    + unfold os_remove. destruct (faults 205%nat i).
      { eexists _, _. split; [reflexivity|apply deleted_within_refl]. }
      destruct Hex as [f Hf]. rewrite Hf.
      destruct (IH (S i) (World (delete a (files w)) (stdout w))) as (r & w' & E & D).
      exists r, w'. split; [exact E|].
      apply deleted_within_step; [now exists f | exact D].
    + unfold mret, M_ret.
      destruct (IH (S i) w) as (r & w' & E & D).
      exists r, w'. split; [exact E|]. now apply deleted_within_skip.
Qed.

(** What a call of [cleanup_temp_files] does, whatever [os.remove] does. *)
Lemma cleanup_temp_files_run faults temp_path original_path w :
  exists w',
    cleanup_temp_files faults temp_path original_path w = (Ok tt, w') /\
    deleted_within (temp_path :: method_files original_path) w w' /\
    (files w' = files w \/
     (temp_path <> original_path /\ is_Some (files w !! temp_path))) /\
    (faults 200%nat 0%nat = None ->
     temp_path = original_path \/ files w' !! temp_path = None).
Proof.
  unfold cleanup_temp_files, try_except.
  unfold mbind at 1. unfold M_bind at 1.
  case_bool_decide as Hne;
    [|exists w; split; [reflexivity|]; split; [apply deleted_within_refl|];
      split; [now left|]; left; now apply dec_stable].
  unfold os_path_exists. case_bool_decide as Hex.
  - unfold mbind at 1. unfold M_bind at 1. unfold os_remove at 1.
    destruct (faults 200%nat 0%nat).
    { eexists. split; [reflexivity|].
      split; [now apply deleted_within_same|]. split; [now left|discriminate]. }
    destruct Hex as [f Hf]. rewrite Hf.
    destruct (remove_method_files_spec faults (method_files original_path) 0%nat
                (World (delete temp_path (files w)) (stdout w)))
      as (r & w' & E & D).
    rewrite E.
    assert (Hgone : files w' !! temp_path = None).
    { destruct (D temp_path) as [Hq | [Hq _]]; [|exact Hq].
      rewrite Hq. cbn [files]. apply disk_lookup_delete, same_file_refl. }
    destruct r as [[]|msg].
    + exists w'. split; [reflexivity|].
      split; [apply deleted_within_step; [now exists f | exact D]|].
      split; [right; eauto | now right].
    + eexists. split; [reflexivity|].
      split; [|split; [right; eauto | now right]].
      apply (deleted_within_files _ _ w'); [reflexivity|].
      apply deleted_within_step; [now exists f | exact D].
  - exists w. split; [reflexivity|]. split; [apply deleted_within_refl|].
    split; [now left|].
    intros _. right. destruct (files w !! temp_path) eqn:E; [|reflexivity].
    contradict Hex. eauto.
Qed.



(** *** The multi-method generator *)

Lemma decoded_left_alone w w' p : left_alone w w' -> decoded w' p = decoded w p.
Proof. unfold left_alone, decoded. now intros ->. Qed.

Lemma decoded_wrote_binary path w w' p :
  wrote_binary path w w' -> ~ same_file path p -> decoded w' p = decoded w p.
Proof.
  intros [g [_ ->]] Hne. unfold decoded. cbn [files].
  now rewrite disk_lookup_insert_ne.
Qed.

Lemma preprocess_with_multiple_methods_run B faults p w :
  exists temp1 w1 temp2 w2,
    preprocess_image_for_ocr B faults p w = (Ok temp1, w1) /\
    (temp1 = p \/ temp1 = military_temp_path p) /\
    (left_alone w w1 \/
     (temp1 = military_temp_path p /\ wrote_binary temp1 w w1)) /\
    preprocess_messaging_app_screenshot B faults p w1 = (Ok temp2, w2) /\
    (temp2 = p \/ temp2 = messaging_temp_path p) /\
    (left_alone w1 w2 \/
     (temp2 = messaging_temp_path p /\ wrote_binary temp2 w1 w2)) /\
    collect_methods B faults p [] w = inline_outcome B faults p temp1 temp2 w2 /\
    preprocess_with_multiple_methods B faults p w =
      caught p (inline_outcome B faults p temp1 temp2 w2).
Proof.
  destruct (preprocess_image_for_ocr_spec B faults p w)
    as (t1 & w1 & E1 & R1 & H1).
  destruct (preprocess_messaging_app_screenshot_spec B faults p w1)
    as (t2 & w2 & E2 & R2 & H2).
  exists t1, w1, t2, w2. repeat (split; [assumption|]).
  pose proof (collect_methods_run B faults p w t1 w1 t2 w2 E1 E2) as Hc.
  split; [exact Hc|].
  unfold preprocess_with_multiple_methods, try_except. rewrite Hc.
  unfold caught. now destruct (inline_outcome _ _ _ _ _ _) as [[l|msg] w'].
Qed.

Lemma decoded_after_methods p w temp1 w1 temp2 w2 :
  (left_alone w w1 \/
   (temp1 = military_temp_path p /\ wrote_binary temp1 w w1)) ->
  (left_alone w1 w2 \/
   (temp2 = messaging_temp_path p /\ wrote_binary temp2 w1 w2)) ->
  decoded w2 p = decoded w p.
Proof.
  intros H1 H2.
  transitivity (decoded w1 p).
  - destruct H2 as [H | [-> H]];
      [now apply decoded_left_alone|].
    eapply decoded_wrote_binary; [exact H | apply messaging_temp_file_ne].
  - destruct H1 as [H | [-> H]];
      [now apply decoded_left_alone|].
    eapply decoded_wrote_binary; [exact H | apply military_temp_file_ne].
Qed.

(** The [try] block raises exactly when a call of lines 160-184 does. *)
Lemma inline_outcome_raises B faults p temp1 temp2 w2 :
  (exists msg w', inline_outcome B faults p temp1 temp2 w2 = (Raise msg, w')) <->
  match decoded w2 p with
  | None => is_Some (faults 160%nat 0%nat)
  | Some _ =>
      is_Some (first_fault faults
                 [160; 162; 163; 165; 170; 173; 176; 179; 181; 184]%nat)
  end.
Proof.
  unfold inline_outcome, conservative_lines, extreme_lines. cbn [first_fault].
  destruct (decoded w2 p) as [img|].
  - repeat match goal with
           | |- context [faults ?l 0%nat] =>
               destruct (faults l 0%nat); cbv beta iota zeta;
               [split; [eauto | intros _; eauto]|]
           end.
    split; [intros (msg & w' & [=]) | intros [x [=]]].
  - destruct (faults 160%nat 0%nat).
    + split; [eauto | intros _; eauto].
    + split; [intros (msg & w' & [=]) | intros [x [=]]].
Qed.

(** C1, as the code has it.  The call always returns normally.  Methods 1
    and 2 return a path whatever fails inside them (the source path, then),
    and their candidates come first, in order.  When the source cannot be
    read and line 160 returns, these two are the result; when it can and no
    call of methods 3 and 4 (lines 160-184) raises, the candidates
    conservative and extreme_enhancement follow.  When one of those calls
    raises, the result is the single candidate [('original', path)]. *)
Theorem multi_method_failure_isolation B faults image_path w :
  exists temp1 w1 temp2 w2 methods w',
    preprocess_image_for_ocr B faults image_path w = (Ok temp1, w1) /\
    (temp1 = image_path \/
     temp1 = "temp_military_processed_" +:+ (stem image_path +:+ "_ocr.png")) /\
    preprocess_messaging_app_screenshot B faults image_path w1 = (Ok temp2, w2) /\
    (temp2 = image_path \/
     temp2 = "temp_messaging_processed_" +:+ (stem image_path +:+ "_ocr.png")) /\
    preprocess_with_multiple_methods B faults image_path w = (Ok methods, w') /\
    methods =
      match decoded w image_path with
      | None =>
          match faults 160%nat 0%nat with
          | Some _ => [("original", image_path)]
          | None => [("military_grade", temp1); ("messaging_specialized", temp2)]
          end
      | Some _ =>
          match first_fault faults
                  [160; 162; 163; 165; 170; 173; 176; 179; 181; 184]%nat with
          | Some _ => [("original", image_path)]
          | None =>
              [("military_grade", temp1); ("messaging_specialized", temp2);
               ("conservative", "temp_" +:+ (stem image_path +:+ "_conservative.png"));
               ("extreme_enhancement", "temp_" +:+ (stem image_path +:+ "_extreme.png"))]
          end
      end.
Proof.
  destruct (preprocess_with_multiple_methods_run B faults image_path w)
    as (t1 & w1 & t2 & w2 & E1 & R1 & H1 & E2 & R2 & H2 & _ & Hrun).
  pose proof (decoded_after_methods image_path w t1 w1 t2 w2 H1 H2) as Hd.
  exists t1, w1, t2, w2.
  exists (match fst (caught image_path (inline_outcome B faults image_path t1 t2 w2)) with
          | Ok l => l
          | Raise _ => []
          end).
  exists (snd (caught image_path (inline_outcome B faults image_path t1 t2 w2))).
  split; [exact E1|]. split; [exact R1|].
  split; [exact E2|]. split; [exact R2|].
  rewrite Hrun. unfold inline_outcome. rewrite Hd.
  unfold conservative_lines, extreme_lines. cbn [first_fault].
  destruct (decoded w image_path) as [img|].
  - repeat match goal with
           | |- context [faults ?l 0%nat] =>
               destruct (faults l 0%nat); cbv beta iota zeta;
               [split; reflexivity|]
           end.
    split; reflexivity.
  - destruct (faults 160%nat 0%nat); split; reflexivity.
Qed.

(** C1 as stated fails: with a source that loads and a [bilateralFilter]
    (line 176, method 4) that raises, methods 1 and 2 have produced their
    candidates, yet the result holds neither of them. *)
Lemma extreme_failure_drops_all_candidates :
  let faults := Demo.fault_at 176 "out of memory" in
  fst (preprocess_image_for_ocr Demo.backend faults "scan.png" Demo.disk)
    = Ok "temp_military_processed_scan_ocr.png" /\
  fst (preprocess_with_multiple_methods Demo.backend faults "scan.png" Demo.disk)
    = Ok [("original", "scan.png")].
Proof. split; vm_compute; reflexivity. Qed.

Lemma inline_outcome_shape B faults p temp1 temp2 w2 methods w' :
  inline_outcome B faults p temp1 temp2 w2 = (Ok methods, w') ->
  methods = [("military_grade", temp1); ("messaging_specialized", temp2)] \/
  methods = [("military_grade", temp1); ("messaging_specialized", temp2);
             ("conservative", conservative_temp_path p);
             ("extreme_enhancement", extreme_temp_path p)].
Proof.
  unfold inline_outcome.
  destruct (faults 160%nat 0%nat); [discriminate|].
  destruct (decoded w2 p); [|intros [= <- _]; now left].
  destruct (first_fault faults conservative_lines); [discriminate|].
  cbv zeta. destruct (first_fault faults extreme_lines); [discriminate|].
  intros [= <- _]. now right.
Qed.

Lemma preprocess_image_for_ocr_unreadable_run B faults p w :
  decoded w p = None ->
  fst (preprocess_image_for_ocr B faults p w) = Ok p.
Proof.
  intros Hd. unfold preprocess_image_for_ocr, try_except.
  unfold mbind at 1. unfold M_bind at 1. unfold cv2_imread.
  destruct (faults 16 0)%nat; [reflexivity|]. now rewrite Hd.
Qed.

Lemma preprocess_messaging_app_screenshot_unreadable_run B faults p w :
  decoded w p = None ->
  fst (preprocess_messaging_app_screenshot B faults p w) = Ok p.
Proof.
  intros Hd. unfold preprocess_messaging_app_screenshot, try_except.
  unfold mbind at 1. unfold M_bind at 1. unfold cv2_imread.
  destruct (faults 85 0)%nat; [reflexivity|]. now rewrite Hd.
Qed.

(** C4, as the code has it.  [preprocess_with_multiple_methods] always
    returns normally, with at least one candidate.  The result is the one
    candidate [('original', image_path)] exactly when the [try] block
    raises, which is exactly when a call of lines 160-184 raises (the
    [imread] of line 160 or, for a source that loads, a call of methods 3
    and 4).  Failures inside methods 1 and 2 do not lead to it: on a source
    that does not load, with line 160 returning, the result is the two
    candidates of methods 1 and 2, each carrying the source path. *)
Theorem multi_method_never_fails B faults image_path w :
  exists methods w',
    preprocess_with_multiple_methods B faults image_path w = (Ok methods, w') /\
    methods <> [] /\
    (methods = [("original", image_path)] <->
     exists msg w1,
       collect_methods B faults image_path [] w = (Raise msg, w1)) /\
    ((exists msg w1,
        collect_methods B faults image_path [] w = (Raise msg, w1)) <->
     match decoded w image_path with
     | None => is_Some (faults 160%nat 0%nat)
     | Some _ =>
         is_Some (first_fault faults
                    [160; 162; 163; 165; 170; 173; 176; 179; 181; 184]%nat)
     end) /\
    (decoded w image_path = None -> faults 160%nat 0%nat = None ->
     methods = [("military_grade", image_path);
                ("messaging_specialized", image_path)]).
Proof.
  destruct (preprocess_with_multiple_methods_run B faults image_path w)
    as (t1 & w1 & t2 & w2 & E1 & _ & H1 & E2 & _ & H2 & Hc & Hrun).
  pose proof (decoded_after_methods image_path w t1 w1 t2 w2 H1 H2) as Hd.
  pose proof (inline_outcome_raises B faults image_path t1 t2 w2) as Hraise.
  rewrite Hd in Hraise.
  rewrite Hrun, Hc. unfold caught.
  destruct (inline_outcome B faults image_path t1 t2 w2) as [[l|msg] w'] eqn:E.
  - exists l, w'. split; [reflexivity|].
    assert (Hshape := inline_outcome_shape _ _ _ _ _ _ _ _ E).
    split; [destruct Hshape as [-> | ->]; discriminate|].
    split; [|split; [exact Hraise|]].
    + split; [|intros (msg & w0 & [=])].
      intros ->. destruct Hshape as [[=] | [=]].
    + intros Hnone F160.
      assert (Ht1 : t1 = image_path).
      { pose proof (preprocess_image_for_ocr_unreadable_run B faults
                      image_path w Hnone) as H.
        rewrite E1 in H. now injection H. }
      assert (Ht2 : t2 = image_path).
      { assert (Hnone1 : decoded w1 image_path = None).
        { rewrite <- Hnone. destruct H1 as [H | [-> H]];
            [now apply decoded_left_alone|].
          eapply decoded_wrote_binary; [exact H | apply military_temp_file_ne]. }
        pose proof (preprocess_messaging_app_screenshot_unreadable_run B faults
                      image_path w1 Hnone1) as H.
        rewrite E2 in H. now injection H. }
      subst t1 t2. unfold inline_outcome in E.
      rewrite F160, Hd, Hnone in E. now injection E as <- _.
  - eexists _, _. split; [reflexivity|]. split; [discriminate|].
    split; [split; eauto|]. split; [exact Hraise|].
    intros Hnone F160. rewrite Hnone, F160 in Hraise.
    destruct Hraise as [Hraise _].
    destruct Hraise as [x [=]]. eauto.
Qed.

(** C4 as stated fails: on a path that holds no image, with the [imread]
    calls of methods 1 and 2 raising, both methods fail internally and the
    other two have nothing to work on, yet the result is not the single
    candidate: it holds two, each carrying the source path. *)
Lemma failing_methods_give_two_candidates :
  preprocess_with_multiple_methods Demo.backend
    (Demo.faults_at [16; 85]%nat "decode error") "gone.png" Demo.disk =
    (Ok [("military_grade", "gone.png"); ("messaging_specialized", "gone.png")],
     World (files Demo.disk)
           ["Military-grade preprocessing failed for gone.png: decode error";
            "Messaging app preprocessing failed for gone.png: decode error"]).
Proof. vm_compute. reflexivity. Qed.

(** *** Two-level artifacts *)

Lemma only_binary_written_same w w' :
  files w' = files w -> only_binary_written w w'.
Proof. intros E q. left. now rewrite E. Qed.

Lemma only_binary_written_trans w1 w2 w3 :
  only_binary_written w1 w2 -> only_binary_written w2 w3 ->
  only_binary_written w1 w3.
Proof.
  intros H12 H23 q. destruct (H23 q) as [E | H]; [|now right].
  rewrite E. apply H12.
Qed.

Lemma only_binary_written_write path g w :
  binary g -> only_binary_written w (write path g w).
Proof.
  intros Hg q. unfold write. cbn [files].
  destruct (same_file_dec path q) as [Hs | Hne].
  - right. exists g. now rewrite disk_lookup_insert.
  - left. now rewrite disk_lookup_insert_ne.
Qed.

Lemma only_binary_written_written B path g w :
  binary g -> only_binary_written w (written B path g w).
Proof.
  intros Hg. unfold written. destruct (imwrite_ok B path g).
  - now apply only_binary_written_write.
  - now apply only_binary_written_same.
Qed.

Lemma only_binary_written_outcome path w w' :
  left_alone w w' \/ wrote_binary path w w' -> only_binary_written w w'.
Proof.
  intros [H | [g [Hg ->]]].
  - now apply only_binary_written_same.
  - now apply (only_binary_written_write path g w).
Qed.

Lemma conservative_image_binary B img : binary (conservative_image B img).
Proof. apply threshold_binary. now left. Qed.

Lemma extreme_image_binary B img : binary (extreme_image B img).
Proof. apply morphologyEx_binary, threshold_binary. now left. Qed.

Lemma inline_outcome_binary B faults p temp1 temp2 w2 :
  only_binary_written w2 (snd (inline_outcome B faults p temp1 temp2 w2)).
Proof.
  unfold inline_outcome.
  destruct (faults 160%nat 0%nat); [now apply only_binary_written_same|].
  destruct (decoded w2 p) as [img|]; [|now apply only_binary_written_same].
  destruct (first_fault faults conservative_lines);
    [now apply only_binary_written_same|].
  cbv zeta.
  assert (H3 : only_binary_written w2
                 (written B (conservative_temp_path p) (conservative_image B img) w2))
    by apply only_binary_written_written, conservative_image_binary.
  destruct (first_fault faults extreme_lines); [exact H3|].
  eapply only_binary_written_trans; [exact H3|].
  apply only_binary_written_written, extreme_image_binary.
Qed.

(** C8. Whatever the library calls do, every file that the military-grade
    function, the messaging function or the multi-method generator (which
    runs all four pipelines) leaves changed holds a gray image whose samples
    are all 0 or 255; and each operation applied after a binarization (OR,
    opening and closing, subtraction, filling with 0) maps two-level images
    to two-level images. *)
Theorem written_artifacts_two_level B faults image_path w :
  only_binary_written w (snd (preprocess_image_for_ocr B faults image_path w)) /\
  only_binary_written w
    (snd (preprocess_messaging_app_screenshot B faults image_path w)) /\
  only_binary_written w
    (snd (preprocess_with_multiple_methods B faults image_path w)) /\
  (forall a b op k pts,
     binary a -> binary b ->
     binary (bitwise_or a b) /\ binary (morphologyEx a op k) /\
     binary (subtract a b) /\ binary (fillPoly B a pts 0)).
Proof.
  split; [|split; [|split]];
    [| | |auto using bitwise_or_binary, morphologyEx_binary, subtract_binary,
                     fillPoly_binary].
  - destruct (preprocess_image_for_ocr_spec B faults image_path w)
      as (r & w' & E & _ & H).
    rewrite E. apply (only_binary_written_outcome r).
    destruct H as [H | [_ H]]; [left|right]; exact H.
  - destruct (preprocess_messaging_app_screenshot_spec B faults image_path w)
      as (r & w' & E & _ & H).
    rewrite E. apply (only_binary_written_outcome r).
    destruct H as [H | [_ H]]; [left|right]; exact H.
  - destruct (preprocess_with_multiple_methods_run B faults image_path w)
      as (t1 & w1 & t2 & w2 & _ & _ & H1 & _ & _ & H2 & _ & Hrun).
    rewrite Hrun.
    assert (H12 : only_binary_written w w2).
    { eapply only_binary_written_trans.
      - apply (only_binary_written_outcome t1).
        destruct H1 as [H | [_ H]]; [left|right]; exact H.
      - apply (only_binary_written_outcome t2).
        destruct H2 as [H | [_ H]]; [left|right]; exact H. }
    eapply only_binary_written_trans; [exact H12|].
    pose proof (inline_outcome_binary B faults image_path t1 t2 w2) as H.
    unfold caught.
    destruct (inline_outcome B faults image_path t1 t2 w2) as [[l|msg] w']; exact H.
Qed.

(** *** What the generator writes, and where *)

Lemma written_within_same names w w' :
  files w' = files w -> written_within names w w'.
Proof. intros E q. left. now rewrite E. Qed.

Lemma written_within_trans names w1 w2 w3 :
  written_within names w1 w2 -> written_within names w2 w3 ->
  written_within names w1 w3.
Proof.
  intros H12 H23 q. destruct (H23 q) as [E | H]; [|now right].
  rewrite E. apply H12.
Qed.

Lemma written_within_write names path g w :
  In path names -> written_within names w (write path g w).
Proof.
  intros Hin q. unfold write. cbn [files].
  destruct (same_file_dec path q) as [Hs | Hne].
  - right. split; [|exists g; now rewrite disk_lookup_insert].
    exists path. split; [exact Hin | now symmetry].
  - left. now rewrite disk_lookup_insert_ne.
Qed.

Lemma written_within_written B names path g w :
  In path names -> written_within names w (written B path g w).
Proof.
  intros Hin. unfold written. destruct (imwrite_ok B path g).
  - now apply written_within_write.
  - now apply written_within_same.
Qed.

Lemma written_within_outcome names path w w' :
  In path names ->
  left_alone w w' \/ wrote_binary path w w' -> written_within names w w'.
Proof.
  intros Hin [H | [g [_ ->]]].
  - now apply written_within_same.
  - now apply (written_within_write names path g w).
Qed.

Lemma inline_outcome_written B faults p temp1 temp2 w2 :
  written_within (generator_paths p) w2
    (snd (inline_outcome B faults p temp1 temp2 w2)).
Proof.
  unfold inline_outcome.
  destruct (faults 160%nat 0%nat); [now apply written_within_same|].
  destruct (decoded w2 p) as [img|]; [|now apply written_within_same].
  destruct (first_fault faults conservative_lines);
    [now apply written_within_same|].
  cbv zeta.
  assert (H3 : written_within (generator_paths p) w2
                 (written B (conservative_temp_path p)
                          (conservative_image B img) w2)).
  { apply written_within_written. unfold generator_paths. cbn [In]. tauto. }
  destruct (first_fault faults extreme_lines); [exact H3|].
  eapply written_within_trans; [exact H3|].
  apply written_within_written. unfold generator_paths. cbn [In]. tauto.
Qed.

Lemma preprocess_with_multiple_methods_written B faults p w :
  written_within (generator_paths p) w
    (snd (preprocess_with_multiple_methods B faults p w)).
Proof.
  destruct (preprocess_with_multiple_methods_run B faults p w)
    as (t1 & w1 & t2 & w2 & _ & _ & H1 & _ & _ & H2 & _ & Hrun).
  rewrite Hrun.
  assert (H12 : written_within (generator_paths p) w w2).
  { eapply written_within_trans.
    - apply (written_within_outcome _ (military_temp_path p));
        [unfold generator_paths; cbn [In]; tauto|].
      destruct H1 as [H | [-> H]]; [left|right]; exact H.
    - apply (written_within_outcome _ (messaging_temp_path p));
        [unfold generator_paths; cbn [In]; tauto|].
      destruct H2 as [H | [-> H]]; [left|right]; exact H. }
  eapply written_within_trans; [exact H12|].
  pose proof (inline_outcome_written B faults p t1 t2 w2) as H.
  unfold caught.
  destruct (inline_outcome B faults p t1 t2 w2) as [[l|msg] w']; exact H.
Qed.

(** *** Temp artifact names *)



End Properties.

(* ===================================================================== *)
(** ** Further properties *)
(* ===================================================================== *)

Module Extras.
Import OsPath Cv2 Py Preprocessor Outcomes Artifacts.
Import OsPathFacts FsFacts Cv2Facts Runs Properties.

(** *** Cleanup *)

Lemma cleanup_gate_closed faults temp_path original_path w :
  temp_path = original_path \/ files w !! temp_path = None ->
  cleanup_temp_files faults temp_path original_path w = (Ok tt, w).
Proof.
  intros H. unfold cleanup_temp_files, try_except.
  unfold mbind at 1. unfold M_bind at 1.
  case_bool_decide as Hne; [|reflexivity].
  unfold os_path_exists. case_bool_decide as Hex; [|reflexivity].
  destruct H as [H | H]; [now contradict Hne|].
  rewrite H in Hex. now destruct Hex.
Qed.

(** X1. Without a file at [temp_path], or with [temp_path] equal to the
    original path, [cleanup_temp_files] does nothing at all: it returns
    normally, prints nothing and deletes nothing, the sibling names
    included even when they exist. *)
Theorem cleanup_without_temp_file_does_nothing faults temp_path original_path w :
  temp_path = original_path \/ files w !! temp_path = None ->
  cleanup_temp_files faults temp_path original_path w = (Ok tt, w).
Proof. apply cleanup_gate_closed. Qed.

Lemma cleanup_without_temp_file_does_nothing_witness :
  cleanup_temp_files (Demo.fault_at 200 "denied") "scan.png" "scan.png" Demo.disk
  = (Ok tt, Demo.disk).
Proof.
  apply (cleanup_without_temp_file_does_nothing
           (Demo.fault_at 200 "denied") "scan.png" "scan.png" Demo.disk).
  left. reflexivity.
Defined.

Lemma names_one_of_dec names q :
  {names_one_of names q} + {~ names_one_of names q}.
Proof.
  induction names as [|a names IH].
  - right. intros (n & [] & _).
  - destruct (same_file_dec q a) as [Hs | Hne].
    + left. exists a. split; [now left | exact Hs].
    + destruct IH as [Hyes | Hno].
      * left. destruct Hyes as (n & Hn & Hs).
        exists n. split; [now right | exact Hs].
      * right. intros (n & [<- | Hn] & Hs); [contradiction|].
        apply Hno. now exists n.
Qed.

Lemma remove_method_files_sweeps faults names :
  (forall i, faults 205%nat i = None) ->
  forall i w,
  exists w',
    remove_method_files faults i names w = (Ok tt, w') /\
    stdout w' = stdout w /\
    forall q, (names_one_of names q -> files w' !! q = None) /\
              (~ names_one_of names q -> files w' !! q = files w !! q).
Proof.
  intros F. induction names as [|a names IH]; intros i w.
  - exists w. split; [reflexivity|]. split; [reflexivity|].
    intros q. split; [intros (n & [] & _)|reflexivity].
  - cbn [remove_method_files].
    unfold mbind at 1. unfold M_bind at 1. unfold os_path_exists.
    unfold mbind at 1. unfold M_bind at 1.
    assert (Hstep : exists w1,
               (if bool_decide (is_Some (files w !! a))
                then os_remove faults 205 i a else mret tt) w = (Ok tt, w1) /\
               stdout w1 = stdout w /\ files w1 = delete a (files w)).
    { case_bool_decide as Hex.
      - unfold os_remove. rewrite F. destruct Hex as [f Hf]. rewrite Hf.
        eexists. split; [reflexivity|]. split; reflexivity.
      - exists w. split; [reflexivity|]. split; [reflexivity|].
        symmetry. apply disk_delete_absent.
        destruct (files w !! a) eqn:E; [|reflexivity].
        contradict Hex. eauto. }
    destruct Hstep as (w1 & -> & Hout & Hfiles).
    destruct (IH (S i) w1) as (w' & -> & Hout' & Hq).
    exists w'. split; [reflexivity|]. split; [congruence|].
    intros q. destruct (Hq q) as [Hin Hnot]. split.
    + intros (n & [<- | Hn] & Hs); [|apply Hin; now exists n].
      destruct (names_one_of_dec names q) as [Ha | Ha]; [now apply Hin|].
      rewrite (Hnot Ha), Hfiles. apply disk_lookup_delete. now symmetry.
    + intros H. rewrite Hnot.
      * rewrite Hfiles. apply disk_lookup_delete_ne. intros Hs. apply H.
        exists a. split; [now left | now symmetry].
      * intros (n & Hn & Hs). apply H. exists n. split; [now right | exact Hs].
Qed.

Lemma cleanup_run_sweeps faults temp_path original_path w :
  temp_path <> original_path ->
  is_Some (files w !! temp_path) ->
  faults 200%nat 0%nat = None ->
  (forall i, faults 205%nat i = None) ->
  exists w',
    cleanup_temp_files faults temp_path original_path w = (Ok tt, w') /\
    stdout w' = stdout w /\
    swept temp_path original_path w w'.
Proof.
  intros Hne [f Hf] F200 F205.
  unfold cleanup_temp_files, try_except.
  unfold mbind at 1. unfold M_bind at 1.
  rewrite bool_decide_eq_true_2 by exact Hne.
  unfold os_path_exists. rewrite bool_decide_eq_true_2 by eauto.
  unfold mbind at 1. unfold M_bind at 1. unfold os_remove at 1.
  rewrite F200, Hf.
  destruct (remove_method_files_sweeps faults (method_files original_path) F205
              0%nat (World (delete temp_path (files w)) (stdout w)))
    as (w' & -> & Hout & Hq).
  exists w'. split; [reflexivity|]. split; [exact Hout|].
  intros q. destruct (Hq q) as [Hin Hnot]. cbn [files] in Hnot. split.
  - intros (n & [<- | Hn] & Hs); [|apply Hin; now exists n].
    destruct (names_one_of_dec (method_files original_path) q) as [Ha | Ha];
      [now apply Hin|].
    rewrite (Hnot Ha). apply disk_lookup_delete. now symmetry.
  - intros _ H. rewrite Hnot.
    + apply disk_lookup_delete_ne. intros Hs. apply H.
      exists temp_path. split; [now left | now symmetry].
    + intros (n & Hn & Hs). apply H. exists n. split; [now right | exact Hs].
Qed.

(** X2. When a plain [temp_path] (relative, without [..]) exists, differs
    as a string from the original path and no [os.remove] raises,
    [cleanup_temp_files] returns normally, prints nothing, and leaves
    exactly this: the files that [temp_path] and the three sibling names
    name are gone, under every spelling of their paths, and every plain
    path that names none of them holds what it held.  (A [temp_path] that
    spells the original another way takes the original with it.) *)
Theorem cleanup_sweeps_temp_and_siblings faults temp_path original_path w :
  plain temp_path = true ->
  temp_path <> original_path ->
  is_Some (files w !! temp_path) ->
  faults 200%nat 0%nat = None ->
  (forall i, faults 205%nat i = None) ->
  exists w',
    cleanup_temp_files faults temp_path original_path w = (Ok tt, w') /\
    stdout w' = stdout w /\
    swept temp_path original_path w w'.
Proof. intros _. apply cleanup_run_sweeps. Qed.

Lemma cleanup_sweeps_temp_and_siblings_witness :
  exists w',
    cleanup_temp_files Demo.no_faults "./temp_military_processed_scan_ocr.png"
                       "scan.png" workdir = (Ok tt, w') /\
    files w' !! "temp_military_processed_scan_ocr.png" = None /\
    files w' !! "temp_scan_method2.png" = None /\
    files w' !! "scan.png" = files workdir !! "scan.png".
Proof.
  destruct (cleanup_sweeps_temp_and_siblings Demo.no_faults
              "./temp_military_processed_scan_ocr.png" "scan.png" workdir)
    as (w' & Hrun & _ & Hs).
  - reflexivity.
  - discriminate.
  - eexists. vm_compute. reflexivity.
  - reflexivity.
  - reflexivity.
  - exists w'. split; [exact Hrun|]. split; [|split].
    + apply Hs. exists "./temp_military_processed_scan_ocr.png".
      split; [now left | reflexivity].
    + apply Hs. exists "temp_scan_method2.png".
      split; [vm_compute; tauto | reflexivity].
    + apply Hs; [reflexivity|]. intros (n & Hn & Hsame). vm_compute in Hn.
      destruct Hn as [<- | [<- | [<- | [<- | []]]]];
        vm_compute in Hsame; discriminate Hsame.
Defined.

(** X3. Cleanup is idempotent: after a call whose [os.remove(temp_path)]
    did not raise, a second call with the same arguments, whatever the
    library does then, returns normally and changes nothing. *)
Theorem cleanup_twice_is_cleanup_once faults faults' temp_path original_path w :
  faults 200%nat 0%nat = None ->
  cleanup_temp_files faults' temp_path original_path
    (snd (cleanup_temp_files faults temp_path original_path w))
  = (Ok tt, snd (cleanup_temp_files faults temp_path original_path w)).
Proof.
  intros F200.
  destruct (cleanup_temp_files_run faults temp_path original_path w)
    as (w' & -> & _ & _ & Hgone).
  apply cleanup_gate_closed, Hgone, F200.
Qed.

Lemma cleanup_twice_is_cleanup_once_witness :
  let once := snd (cleanup_temp_files (Demo.fault_at 205 "denied")
                     "temp_military_processed_scan_ocr.png" "scan.png" workdir) in
  cleanup_temp_files Demo.no_faults "temp_military_processed_scan_ocr.png"
                     "scan.png" once = (Ok tt, once).
Proof.
  exact (cleanup_twice_is_cleanup_once (Demo.fault_at 205 "denied") Demo.no_faults
           "temp_military_processed_scan_ocr.png" "scan.png" workdir eq_refl).
Defined.

(** X4. When [os.remove(temp_path)] raises, [cleanup_temp_files] still
    returns normally: it deletes nothing, the siblings included, and prints
    the one warning that names [temp_path] and the exception. *)
Theorem cleanup_failure_is_printed faults temp_path original_path w msg :
  temp_path <> original_path ->
  is_Some (files w !! temp_path) ->
  faults 200%nat 0%nat = Some msg ->
  cleanup_temp_files faults temp_path original_path w =
    (Ok tt,
     World (files w)
           (stdout w ++ ["Warning: Could not clean up temp file "
                         +:+ (temp_path +:+ (": " +:+ msg))])%list).
Proof.
  intros Hne Hex F200.
  unfold cleanup_temp_files, try_except.
  unfold mbind at 1. unfold M_bind at 1.
  rewrite bool_decide_eq_true_2 by exact Hne.
  unfold os_path_exists. rewrite bool_decide_eq_true_2 by exact Hex.
  unfold mbind at 1. unfold M_bind at 1. unfold os_remove at 1.
  rewrite F200. reflexivity.
Qed.

Lemma cleanup_failure_is_printed_witness :
  cleanup_temp_files (Demo.fault_at 200 "denied")
                     "temp_military_processed_scan_ocr.png" "scan.png" workdir =
    (Ok tt,
     World (files workdir)
           ["Warning: Could not clean up temp file temp_military_processed_scan_ocr.png: denied"]).
Proof.
  refine (cleanup_failure_is_printed (Demo.fault_at 200 "denied")
            "temp_military_processed_scan_ocr.png" "scan.png" workdir "denied"
            _ _ eq_refl).
  - discriminate.
  - eexists. vm_compute. reflexivity.
Defined.

(** *** Artifact names *)

Lemma app_inv_head (s a b : string) : s +:+ a = s +:+ b -> a = b.
Proof.
  induction s as [|c s IH]; [now rewrite !app_nil_l|].
  rewrite !app_cons. intros [= H]. auto.
Qed.

(** Two names of different lengths, or with different endings after the
    same prefix and stem, differ. *)
Ltac names_differ H :=
  first [ apply (f_equal String.length) in H;
          rewrite !length_app in H; cbn [String.length] in H; lia
        | do 2 apply app_inv_head in H; discriminate H ].


Lemma artifact_paths_plain p q : In q (artifact_paths p) -> locate q = q.
Proof.
  unfold artifact_paths, military_temp_path, messaging_temp_path,
    conservative_temp_path, extreme_temp_path, enhanced_temp_path.
  cbn [In]. intros [<- | [<- | [<- | [<- | [<- | []]]]]].
  - exact (template_plain "t" "emp_military_processed_" "_ocr.png" p
             eq_refl eq_refl eq_refl).
  - exact (template_plain "t" "emp_messaging_processed_" "_ocr.png" p
             eq_refl eq_refl eq_refl).
  - exact (template_plain "t" "emp_" "_conservative.png" p eq_refl eq_refl eq_refl).
  - exact (template_plain "t" "emp_" "_extreme.png" p eq_refl eq_refl eq_refl).
  - exact (template_plain "t" "emp_enhanced_" ".png" p eq_refl eq_refl eq_refl).
Qed.




(** X6. The five artifact names of one source are pairwise different: no
    pipeline overwrites the artifact of another. *)
Theorem artifact_names_pairwise_distinct image_path :
  NoDup (artifact_paths image_path).
Proof.
  unfold artifact_paths, military_temp_path, messaging_temp_path,
    conservative_temp_path, extreme_temp_path, enhanced_temp_path.
  repeat (apply NoDup_cons_2;
          [rewrite ?elem_of_cons, elem_of_nil;
           intros H; repeat destruct H as [H | H]; try names_differ H; exact H|]).
  apply NoDup_nil_2.
Qed.

Lemma no_sep_template pre suf p :
  no_sep pre -> no_sep suf -> no_sep (pre +:+ (stem p +:+ suf)).
Proof.
  intros Hpre Hsuf. apply no_sep_app; [exact Hpre|].
  apply no_sep_app; [apply stem_no_sep | exact Hsuf].
Qed.

(** X7. No artifact name has a directory part: whatever directory the
    source is in, the artifacts are written to the working directory. *)
Theorem artifacts_have_no_directory image_path :
  Forall no_sep (artifact_paths image_path).
Proof.
  unfold artifact_paths. repeat apply Forall_cons_2; [..|apply Forall_nil_2];
    apply no_sep_template; reflexivity.
Qed.

Lemma basename_join dir name :
  no_sep name -> basename (dir +:+ String sep name) = name.
Proof.
  intros Hn. unfold basename. rewrite rfind_app.
  assert (H0 : rfind (String sep name) sep = 0).
  { cbn [rfind]. unfold no_sep in Hn. rewrite Hn. reflexivity. }
  rewrite H0. cbn [Z.leb Z.compare].
  replace (Z.to_nat (Z.of_nat (String.length dir) + 0 + 1))
    with (String.length (dir +:+ String sep EmptyString)).
  - replace (dir +:+ String sep name)
      with ((dir +:+ String sep EmptyString) +:+ name).
    + apply slice_from_app.
    + rewrite app_assoc, app_cons, app_nil_l. reflexivity.
  - rewrite length_app. cbn [String.length]. lia.
Qed.

Lemma stem_join dir name :
  no_sep name -> stem (dir +:+ String sep name) = stem name.
Proof.
  intros Hn. unfold stem. now rewrite basename_join, basename_id.
Qed.

(** X8. The artifact names, and the sibling names cleanup sweeps, are
    computed from the file name alone: sources with the same file name in
    different directories share all of them. *)
Theorem artifacts_named_after_file_name dir name :
  no_sep name ->
  artifact_paths (dir +:+ String sep name) = artifact_paths name /\
  method_files (dir +:+ String sep name) = method_files name.
Proof.
  intros Hn.
  unfold artifact_paths, method_files, military_temp_path, messaging_temp_path,
    conservative_temp_path, extreme_temp_path, enhanced_temp_path.
  now rewrite (stem_join dir name Hn).
Qed.

Lemma artifacts_named_after_file_name_witness :
  artifact_paths "inbox/scan.png" = artifact_paths "scan.png" /\
  method_files "inbox/scan.png" = method_files "scan.png".
Proof.
  exact (artifacts_named_after_file_name "inbox" "scan.png" eq_refl).
Defined.

(** *** The single-image functions, outcome by outcome *)

Lemma first_fault_none faults lines :
  (forall l, In l lines -> faults l 0%nat = None) ->
  first_fault faults lines = None.
Proof.
  induction lines as [|l lines IH]; intros H; [reflexivity|].
  cbn [first_fault]. rewrite (H l) by now left.
  apply IH. intros l' Hl. apply H. now right.
Qed.

Section NoFaults.

Variable B : backend.
Variable faults : nat -> nat -> option string.
Hypothesis F : forall l i, (16 <= l <= 70)%nat -> faults l i = None.

Lemma deskew_returns img gray coords w :
  deskew B faults img gray coords w = (Ok (deskewed B img gray coords), w).
Proof.
  unfold deskew, deskewed. unfold mbind, M_bind, mret, M_ret, call.
  rewrite F by lia. cbv beta iota zeta.
  destruct (1 <? abs _)%float; [|reflexivity].
  rewrite F by lia. cbv beta iota. rewrite F by lia. reflexivity.
Qed.

Lemma remove_small_blobs_returns contours : forall i processed w,
  remove_small_blobs B faults i contours processed w
  = (Ok (blobs_removed B contours processed), w).
Proof.
  induction contours as [|c rest IH]; intros i processed w; [reflexivity|].
  cbn [remove_small_blobs blobs_removed fold_left].
  unfold mbind at 1. unfold M_bind at 1. unfold call at 1.
  rewrite F by lia.
  unfold mbind at 1. unfold M_bind at 1.
  destruct (negb _).
  - unfold call at 1. rewrite F by lia. apply IH.
  - apply IH.
Qed.

Lemma binarize_and_clean_returns rotated w :
  binarize_and_clean B faults rotated w = (Ok (cleaned B rotated), w).
Proof.
  unfold binarize_and_clean, cleaned.
  unfold mbind at 1. unfold M_bind at 1. unfold call at 1. rewrite F by lia.
  destruct (threshold B rotated 0 255 (THRESH_BINARY_INV + THRESH_OTSU))
    as [level thresh]. cbn [snd].
  unfold mbind at 1. unfold M_bind at 1. unfold call at 1. rewrite F by lia.
  unfold mbind at 1. unfold M_bind at 1. unfold call at 1. rewrite F by lia.
  apply remove_small_blobs_returns.
Qed.

Lemma preprocess_image_for_ocr_returns p w img :
  decoded w p = Some img ->
  nonzero_coords (cvtColor_BGR2GRAY B img) <> [] ->
  preprocess_image_for_ocr B faults p w =
    (Ok (military_temp_path p),
     written B (military_temp_path p) (military_image B img) w).
Proof.
  intros Hd Hc. unfold preprocess_image_for_ocr, try_except.
  unfold mbind at 1. unfold M_bind at 1. unfold cv2_imread.
  rewrite F by lia. rewrite Hd.
  unfold mbind at 1. unfold M_bind at 1. unfold call at 1. rewrite F by lia.
  destruct (nonzero_coords (cvtColor_BGR2GRAY B img)) as [|c cs] eqn:E;
    [now contradict Hc|]. cbn [length Nat.eqb].
  unfold mbind at 1. unfold M_bind at 1. rewrite deskew_returns.
  unfold mbind at 1. unfold M_bind at 1. rewrite binarize_and_clean_returns.
  unfold mbind at 1. unfold M_bind at 1. unfold cv2_imwrite.
  rewrite F by lia. unfold military_image, written, write. cbv zeta.
  rewrite E. now destruct (imwrite_ok B _ _).
Qed.

End NoFaults.

Lemma preprocess_image_for_ocr_outcome B faults p w :
  exists r w',
    preprocess_image_for_ocr B faults p w = (Ok r, w') /\
    ((r = p /\ exists line, w' = World (files w) (stdout w ++ [line])%list) \/
     (r = military_temp_path p /\
      exists img, decoded w p = Some img /\
                  w' = written B (military_temp_path p) (military_image B img) w)).
Proof.
  unfold preprocess_image_for_ocr, try_except.
  unfold mbind at 1. unfold M_bind at 1. unfold cv2_imread.
  destruct (faults 16 0)%nat; [eexists _, _; split; [reflexivity|left; eauto]|].
  destruct (decoded w p) as [img|];
    [|eexists _, _; split; [reflexivity|left; eauto]].
  unfold mbind at 1. unfold M_bind at 1. unfold call at 1.
  destruct (faults 21 0)%nat; [eexists _, _; split; [reflexivity|left; eauto]|].
  destruct (length _ =? 0)%nat;
    [eexists _, _; split; [reflexivity|left; eauto]|].
  unfold mbind at 1. unfold M_bind at 1.
  destruct (deskew_run B faults img (cvtColor_BGR2GRAY B img)
              (nonzero_coords (cvtColor_BGR2GRAY B img)) w)
    as [[rotated [-> ->]] | [msg ->]];
    [|eexists _, _; split; [reflexivity|left; eauto]].
  unfold mbind at 1. unfold M_bind at 1.
  destruct (binarize_and_clean_run B faults
              (deskewed B img (cvtColor_BGR2GRAY B img)
                 (nonzero_coords (cvtColor_BGR2GRAY B img))) w)
    as [[out [-> ->]] | [msg ->]];
    [|eexists _, _; split; [reflexivity|left; eauto]].
  unfold mbind at 1. unfold M_bind at 1. unfold Py.cv2_imwrite.
  destruct (faults 70 0)%nat; [eexists _, _; split; [reflexivity|left; eauto]|].
  exists (military_temp_path p),
         (written B (military_temp_path p) (military_image B img) w).
  split; [|right; split; [reflexivity|exists img; split; reflexivity]].
  unfold written, write, military_image. cbv zeta.
  now destruct (imwrite_ok B _ _).
Qed.

(** X9. When the source loads, has content above zero, no call of
    [preprocess_image_for_ocr] (lines 16-70) raises and [cv2.imwrite]
    reports success, the function returns the military-grade temp name,
    prints nothing, and has written there exactly the cleaned binarization
    of the deskewed gray image.  When [cv2.imwrite] returns [False]
    instead, the same name is returned and the world is as it was. *)
Theorem preprocess_image_for_ocr_success B faults image_path w img :
  (forall l i, (16 <= l <= 70)%nat -> faults l i = None) ->
  decoded w image_path = Some img ->
  nonzero_coords (cvtColor_BGR2GRAY B img) <> [] ->
  preprocess_image_for_ocr B faults image_path w =
    (Ok (military_temp_path image_path),
     if imwrite_ok B (military_temp_path image_path) (military_image B img)
     then World (<[military_temp_path image_path :=
                     GrayPng (military_image B img)]> (files w))
                (stdout w)
     else w).
Proof.
  intros F Hd Hc. now apply (preprocess_image_for_ocr_returns B faults F).
Qed.

Lemma preprocess_image_for_ocr_success_witness :
  preprocess_image_for_ocr Demo.backend Demo.no_faults "./scan.png" Demo.disk =
    (Ok "temp_military_processed_scan_ocr.png",
     World (<["temp_military_processed_scan_ocr.png" :=
                GrayPng (military_image Demo.backend Demo.dot)]>
              (files Demo.disk))
           []).
Proof.
  apply (preprocess_image_for_ocr_success Demo.backend Demo.no_faults
           "./scan.png" Demo.disk Demo.dot).
  - reflexivity.
  - vm_compute. reflexivity.
  - vm_compute. discriminate.
Defined.

(** X10. Every fallback of [preprocess_image_for_ocr] is announced: when
    it returns the source path it has printed exactly one line and touched
    no file.  When it returns the temp name it has printed nothing, the
    source had loaded, and the file system is as [cv2.imwrite] left it:
    holding the military-grade image of the source under that name when the
    call reported success, unchanged when it returned [False]. *)
Theorem preprocess_image_for_ocr_fallback_is_announced B faults image_path w :
  exists r w',
    preprocess_image_for_ocr B faults image_path w = (Ok r, w') /\
    ((r = image_path /\ files w' = files w /\
      exists line, stdout w' = (stdout w ++ [line])%list) \/
     (r = military_temp_path image_path /\ stdout w' = stdout w /\
      exists img,
        decoded w image_path = Some img /\
        files w' =
          if imwrite_ok B r (military_image B img)
          then <[r := GrayPng (military_image B img)]> (files w)
          else files w)).
Proof.
  destruct (preprocess_image_for_ocr_outcome B faults image_path w)
    as (r & w' & E & [[-> [line ->]] | [-> (img & Hd & ->)]]);
    eexists _, _; (split; [exact E|]); [left|right].
  - split; [reflexivity|]. split; [reflexivity|]. now exists line.
  - split; [reflexivity|]. unfold written.
    split; [now destruct (imwrite_ok B _ _)|].
    exists img. split; [exact Hd|]. now destruct (imwrite_ok B _ _).
Qed.

(** X11. A source that [cv2.imread] cannot load: the function prints the
    warning of line 18 and returns the source path; when the [imread] call
    itself raises, the line printed is the failure message of line 75. *)
Theorem preprocess_image_for_ocr_unreadable B faults image_path w :
  decoded w image_path = None ->
  preprocess_image_for_ocr B faults image_path w =
    (Ok image_path,
     World (files w)
           (stdout w ++
            [match faults 16%nat 0%nat with
             | None => "Warning: Could not load image " +:+ image_path
             | Some e => "Military-grade preprocessing failed for "
                         +:+ (image_path +:+ (": " +:+ e))
             end])%list).
Proof.
  intros Hd. unfold preprocess_image_for_ocr, try_except.
  unfold mbind at 1. unfold M_bind at 1. unfold cv2_imread.
  destruct (faults 16 0)%nat; [reflexivity|]. now rewrite Hd.
Qed.

Lemma preprocess_image_for_ocr_unreadable_witness :
  preprocess_image_for_ocr Demo.backend Demo.no_faults "gone.png" Demo.disk =
    (Ok "gone.png",
     World (files Demo.disk) ["Warning: Could not load image gone.png"]).
Proof.
  apply (preprocess_image_for_ocr_unreadable Demo.backend Demo.no_faults
           "gone.png" Demo.disk).
  vm_compute. reflexivity.
Defined.

Lemma preprocess_messaging_app_screenshot_run B faults p w img :
  decoded w p = Some img ->
  preprocess_messaging_app_screenshot B faults p w =
    match first_fault faults messaging_lines with
    | Some e =>
        (Ok p,
         World (files w)
               (stdout w ++ ["Messaging app preprocessing failed for "
                             +:+ (p +:+ (": " +:+ e))])%list)
    | None =>
        (Ok (messaging_temp_path p),
         written B (messaging_temp_path p) (messaging_image B img) w)
    end.
Proof.
  intros Hd.
  unfold preprocess_messaging_app_screenshot, try_except, messaging_lines,
    first_fault.
  unfold mbind at 1. unfold M_bind at 1. unfold cv2_imread.
  destruct (faults 85 0)%nat; [reflexivity|]. rewrite Hd.
  unfold multi_stage_binarization, aggressive_morphology, remove_ui_lines.
  unfold mbind, M_bind, mret, M_ret, call, Py.cv2_imwrite.
  repeat match goal with
         | |- context [faults ?l 0%nat] =>
             destruct (faults l 0%nat); cbv beta iota zeta; [reflexivity|]
         end.
  unfold written, write, messaging_image, combined_binarization. cbv zeta.
  match goal with
  | |- context [threshold ?B ?a ?b ?c ?d] => destruct (threshold B a b c d)
  end.
  cbn [snd]. now destruct (imwrite_ok B _ _).
Qed.

(** X12. On a source that loads, [preprocess_messaging_app_screenshot] is
    decided by the first of its sixteen calls to raise: if one does, the
    source path is returned, no file is touched and the failure line with
    that exception is printed; if none does, the temp name is returned and
    nothing is printed, and the file holds the image of steps 1 to 5 when
    [cv2.imwrite] reported success, while nothing at all has changed when
    it returned [False]. *)
Theorem preprocess_messaging_app_screenshot_outcome B faults image_path w img :
  decoded w image_path = Some img ->
  preprocess_messaging_app_screenshot B faults image_path w =
    match first_fault faults messaging_lines with
    | Some e =>
        (Ok image_path,
         World (files w)
               (stdout w ++ ["Messaging app preprocessing failed for "
                             +:+ (image_path +:+ (": " +:+ e))])%list)
    | None =>
        (Ok (messaging_temp_path image_path),
         if imwrite_ok B (messaging_temp_path image_path) (messaging_image B img)
         then World (<[messaging_temp_path image_path :=
                         GrayPng (messaging_image B img)]> (files w))
                    (stdout w)
         else w)
    end.
Proof. apply preprocess_messaging_app_screenshot_run. Qed.

Lemma preprocess_messaging_app_screenshot_outcome_witness :
  preprocess_messaging_app_screenshot Demo.backend
    (Demo.fault_at 123 "bad kernel") "scan.png" Demo.disk =
    (Ok "scan.png",
     World (files Demo.disk)
           ["Messaging app preprocessing failed for scan.png: bad kernel"]).
Proof.
  apply (preprocess_messaging_app_screenshot_outcome Demo.backend
           (Demo.fault_at 123 "bad kernel") "scan.png" Demo.disk Demo.dot).
  vm_compute. reflexivity.
Defined.

(** X13. A source that [cv2.imread] cannot load makes
    [preprocess_messaging_app_screenshot] return the source path silently:
    unlike [preprocess_image_for_ocr] it prints no warning, and the world
    is exactly as before. *)
Theorem preprocess_messaging_app_screenshot_unreadable_is_silent
    B faults image_path w :
  decoded w image_path = None ->
  faults 85%nat 0%nat = None ->
  preprocess_messaging_app_screenshot B faults image_path w = (Ok image_path, w).
Proof.
  intros Hd F. unfold preprocess_messaging_app_screenshot, try_except.
  unfold mbind at 1. unfold M_bind at 1. unfold cv2_imread.
  now rewrite F, Hd.
Qed.

Lemma preprocess_messaging_app_screenshot_unreadable_is_silent_witness :
  preprocess_messaging_app_screenshot Demo.backend Demo.no_faults "gone.png"
    Demo.disk = (Ok "gone.png", Demo.disk).
Proof.
  apply (preprocess_messaging_app_screenshot_unreadable_is_silent Demo.backend
           Demo.no_faults "gone.png" Demo.disk).
  - vm_compute. reflexivity.
  - reflexivity.
Defined.

(** X14. On a file PIL can open, [enhance_image_contrast] is decided by the
    first of its calls to raise, where the conversion of line 218 is a call
    only for an image that is not of mode 'L': a mode 'L' file is enhanced
    as it is.  Without a raise the temp name is returned, nothing is
    printed and the file holds the contrast-enhanced image. *)
Theorem enhance_image_contrast_outcome B faults image_path w f g :
  files w !! image_path = Some f ->
  contrast_image B f = Some g ->
  enhance_image_contrast B faults image_path w =
    match first_fault faults (contrast_lines f) with
    | Some e =>
        (Ok image_path,
         World (files w)
               (stdout w ++ ["Contrast enhancement failed for "
                             +:+ (image_path +:+ (": " +:+ e))])%list)
    | None =>
        (Ok (enhanced_temp_path image_path),
         World (<[enhanced_temp_path image_path := GrayPng g]> (files w))
               (stdout w))
    end.
Proof.
  intros Hf Hg. unfold enhance_image_contrast, try_except.
  unfold mbind at 1. unfold M_bind at 1. unfold Image_open.
  destruct f as [c|g0|]; [| |discriminate]; injection Hg as <-;
    cbn [contrast_lines first_fault];
    (destruct (faults 215 0)%nat; [reflexivity|]); rewrite Hf;
    unfold mbind, M_bind, mret, M_ret, call, pil_save;
    repeat match goal with
           | |- context [faults ?l 0%nat] =>
               destruct (faults l 0%nat); cbv beta iota zeta; [reflexivity|]
           end;
    reflexivity.
Qed.

Lemma enhance_image_contrast_outcome_witness :
  enhance_image_contrast Demo.backend (Demo.fault_at 218 "no conversion")
    "temp_scan_conservative.png" workdir =
    (Ok "temp_enhanced_temp_scan_conservative.png",
     World (<["temp_enhanced_temp_scan_conservative.png" :=
                GrayPng (pil_contrast Demo.backend Demo.white 2%float)]>
              (files workdir))
           []).
Proof.
  apply (enhance_image_contrast_outcome Demo.backend
           (Demo.fault_at 218 "no conversion") "temp_scan_conservative.png"
           workdir (GrayPng Demo.white)).
  - vm_compute. reflexivity.
  - reflexivity.
Defined.

(** X15. On a path PIL cannot open (missing, or not an image)
    [enhance_image_contrast] returns the path itself, touches no file and
    prints one failure line. *)
Theorem enhance_image_contrast_unreadable B faults image_path w :
  decoded w image_path = None ->
  exists e,
    enhance_image_contrast B faults image_path w =
      (Ok image_path,
       World (files w)
             (stdout w ++ ["Contrast enhancement failed for "
                           +:+ (image_path +:+ (": " +:+ e))])%list).
Proof.
  intros Hd. unfold enhance_image_contrast, try_except.
  unfold mbind at 1. unfold M_bind at 1. unfold Image_open.
  destruct (faults 215 0)%nat; [eexists; reflexivity|].
  unfold decoded in Hd.
  destruct (files w !! image_path) as [[c|g|]|]; try discriminate;
    eexists; reflexivity.
Qed.

Lemma enhance_image_contrast_unreadable_witness :
  exists e,
    enhance_image_contrast Demo.backend Demo.no_faults "temp_scan_method2.png"
      workdir =
      (Ok "temp_scan_method2.png",
       World (files workdir)
             (stdout workdir ++
              ["Contrast enhancement failed for "
               +:+ ("temp_scan_method2.png" +:+ (": " +:+ e))])%list).
Proof.
  apply (enhance_image_contrast_unreadable Demo.backend Demo.no_faults
           "temp_scan_method2.png" workdir).
  vm_compute. reflexivity.
Defined.

(** *** The multi-method generator *)

Lemma generator_names_differ p :
  military_temp_path p <> messaging_temp_path p /\
  military_temp_path p <> conservative_temp_path p /\
  military_temp_path p <> extreme_temp_path p /\
  messaging_temp_path p <> conservative_temp_path p /\
  messaging_temp_path p <> extreme_temp_path p /\
  conservative_temp_path p <> extreme_temp_path p.
Proof.
  unfold military_temp_path, messaging_temp_path, conservative_temp_path,
    extreme_temp_path.
  repeat split; intros H; names_differ H.
Qed.

(** Two artifact names of one source name the same file only if they are
    the same name. *)
Lemma artifact_files_differ p a b :
  In a (artifact_paths p) -> In b (artifact_paths p) -> a <> b ->
  ~ same_file a b.
Proof.
  intros Ha Hb Hne Hs. unfold same_file in Hs.
  now rewrite (artifact_paths_plain p a Ha), (artifact_paths_plain p b Hb) in Hs.
Qed.

Lemma generator_paths_artifacts p q :
  In q (generator_paths p) -> In q (artifact_paths p).
Proof. unfold generator_paths, artifact_paths. cbn [In]. tauto. Qed.

Lemma decoded_written B path g w p :
  ~ same_file path p -> decoded (written B path g w) p = decoded w p.
Proof.
  intros Hne. unfold written. destruct (imwrite_ok B path g); [|reflexivity].
  unfold decoded, write. cbn [files]. now rewrite disk_lookup_insert_ne.
Qed.

(** What a path holds after a write that may have failed. *)
Lemma lookup_written B path g w q :
  files (written B path g w) !! q =
    if imwrite_ok B path g
    then (if bool_decide (same_file path q) then Some (GrayPng g)
          else files w !! q)
    else files w !! q.
Proof.
  unfold written. destruct (imwrite_ok B path g); [|reflexivity].
  unfold write. cbn [files]. case_bool_decide as Hs.
  - now apply disk_lookup_insert.
  - now apply disk_lookup_insert_ne.
Qed.

(** X16. Whatever the library calls do, [preprocess_with_multiple_methods]
    deletes nothing and changes no path other than its four artifact names,
    each of which, if changed, holds a gray PNG; the source file itself is
    what it was. *)
Theorem multi_method_touches_only_its_artifacts B faults image_path w :
  written_within (generator_paths image_path) w
    (snd (preprocess_with_multiple_methods B faults image_path w)) /\
  files (snd (preprocess_with_multiple_methods B faults image_path w))
    !! image_path = files w !! image_path.
Proof.
  pose proof (preprocess_with_multiple_methods_written B faults image_path w)
    as Hw.
  split; [exact Hw|].
  destruct (Hw image_path) as [E | [(n & Hin & Hs) _]]; [exact E|].
  exfalso. unfold generator_paths in Hin. cbn [In] in Hin.
  destruct Hin as [<- | [<- | [<- | [<- | []]]]]; symmetry in Hs; revert Hs.
  - apply military_temp_file_ne.
  - apply messaging_temp_file_ne.
  - apply conservative_temp_file_ne.
  - apply extreme_temp_file_ne.
Qed.

Lemma methods_one_and_two_return B faults p w img :
  (forall l i, (16 <= l <= 132)%nat -> faults l i = None) ->
  decoded w p = Some img ->
  nonzero_coords (cvtColor_BGR2GRAY B img) <> [] ->
  let w2 := written B (messaging_temp_path p) (messaging_image B img)
              (written B (military_temp_path p) (military_image B img) w) in
  collect_methods B faults p [] w =
    inline_outcome B faults p (military_temp_path p) (messaging_temp_path p) w2
  /\ decoded w2 p = Some img.
Proof.
  intros F Hd Hc w2.
  assert (E1 : preprocess_image_for_ocr B faults p w =
               (Ok (military_temp_path p),
                written B (military_temp_path p) (military_image B img) w)).
  { apply preprocess_image_for_ocr_returns; [|exact Hd|exact Hc].
    intros l i Hl. apply F. lia. }
  assert (Hd1 : decoded (written B (military_temp_path p)
                           (military_image B img) w) p
                = Some img).
  { rewrite decoded_written; [exact Hd | apply military_temp_file_ne]. }
  assert (E2 : preprocess_messaging_app_screenshot B faults p
                 (written B (military_temp_path p) (military_image B img) w) =
               (Ok (messaging_temp_path p), w2)).
  { rewrite (preprocess_messaging_app_screenshot_run B faults p _ img Hd1).
    rewrite first_fault_none; [reflexivity|].
    intros l Hl. apply F. unfold messaging_lines in Hl. cbn [In] in Hl.
    repeat destruct Hl as [<- | Hl]; solve [lia | destruct Hl]. }
  split.
  - exact (collect_methods_run B faults p w _ _ _ _ E1 E2).
  - unfold w2. rewrite decoded_written; [exact Hd1 | apply messaging_temp_file_ne].
Qed.

(** The world the generator leaves when methods 1 to 3 ran and no call up
    to line 165 raised. *)
Lemma methods_one_to_three_return B faults p w img :
  (forall l i, (16 <= l <= 165)%nat -> faults l i = None) ->
  decoded w p = Some img ->
  nonzero_coords (cvtColor_BGR2GRAY B img) <> [] ->
  let w3 := written B (conservative_temp_path p) (conservative_image B img)
              (written B (messaging_temp_path p) (messaging_image B img)
                 (written B (military_temp_path p) (military_image B img) w)) in
  preprocess_with_multiple_methods B faults p w =
    match first_fault faults extreme_lines with
    | Some e =>
        (Ok [("original", p)],
         World (files w3)
               (stdout w3 ++ ["Multi-method preprocessing failed for "
                              +:+ (p +:+ (": " +:+ e))])%list)
    | None =>
        (Ok [("military_grade", military_temp_path p);
             ("messaging_specialized", messaging_temp_path p);
             ("conservative", conservative_temp_path p);
             ("extreme_enhancement", extreme_temp_path p)],
         written B (extreme_temp_path p) (extreme_image B img) w3)
    end.
Proof.
  intros F Hd Hc w3.
  destruct (methods_one_and_two_return B faults p w img) as [Hrun Hd2];
    [intros l i Hl; apply F; lia | exact Hd | exact Hc |].
  unfold preprocess_with_multiple_methods, try_except. rewrite Hrun.
  unfold inline_outcome. rewrite (F 160%nat 0%nat) by lia. rewrite Hd2.
  rewrite first_fault_none
    by (intros l Hl; apply F; unfold conservative_lines in Hl; cbn [In] in Hl;
        repeat destruct Hl as [<- | Hl]; try lia; destruct Hl).
  cbv zeta. fold w3. now destruct (first_fault faults extreme_lines).
Qed.

Lemma stdout_written B path g w : stdout (written B path g w) = stdout w.
Proof. unfold written. now destruct (imwrite_ok B path g). Qed.

(** X17. When the source loads, has content above zero and no call raises,
    [preprocess_with_multiple_methods] returns the four candidates in the
    order military_grade, messaging_specialized, conservative,
    extreme_enhancement and prints nothing.  Each candidate's path holds
    the image of its own pipeline if its [cv2.imwrite] reported success,
    and what it held before if that call returned [False]: a candidate can
    name a file that was never written.  Every path that names none of the
    four files is as it was. *)
Theorem multi_method_success B faults image_path w img :
  (forall l i, (16 <= l <= 184)%nat -> faults l i = None) ->
  decoded w image_path = Some img ->
  nonzero_coords (cvtColor_BGR2GRAY B img) <> [] ->
  exists w',
    preprocess_with_multiple_methods B faults image_path w =
      (Ok [("military_grade", military_temp_path image_path);
           ("messaging_specialized", messaging_temp_path image_path);
           ("conservative", conservative_temp_path image_path);
           ("extreme_enhancement", extreme_temp_path image_path)], w') /\
    stdout w' = stdout w /\
    files w' !! military_temp_path image_path
      = (if imwrite_ok B (military_temp_path image_path) (military_image B img)
         then Some (GrayPng (military_image B img))
         else files w !! military_temp_path image_path) /\
    files w' !! messaging_temp_path image_path
      = (if imwrite_ok B (messaging_temp_path image_path) (messaging_image B img)
         then Some (GrayPng (messaging_image B img))
         else files w !! messaging_temp_path image_path) /\
    files w' !! conservative_temp_path image_path
      = (if imwrite_ok B (conservative_temp_path image_path)
                       (conservative_image B img)
         then Some (GrayPng (conservative_image B img))
         else files w !! conservative_temp_path image_path) /\
    files w' !! extreme_temp_path image_path
      = (if imwrite_ok B (extreme_temp_path image_path) (extreme_image B img)
         then Some (GrayPng (extreme_image B img))
         else files w !! extreme_temp_path image_path) /\
    (forall q, ~ names_one_of (generator_paths image_path) q ->
               files w' !! q = files w !! q).
Proof.
  intros F Hd Hc.
  pose proof (methods_one_to_three_return B faults image_path w img) as Hrun.
  cbv zeta in Hrun. rewrite Hrun; [|intros l i Hl; apply F; lia|exact Hd|exact Hc].
  rewrite first_fault_none
    by (intros l Hl; apply F; unfold extreme_lines in Hl; cbn [In] in Hl;
        repeat destruct Hl as [<- | Hl]; try lia; destruct Hl).
  eexists. split; [reflexivity|].
  split; [now rewrite !stdout_written|].
  assert (Hdiff : forall a b,
             In a (generator_paths image_path) ->
             In b (generator_paths image_path) -> a <> b ->
             bool_decide (same_file a b) = false).
  { intros a b Ha Hb Hne. apply bool_decide_eq_false.
    apply (artifact_files_differ image_path);
      auto using generator_paths_artifacts. }
  assert (Hsame : forall a, bool_decide (same_file a a) = true)
    by (intros a; now apply bool_decide_eq_true).
  destruct (generator_names_differ image_path)
    as (H12 & H13 & H14 & H23 & H24 & H34).
  unfold generator_paths in Hdiff. cbn [In] in Hdiff.
  rewrite !lookup_written.
  repeat split.
  - rewrite ?Hsame. rewrite ?Hdiff by (try tauto; congruence).
    now repeat destruct (imwrite_ok B _ _).
  - rewrite ?Hsame. rewrite ?Hdiff by (try tauto; congruence).
    now repeat destruct (imwrite_ok B _ _).
  - rewrite ?Hsame. rewrite ?Hdiff by (try tauto; congruence).
    now repeat destruct (imwrite_ok B _ _).
  - rewrite ?Hsame. rewrite ?Hdiff by (try tauto; congruence).
    now repeat destruct (imwrite_ok B _ _).
  - intros q Hq. rewrite !lookup_written.
    assert (Hno : forall a, In a (generator_paths image_path) ->
                            bool_decide (same_file a q) = false).
    { intros a Ha. apply bool_decide_eq_false. intros Hs. apply Hq.
      exists a. split; [exact Ha | now symmetry]. }
    unfold generator_paths in Hno. cbn [In] in Hno.
    rewrite !Hno by tauto. now repeat destruct (imwrite_ok B _ _).
Qed.

Lemma multi_method_success_witness :
  exists w',
    preprocess_with_multiple_methods Demo.backend Demo.no_faults "scan.png"
      Demo.disk =
      (Ok [("military_grade", "temp_military_processed_scan_ocr.png");
           ("messaging_specialized", "temp_messaging_processed_scan_ocr.png");
           ("conservative", "temp_scan_conservative.png");
           ("extreme_enhancement", "temp_scan_extreme.png")], w') /\
    files w' !! "temp_scan_extreme.png"
      = Some (GrayPng (extreme_image Demo.backend Demo.dot)) /\
    files w' !! "scan.png" = files Demo.disk !! "scan.png".
Proof.
  destruct (multi_method_success Demo.backend Demo.no_faults "scan.png"
              Demo.disk Demo.dot)
    as (w' & Hrun & _ & _ & _ & _ & H4 & Hrest).
  - reflexivity.
  - vm_compute. reflexivity.
  - vm_compute. discriminate.
  - exists w'. split; [exact Hrun|]. split; [exact H4|].
    apply Hrest. intros (n & Hn & Hs). vm_compute in Hn.
    destruct Hn as [<- | [<- | [<- | [<- | []]]]];
      vm_compute in Hs; discriminate Hs.
Defined.

(** X18. When the source loads and methods 1 to 3 run without a raise but
    a call of method 4 (lines 170-184) raises, the generator returns the
    single candidate [('original', path)] and prints the failure line, yet
    what the three [cv2.imwrite] calls of methods 1 to 3 have written stays
    on disk: each artifact whose write reported success is there, neither
    reported nor removed. *)
Theorem multi_method_failure_leaves_artifacts B faults image_path w img e :
  (forall l i, (16 <= l <= 165)%nat -> faults l i = None) ->
  first_fault faults extreme_lines = Some e ->
  decoded w image_path = Some img ->
  nonzero_coords (cvtColor_BGR2GRAY B img) <> [] ->
  exists w',
    preprocess_with_multiple_methods B faults image_path w =
      (Ok [("original", image_path)], w') /\
    stdout w' = (stdout w ++ ["Multi-method preprocessing failed for "
                              +:+ (image_path +:+ (": " +:+ e))])%list /\
    files w' =
      files (written B (conservative_temp_path image_path)
                     (conservative_image B img)
               (written B (messaging_temp_path image_path)
                        (messaging_image B img)
                  (written B (military_temp_path image_path)
                           (military_image B img) w))) /\
    (imwrite_ok B (conservative_temp_path image_path)
                (conservative_image B img) = true ->
     files w' !! conservative_temp_path image_path
       = Some (GrayPng (conservative_image B img))).
Proof.
  intros F Hx Hd Hc.
  pose proof (methods_one_to_three_return B faults image_path w img F Hd Hc)
    as Hrun.
  cbv zeta in Hrun. rewrite Hx in Hrun. rewrite Hrun.
  eexists. split; [reflexivity|]. cbn [stdout files].
  split; [now rewrite !stdout_written|]. split; [reflexivity|].
  intros Hok. rewrite lookup_written, Hok.
  now rewrite bool_decide_eq_true_2 by apply same_file_refl.
Qed.

Lemma multi_method_failure_leaves_artifacts_witness :
  exists w',
    preprocess_with_multiple_methods Demo.backend
      (Demo.fault_at 176 "out of memory") "scan.png" Demo.disk
      = (Ok [("original", "scan.png")], w') /\
    files w' !! "temp_scan_conservative.png"
      = Some (GrayPng (conservative_image Demo.backend Demo.dot)) /\
    stdout w' = ["Multi-method preprocessing failed for scan.png: out of memory"].
Proof.
  destruct (multi_method_failure_leaves_artifacts Demo.backend
              (Demo.fault_at 176 "out of memory") "scan.png" Demo.disk Demo.dot
              "out of memory") as (w' & Hrun & Hout & _ & Hfile).
  - intros l i Hl. unfold Demo.fault_at.
    destruct (l =? 176)%nat eqn:E; [|reflexivity].
    apply Nat.eqb_eq in E. lia.
  - reflexivity.
  - vm_compute. reflexivity.
  - vm_compute. discriminate.
  - exists w'. split; [exact Hrun|]. split; [now apply Hfile | exact Hout].
Defined.

(** X19. A source that [cv2.imread] cannot load, with the three [imread]
    calls returning: the generator yields two candidates, military_grade
    and messaging_specialized, both carrying the source path itself; no
    file is written and the only line printed is the warning of method 1. *)
Theorem multi_method_unreadable_source B faults image_path w :
  decoded w image_path = None ->
  faults 16%nat 0%nat = None ->
  faults 85%nat 0%nat = None ->
  faults 160%nat 0%nat = None ->
  preprocess_with_multiple_methods B faults image_path w =
    (Ok [("military_grade", image_path); ("messaging_specialized", image_path)],
     World (files w)
           (stdout w ++ ["Warning: Could not load image " +:+ image_path])%list).
Proof.
  intros Hd F16 F85 F160.
  set (w1 := World (files w)
                   (stdout w ++ ["Warning: Could not load image " +:+ image_path])%list).
  assert (E1 : preprocess_image_for_ocr B faults image_path w = (Ok image_path, w1)).
  { unfold preprocess_image_for_ocr, try_except.
    unfold mbind at 1. unfold M_bind at 1. unfold cv2_imread.
    now rewrite F16, Hd. }
  assert (Hd1 : decoded w1 image_path = None) by exact Hd.
  assert (E2 : preprocess_messaging_app_screenshot B faults image_path w1
               = (Ok image_path, w1)).
  { unfold preprocess_messaging_app_screenshot, try_except.
    unfold mbind at 1. unfold M_bind at 1. unfold cv2_imread.
    now rewrite F85, Hd1. }
  unfold preprocess_with_multiple_methods, try_except.
  rewrite (collect_methods_run B faults image_path w _ _ _ _ E1 E2).
  unfold inline_outcome. now rewrite F160, Hd1.
Qed.

Lemma multi_method_unreadable_source_witness :
  preprocess_with_multiple_methods Demo.backend Demo.no_faults "gone.png"
    Demo.disk =
    (Ok [("military_grade", "gone.png"); ("messaging_specialized", "gone.png")],
     World (files Demo.disk) ["Warning: Could not load image gone.png"]).
Proof.
  apply (multi_method_unreadable_source Demo.backend Demo.no_faults "gone.png"
           Demo.disk).
  - vm_compute. reflexivity.
  - reflexivity.
  - reflexivity.
  - reflexivity.
Defined.

(** *** Processing, then cleaning up *)

Lemma remove_method_files_absent faults names : forall i w,
  (forall q, In q names -> files w !! q = None) ->
  remove_method_files faults i names w = (Ok tt, w).
Proof.
  induction names as [|a names IH]; intros i w Habs; [reflexivity|].
  cbn [remove_method_files].
  unfold mbind at 1. unfold M_bind at 1. unfold os_path_exists.
  unfold mbind at 1. unfold M_bind at 1.
  rewrite bool_decide_eq_false_2.
  - unfold mret, M_ret. apply IH. intros q Hq. apply Habs. now right.
  - rewrite (Habs a) by now left. now intros [x Hx].
Qed.

Lemma cleanup_undoes_write faults r p f w out :
  r <> p -> files w !! r = None ->
  (forall q, In q (method_files p) -> files w !! q = None) ->
  faults 200%nat 0%nat = None ->
  exists w2,
    cleanup_temp_files faults r p (World (<[r := f]> (files w)) out) = (Ok tt, w2) /\
    files w2 = files w.
Proof.
  intros Hne Hr Hs F200.
  exists (World (files w) out). split; [|reflexivity].
  unfold cleanup_temp_files, try_except.
  unfold mbind at 1. unfold M_bind at 1.
  rewrite bool_decide_eq_true_2 by exact Hne.
  unfold os_path_exists. cbn [files].
  rewrite (disk_lookup_insert (files w) r r f (same_file_refl r)).
  rewrite bool_decide_eq_true_2 by eauto.
  unfold mbind at 1. unfold M_bind at 1. unfold os_remove at 1.
  rewrite F200. cbn [files stdout].
  rewrite (disk_lookup_insert (files w) r r f (same_file_refl r)).
  rewrite (disk_delete_insert (files w) r f Hr).
  now rewrite remove_method_files_absent.
Qed.

Lemma cleanup_undoes_outcome faults r t p w w1 :
  r = p \/ r = t ->
  left_alone w w1 \/
  (r = t /\ exists f, w1 = World (<[t := f]> (files w)) (stdout w)) ->
  t <> p -> files w !! t = None ->
  (forall q, In q (method_files p) -> files w !! q = None) ->
  faults 200%nat 0%nat = None ->
  exists w2, cleanup_temp_files faults r p w1 = (Ok tt, w2) /\ files w2 = files w.
Proof.
  intros R [H | [-> [f ->]]] Hne Ht Hs F200.
  - exists w1. split; [|exact H]. apply cleanup_gate_closed.
    destruct R as [-> | ->]; [now left|right].
    unfold left_alone in H. now rewrite H.
  - now apply cleanup_undoes_write.
Qed.

(** X20. Process, then clean up: when none of the artifact and sibling
    names of the source is in use and no [os.remove] raises, running one of
    the three single-image functions and handing its result to
    [cleanup_temp_files] leaves the file system exactly as it was, whether
    the function produced its artifact or fell back to the source path. *)
Theorem process_then_cleanup_restores_files B faults faults' image_path w :
  (forall q, In q (artifact_paths image_path ++ method_files image_path)%list ->
             files w !! q = None) ->
  faults' 200%nat 0%nat = None ->
  (forall i, faults' 205%nat i = None) ->
  (exists r w1 w2,
     preprocess_image_for_ocr B faults image_path w = (Ok r, w1) /\
     cleanup_temp_files faults' r image_path w1 = (Ok tt, w2) /\
     files w2 = files w) /\
  (exists r w1 w2,
     preprocess_messaging_app_screenshot B faults image_path w = (Ok r, w1) /\
     cleanup_temp_files faults' r image_path w1 = (Ok tt, w2) /\
     files w2 = files w) /\
  (exists r w1 w2,
     enhance_image_contrast B faults image_path w = (Ok r, w1) /\
     cleanup_temp_files faults' r image_path w1 = (Ok tt, w2) /\
     files w2 = files w).
Proof.
  intros Hfree F200 F205.
  assert (Hs : forall q, In q (method_files image_path) -> files w !! q = None)
    by (intros q Hq; apply Hfree, in_or_app; now right).
  assert (Ha : forall q, In q (artifact_paths image_path) -> files w !! q = None)
    by (intros q Hq; apply Hfree, in_or_app; now left).
  unfold artifact_paths in Ha. cbn [In] in Ha.
  split; [|split].
  - destruct (preprocess_image_for_ocr_spec B faults image_path w)
      as (r & w1 & E & R & H).
    destruct (cleanup_undoes_outcome faults' r (military_temp_path image_path)
                image_path w w1) as (w2 & E2 & Hf); auto.
    + destruct H as [H | [-> [g [_ ->]]]]; [now left | right; eauto].
    + apply military_temp_path_ne.
    + exists r, w1, w2. auto.
  - destruct (preprocess_messaging_app_screenshot_spec B faults image_path w)
      as (r & w1 & E & R & H).
    destruct (cleanup_undoes_outcome faults' r (messaging_temp_path image_path)
                image_path w w1) as (w2 & E2 & Hf); auto 6.
    + destruct H as [H | [-> [g [_ ->]]]]; [now left | right; eauto].
    + apply messaging_temp_path_ne.
    + exists r, w1, w2. auto.
  - destruct (enhance_image_contrast_spec B faults image_path w)
      as (r & w1 & E & H).
    destruct (cleanup_undoes_outcome faults' r (enhanced_temp_path image_path)
                image_path w w1) as (w2 & E2 & Hf); auto 8.
    + destruct H as [[-> _] | [-> _]]; auto.
    + destruct H as [[_ H] | [-> [g ->]]]; [now left | right; eauto].
    + apply enhanced_temp_path_ne.
    + exists r, w1, w2. auto.
Qed.

Lemma process_then_cleanup_restores_files_witness :
  exists r w1 w2,
    preprocess_image_for_ocr Demo.backend Demo.no_faults "scan.png" Demo.disk
      = (Ok r, w1) /\
    cleanup_temp_files Demo.no_faults r "scan.png" w1 = (Ok tt, w2) /\
    files w2 = files Demo.disk.
Proof.
  apply (process_then_cleanup_restores_files Demo.backend Demo.no_faults
           Demo.no_faults "scan.png" Demo.disk).
  - intros q Hq. vm_compute in Hq.
    repeat destruct Hq as [<- | Hq]; try (vm_compute; reflexivity).
    destruct Hq.
  - reflexivity.
  - reflexivity.
Defined.

(** *** Pixels *)

Lemma offsets_symmetric k dy dx :
  Nat.odd (krows k) = true -> Nat.odd (kcols k) = true ->
  In (dy, dx) (offsets k) -> In (- dy, - dx) (offsets k).
Proof.
  intros Hr Hc. rewrite !in_offsets.
  apply Nat.odd_spec in Hr as [m Hm]. apply Nat.odd_spec in Hc as [n Hn].
  rewrite Hm, Hn.
  replace (Z.of_nat (2 * m + 1) / 2) with (Z.of_nat m)
    by (apply (Z.div_unique _ 2 _ 1); lia).
  replace (Z.of_nat (2 * n + 1) / 2) with (Z.of_nat n)
    by (apply (Z.div_unique _ 2 _ 1); lia).
  lia.
Qed.

Lemma close_extensive src k y x :
  Nat.odd (krows k) = true -> Nat.odd (kcols k) = true ->
  inside src y x = true -> px src y x <= 255 ->
  px src y x <= px (morphologyEx src MORPH_CLOSE k) y x.
Proof.
  intros Hr Hc Hin H255.
  change (morphologyEx src MORPH_CLOSE k) with (erode (dilate src k) k).
  apply erode_lower; [exact H255|]. intros dy dx Hd _.
  pose proof (dilate_ge_sample src k (y + dy) (x + dx) (- dy) (- dx)) as H.
  replace (y + dy + - dy) with y in H by lia.
  replace (x + dx + - dx) with x in H by lia.
  apply H; [now apply offsets_symmetric | exact Hin].
Qed.

(** X21. A closing with an all-ones element of odd height and width, as
    the three closings of the module are (3x3 at line 57, 5x5 at line 115,
    7x7 at line 181), never darkens a pixel of the image: the result is at
    least the sample it started from. *)
Theorem closing_never_darkens src rows cols y x :
  Nat.odd rows = true -> Nat.odd cols = true ->
  inside src y x = true -> px src y x <= 255 ->
  px src y x <= px (morphologyEx src MORPH_CLOSE (np_ones (rows, cols))) y x.
Proof. intros Hr Hc. now apply close_extensive. Qed.

Lemma closing_never_darkens_witness :
  px Demo.ruled 20 12
  <= px (morphologyEx Demo.ruled MORPH_CLOSE (np_ones (7, 7)%nat)) 20 12.
Proof.
  apply (closing_never_darkens Demo.ruled 7 7 20 12).
  - reflexivity.
  - reflexivity.
  - reflexivity.
  - vm_compute. discriminate.
Defined.

(** X22. Steps 3 to 5 of the military-grade pipeline keep the text: a
    pixel that the inverted Otsu binarization makes foreground, and that no
    contour of area below 10 covers, is foreground in the image the
    function writes. *)
Theorem military_cleaning_keeps_foreground B rotated y x :
  let thresh :=
    snd (threshold B rotated 0 255 (THRESH_BINARY_INV + THRESH_OTSU)) in
  let closed := morphologyEx thresh MORPH_CLOSE (np_ones (3, 3)%nat) in
  inside thresh y x = true ->
  px thresh y x = 255 ->
  (forall c, In c (findContours_external B closed) ->
             small c = true -> polygon_covers B c y x = false) ->
  px (cleaned B rotated) y x = 255.
Proof.
  intros thresh closed Hin Hfg Hfree.
  unfold cleaned. fold thresh. fold closed. cbv zeta.
  rewrite blobs_removed_px.
  assert (Hex : existsb (fun c => small c && polygon_covers B c y x)
                        (findContours_external B closed) = false).
  { apply not_true_iff_false. intros H.
    apply existsb_exists in H as (c & Hc & Hb).
    apply andb_true_iff in Hb as [Hs Hp].
    rewrite (Hfree c Hc Hs) in Hp. discriminate. }
  rewrite Hex.
  pose proof (close_extensive thresh (np_ones (3, 3)%nat) y x
                eq_refl eq_refl Hin) as Hle.
  pose proof (erode_upper (dilate thresh (np_ones (3, 3)%nat))
                          (np_ones (3, 3)%nat) y x) as Hup.
  change (erode (dilate thresh (np_ones (3, 3)%nat)) (np_ones (3, 3)%nat))
    with closed in Hup.
  fold closed in Hle. lia.
Qed.

Lemma military_cleaning_keeps_foreground_witness :
  In block_outline
     (findContours_external tracing_backend
        (morphologyEx
           (snd (threshold tracing_backend block_image 0 255
                   (THRESH_BINARY_INV + THRESH_OTSU)))
           MORPH_CLOSE (np_ones (3, 3)%nat))) /\
  polygon_covers tracing_backend block_outline 3 3 = true /\
  px (cleaned tracing_backend block_image) 3 3 = 255.
Proof.
  split; [now left|]. split; [reflexivity|].
  apply (military_cleaning_keeps_foreground tracing_backend block_image 3 3).
  - reflexivity.
  - reflexivity.
  - intros c [<- | []] Hs. vm_compute in Hs. discriminate Hs.
Defined.

(** X23. The UI-line removal only removes: when the step returns, every
    sample of its result lies between 0 and the sample it started from, so
    no pixel is brightened and a background pixel stays background. *)
Theorem ui_line_removal_only_removes faults processed w out w' y x :
  remove_ui_lines faults processed w = (Ok out, w') ->
  0 <= px processed y x ->
  0 <= px out y x <= px processed y x.
Proof.
  intros Hrun Hpx.
  destruct (pure_post_inv _ _ _ _ _ (remove_ui_lines_run faults processed) Hrun)
    as [-> _].
  unfold ui_lines_removed. rewrite !subtract_px.
  pose proof (open_lower processed hline y x).
  pose proof (open_lower processed vline y x).
  lia.
Qed.

Lemma ui_line_removal_only_removes_witness :
  0 <= px (ui_lines_removed Demo.ruled) 20 12 <= px Demo.ruled 20 12.
Proof.
  apply (ui_line_removal_only_removes Demo.no_faults Demo.ruled Demo.disk
           (ui_lines_removed Demo.ruled) Demo.disk 20 12).
  - reflexivity.
  - vm_compute. discriminate.
Defined.

(** X24. The blob-removal loop, overlapping contours included: when it
    returns, a pixel covered by the polygon of some contour of area below
    10 is 0, and every other pixel has the value it had; the loop touches
    neither the files nor the output. *)
Theorem blob_removal_pixelwise B faults contours i processed w out w' :
  remove_small_blobs B faults i contours processed w = (Ok out, w') ->
  w' = w /\
  forall y x,
    px out y x =
      if existsb (fun c => small c && polygon_covers B c y x) contours
      then 0 else px processed y x.
Proof.
  intros Hrun.
  destruct (pure_post_inv _ _ _ _ _
              (remove_small_blobs_run B faults contours i processed) Hrun)
    as [-> ->].
  split; [reflexivity|]. intros y x. apply blobs_removed_px.
Qed.

Lemma blob_removal_pixelwise_witness :
  px (blobs_removed Demo.backend [Demo.speck; Demo.bar; Demo.speck] Demo.white)
     1 1 = 0 /\
  px (blobs_removed Demo.backend [Demo.speck; Demo.bar; Demo.speck] Demo.white)
     1 5 = 255.
Proof.
  destruct (blob_removal_pixelwise Demo.backend Demo.no_faults
              [Demo.speck; Demo.bar; Demo.speck] 0 Demo.white Demo.disk
              (blobs_removed Demo.backend
                 [Demo.speck; Demo.bar; Demo.speck] Demo.white)
              Demo.disk eq_refl) as [_ Hpx].
  split; rewrite Hpx; reflexivity.
Defined.

End Extras.
